(** * The like-day similarity engine of [pjm_like_day/like_day.py]

    A shallow embedding of [_compute_metric] and [find_like_days] and the
    properties of the engine stated in the specification.

    Number model.  The engine computes on IEEE doubles held in numpy arrays
    and pandas columns.  In the main embedding a finite double is an exact
    real number (rounding and overflow are abstracted), and the three
    special values the code can produce or test for are kept explicit in
    [npfloat]: pandas' [std] of a single observation is NaN, and a division
    by a zero weight sum yields NaN or an infinity instead of raising.
    What is proved there is stated for the program only where rounding
    does not decide it.  Where rounding does decide, the module [F64]
    replays the same arithmetic on binary64, operation by operation, and
    the statement is settled on it. *)

From Stdlib Require Import Reals Lra List String Ascii ZArith Bool Lia Permutation Sorted.
From Stdlib Require Floats.
Import ListNotations.

Open Scope string_scope.
Open Scope R_scope.

(** ** numpy / pandas primitives used by the engine *)

Module Np.

(** A one-dimensional float array. *)
Definition ndarray := list R.

(** Element-wise binary operation on two arrays of equal length. *)
Fixpoint map2 {A B C : Type} (f : A -> B -> C) (xs : list A) (ys : list B) : list C :=
  match xs, ys with
  | x :: xs', y :: ys' => f x y :: map2 f xs' ys'
  | _, _ => []
  end.

(** [a.sum()] and the builtin [sum]: a left fold starting from zero. *)
Definition sum (a : ndarray) : R := fold_left Rplus a 0.

(** [a.mean()] on a non-empty array. *)
Definition mean (a : ndarray) : R := sum a / INR (List.length a).

(** [np.abs(a)] and [a ** 2]. *)
Definition abs (a : ndarray) : ndarray := map Rabs a.
Definition square (a : ndarray) : ndarray := map (fun x => x * x) a.

(** [a - b]. *)
Definition sub (a b : ndarray) : ndarray := map2 Rminus a b.

(** [np.dot(a, b)] on vectors. *)
Definition dot (a b : ndarray) : R := sum (map2 Rmult a b).

(** [np.linalg.norm(a)], the Euclidean norm [sqrt(a . a)]. *)
Definition norm (a : ndarray) : R := sqrt (dot a a).

(** A double as the engine can observe it: a finite value or one of the
    IEEE special values. *)
Inductive npfloat : Type :=
| Fin (r : R)
| PInf
| NInf
| NaN.

Definition isnan (x : npfloat) : bool :=
  match x with NaN => true | _ => false end.

Definition is_finite (x : npfloat) : bool :=
  match x with Fin _ => true | _ => false end.

(** IEEE subtraction on exact values. *)
Definition fsub (x y : npfloat) : npfloat :=
  match x, y with
  | NaN, _ | _, NaN => NaN
  | Fin a, Fin b => Fin (a - b)
  | Fin _, PInf => NInf
  | Fin _, NInf => PInf
  | PInf, PInf => NaN
  | PInf, _ => PInf
  | NInf, NInf => NaN
  | NInf, _ => NInf
  end.

(** IEEE division on exact values, without raising on a zero divisor (the
    way numpy and pandas divide).  A zero divisor counts as [+0.0]: the
    builtin [sum] starts from the integer [0] and so never returns [-0.0]. *)
Definition fdiv (x y : npfloat) : npfloat :=
  match x, y with
  | NaN, _ | _, NaN => NaN
  | Fin a, Fin b =>
      if Req_dec_T b 0 then
        if Req_dec_T a 0 then NaN
        else if Rlt_dec 0 a then PInf else NInf
      else Fin (a / b)
  | Fin _, _ => Fin 0
  | PInf, Fin b => if Rlt_dec b 0 then NInf else PInf
  | NInf, Fin b => if Rlt_dec b 0 then PInf else NInf
  | _, _ => NaN
  end.

(** [x > 0] on doubles: false on NaN. *)
Definition fgt0 (x : npfloat) : bool :=
  match x with
  | Fin a => if Rlt_dec 0 a then true else false
  | PInf => true
  | _ => false
  end.

(** [x <= y] on doubles: false as soon as one side is NaN. *)
Definition fle (x y : npfloat) : Prop :=
  match x, y with
  | NaN, _ | _, NaN => False
  | NInf, _ => True
  | _, PInf => True
  | Fin a, Fin b => a <= b
  | _, _ => False
  end.

Definition fleb (x y : npfloat) : bool :=
  match x, y with
  | NaN, _ | _, NaN => false
  | NInf, _ => true
  | _, PInf => true
  | Fin a, Fin b => if Rle_dec a b then true else false
  | _, _ => false
  end.

(** pandas [Series.mean()] of a non-empty float column without NaN. *)
Definition series_mean (s : list R) : R := mean s.

(** pandas [Series.std()]: the sample standard deviation (ddof = 1), NaN
    when fewer than two observations are present. *)
Definition series_std (s : list R) : npfloat :=
  match s with
  | [] | [_] => NaN
  | _ =>
      let m := mean s in
      Fin (sqrt (sum (map (fun x => (x - m) * (x - m)) s) / (INR (List.length s) - 1)))
  end.

End Np.

Export Np.

(** ** [_compute_metric] *)

(** A single distance value from a diff array, or from the flat vectors for
    the cosine metric.  The optional arguments are [None] by default. *)
Definition _compute_metric (diff : ndarray) (metric : string)
    (target_flat hist_flat : option ndarray) : R :=
  if String.eqb metric "mae" then
    Np.mean (Np.abs diff)
  else if String.eqb metric "rmse" then
    sqrt (Np.mean (Np.square diff))
  else if String.eqb metric "euclidean" then
    sqrt (Np.sum (Np.square diff))
  else if String.eqb metric "cosine" then
    match target_flat, hist_flat with
    | Some t, Some h =>
        let denom := Np.norm t * Np.norm h in
        if Req_dec_T denom 0 then 1
        else 1 - Np.dot t h / denom
    | _, _ => Np.mean (Np.abs diff)
    end
  else
    Np.mean (Np.abs diff).

(** ** Data model *)

(** One hourly observation of a table: its date (as a day number), its
    hour-ending label, and its feature columns.  Every row of an assembled
    table carries every feature column (the inner-join guarantee), so a
    column lookup never fails. *)
Record HourlyRow : Type := {
  date : Z;
  hour_ending : Z;
  cell : string -> R
}.

Definition DataFrame := list HourlyRow.

(** A Python [dict] from column names to floats: the items in insertion
    order, the keys pairwise distinct. *)
Definition dict := list (string * R).

Fixpoint dict_get (d : dict) (k : string) : option R :=
  match d with
  | [] => None
  | (k', v) :: d' => if String.eqb k k' then Some v else dict_get d' k
  end.

Definition keys (d : dict) : list string := map fst d.

(** [d[k]] for a key that is present; the engine only looks up keys it
    took from the mapping itself. *)
Definition getitem (d : dict) (k : string) : R :=
  match dict_get d k with Some v => v | None => 0 end.

(** [configs.FEATURE_COLS]. *)
Definition FEATURE_COLS : list string :=
  ["lmp_total"; "lmp_system_energy_price"; "lmp_congestion_price";
   "lmp_marginal_loss_price"].

(** One entry of [raw_results]: the date of a historical day and its raw
    distance per feature. *)
Record RawRow : Type := {
  raw_date : Z;
  raw_dist : dict
}.

(** One row of the returned frame. *)
Record MatchResult : Type := {
  m_date : Z;
  rank : Z;
  distance : npfloat;
  similarity : npfloat
}.

(** The outcome of a call: the returned frame, or the [ValueError] raised. *)
Inductive result (A : Type) : Type :=
| Ok (a : A)
| ValueError (msg : string).

Arguments Ok {A} a.
Arguments ValueError {A} msg.

(** ** pandas operations on tables *)

Section StableSort.
Context {A : Type} (leb : A -> A -> bool).

(** Insertion in front of the first element that is not smaller, which
    keeps equal elements in their input order. *)
Fixpoint insert_by (x : A) (l : list A) : list A :=
  match l with
  | [] => [x]
  | y :: l' => if leb x y then x :: y :: l' else y :: insert_by x l'
  end.

Definition sort_by (l : list A) : list A := fold_right insert_by [] l.
End StableSort.

(** [df.sort_values(hour_col)]; a day has one row per hour, rows with the
    same hour would keep their table order here. *)
Definition sort_values_hour (df : DataFrame) : DataFrame :=
  sort_by (fun a b => Z.leb (hour_ending a) (hour_ending b)) df.

(** [df[col].values]. *)
Definition values (col : string) (df : DataFrame) : ndarray :=
  map (fun r => cell r col) df.

(** The group keys of [df.groupby(date_col)]: the distinct dates, ascending. *)
Fixpoint insert_key (d : Z) (l : list Z) : list Z :=
  match l with
  | [] => [d]
  | x :: l' =>
      if Z.ltb d x then d :: x :: l'
      else if Z.eqb d x then x :: l'
      else x :: insert_key d l'
  end.

Definition group_keys (df : DataFrame) : list Z :=
  fold_right insert_key [] (map date df).

(** [df.groupby(date_col)]: each date with its rows, in table order. *)
Definition groupby_date (df : DataFrame) : list (Z * DataFrame) :=
  map (fun d => (d, filter (fun r => Z.eqb (date r) d) df)) (group_keys df).

(** A row of [raw_df] together with its blended [distance] cell. *)
Record ScoredRow : Type := {
  s_row : RawRow;
  s_distance : npfloat
}.

Definition fleb_row (a b : ScoredRow) : bool := fleb (s_distance a) (s_distance b).

(** [raw_df.nsmallest(n, "distance")]: the rows with a NaN distance are set
    aside, the others are put in ascending order with ties in table order,
    the NaN rows follow, and the first [n] rows are kept. *)
Definition nsmallest (n : Z) (df : list ScoredRow) : list ScoredRow :=
  let dropped := filter (fun r => negb (isnan (s_distance r))) df in
  let nan_rows := filter (fun r => isnan (s_distance r)) df in
  firstn (Z.to_nat n) (sort_by fleb_row dropped ++ nan_rows).

(** [Series.max()] and [Series.min()]: NaN cells are skipped, and the
    result is NaN when nothing is left. *)
Definition fmax2 (acc x : npfloat) : npfloat :=
  if isnan x then acc
  else if isnan acc then x
  else if fleb acc x then x else acc.

Definition fmin2 (acc x : npfloat) : npfloat :=
  if isnan x then acc
  else if isnan acc then x
  else if fleb x acc then x else acc.

Definition series_max (s : list npfloat) : npfloat := fold_left fmax2 s NaN.
Definition series_min (s : list npfloat) : npfloat := fold_left fmin2 s NaN.

(** [np.arange(1, n + 1)]. *)
Definition arange1 (n : nat) : list Z := map Z.of_nat (seq 1 n).

(** ** [find_like_days] *)

(** Resolution of the features and of their weights. *)
Definition resolve_features (feature_weights : option dict)
    (feature_cols : list string) : list string * dict :=
  match feature_weights with
  | Some fw =>
      if (0 <? List.length fw)%nat then (keys fw, fw)
      else (feature_cols, map (fun col => (col, 1)) feature_cols)
  | None => (feature_cols, map (fun col => (col, 1)) feature_cols)
  end.

(** The raw distance of one feature between the target day and one
    historical day, both sorted by hour. *)
Definition raw_distance (metric : string) (target_sorted hist_sorted : DataFrame)
    (col : string) : R :=
  let t_vals := values col target_sorted in
  let h_vals := values col hist_sorted in
  let diff := Np.sub t_vals h_vals in
  _compute_metric diff metric (Some t_vals) (Some h_vals).

(** Pass 1: the raw per-feature distances of every historical day that has
    as many hours as the target day; the other days are skipped. *)
Definition pass1 (metric : string) (feature_cols : list string)
    (target_sorted df_hist : DataFrame) : list RawRow :=
  flat_map
    (fun g : Z * DataFrame =>
       let hist_sorted := sort_values_hour (snd g) in
       if negb (List.length hist_sorted =? List.length target_sorted)%nat then []
       else [ {| raw_date := fst g;
                 raw_dist := map (fun col => (col, raw_distance metric target_sorted hist_sorted col))
                                 feature_cols |} ])
    (groupby_date df_hist).

(** [raw_df[col]]. *)
Definition column (col : string) (raw_df : list RawRow) : list R :=
  map (fun r => getitem (raw_dist r) col) raw_df.

(** The standard deviation used for a feature:
    [if std == 0 or np.isnan(std): std = 1.0].  The last case is never
    taken, [series_std] returns a finite value or NaN. *)
Definition guard_std (std : npfloat) : R :=
  match std with
  | Fin s => if Req_dec_T s 0 then 1 else s
  | NaN => 1
  | PInf | NInf => 1
  end.

(** [feat_stats]: mean and guarded standard deviation per feature. *)
Definition feat_stats (feature_cols : list string) (raw_df : list RawRow)
    : list (string * (R * R)) :=
  map (fun col =>
         let mean := series_mean (column col raw_df) in
         let std := series_std (column col raw_df) in
         (col, (mean, guard_std std)))
      feature_cols.

Fixpoint stats_get (st : list (string * (R * R))) (k : string) : R * R :=
  match st with
  | [] => (0, 1)
  | (k', v) :: st' => if String.eqb k k' then v else stats_get st' k
  end.

(** One turn of the blending loop:
    [raw_df["distance"] += weights[col] * normalized]. *)
Definition blend_step (weights : dict) (st : list (string * (R * R)))
    (raw_df : list RawRow) (dist : list R) (col : string) : list R :=
  let '(mean, std) := stats_get st col in
  let normalized := map (fun x => (x - mean) / std) (column col raw_df) in
  Np.map2 Rplus dist (map (fun z => getitem weights col * z) normalized).

(** The [distance] column after the loop and the division by [weight_sum]. *)
Definition distance_column (weights : dict) (feature_cols : list string)
    (raw_df : list RawRow) : list npfloat :=
  let weight_sum := Np.sum (map (getitem weights) feature_cols) in
  let st := feat_stats feature_cols raw_df in
  let dist0 := map (fun _ => 0) raw_df in
  let dist := fold_left (blend_step weights st raw_df) feature_cols dist0 in
  map (fun d => fdiv (Fin d) (Fin weight_sum)) dist.

(** The [similarity] column of the selected rows. *)
Definition similarity_column (dists : list npfloat) : list npfloat :=
  let max_dist := series_max dists in
  let min_dist := series_min dists in
  let dist_range := fsub max_dist min_dist in
  if fgt0 dist_range then
    map (fun d => fsub (Fin 1) (fdiv (fsub d min_dist) dist_range)) dists
  else
    map (fun _ => Fin 1) dists.

(** Top-N selection, ranks, similarity and the final projection. *)
Definition select_and_score (n_neighbors : Z) (scored : list ScoredRow)
    : list MatchResult :=
  let results_df := nsmallest n_neighbors scored in
  let ranks := arange1 (List.length results_df) in
  let sims := similarity_column (map s_distance results_df) in
  Np.map2 (fun rs sim =>
             {| m_date := raw_date (s_row (fst rs));
                rank := snd rs;
                distance := s_distance (fst rs);
                similarity := sim |})
          (combine results_df ranks) sims.

Definition find_like_days (df_target df_hist : DataFrame)
    (feature_weights : option dict) (feature_cols : list string)
    (n_neighbors : Z) (metric : string) : result (list MatchResult) :=
  let '(feature_cols, weights) := resolve_features feature_weights feature_cols in
  let target_sorted := sort_values_hour df_target in
  let n_hours := List.length target_sorted in
  if (n_hours =? 0)%nat then ValueError "Target date has no hourly data"
  else
    let raw_results := pass1 metric feature_cols target_sorted df_hist in
    match raw_results with
    | [] => ValueError "No historical days matched the target hours"
    | _ =>
        let raw_df := raw_results in
        let dist := distance_column weights feature_cols raw_df in
        let scored := Np.map2 (fun r d => {| s_row := r; s_distance := d |}) raw_df dist in
        Ok (select_and_score n_neighbors scored)
    end.

(** ** The arithmetic of the engine on binary64

    The numeric steps of [_compute_metric] and of pass 2 once more, on
    IEEE binary64 numbers instead of exact reals and in the order the code
    performs them.  An array is summed left to right, which is numpy's
    order for fewer than eight elements (longer arrays are added in
    blocks); [np.linalg.norm] is [sqrt(dot(x, x))]; pandas' [std] is its
    two-pass formula [sqrt(sum((avg - x) ** 2) / (count - 1))]. *)

Module F64.

Import Floats.
#[local] Open Scope float_scope.

Definition ndarray := list float.

(** [a.sum()] and the builtin [sum]. *)
Definition sum (a : ndarray) : float := fold_left PrimFloat.add a 0.

(** [len(a)] as a double. *)
Definition len (a : ndarray) : float :=
  PrimFloat.of_uint63 (Uint63.of_nat (List.length a)).

Definition mean (a : ndarray) : float := sum a / len a.

Definition abs (a : ndarray) : ndarray := map PrimFloat.abs a.
Definition square (a : ndarray) : ndarray := map (fun x => x * x) a.
Definition sub (a b : ndarray) : ndarray := Np.map2 PrimFloat.sub a b.
Definition dot (a b : ndarray) : float := sum (Np.map2 PrimFloat.mul a b).
Definition norm (a : ndarray) : float := PrimFloat.sqrt (dot a a).

Definition _compute_metric (diff : ndarray) (metric : string)
    (target_flat hist_flat : option ndarray) : float :=
  if String.eqb metric "mae" then
    mean (abs diff)
  else if String.eqb metric "rmse" then
    PrimFloat.sqrt (mean (square diff))
  else if String.eqb metric "euclidean" then
    PrimFloat.sqrt (sum (square diff))
  else if String.eqb metric "cosine" then
    match target_flat, hist_flat with
    | Some t, Some h =>
        let denom := norm t * norm h in
        if denom =? 0 then 1
        else 1 - dot t h / denom
    | _, _ => mean (abs diff)
    end
  else
    mean (abs diff).

(** The raw distance of one feature between the hourly values of the
    target day and those of one historical day. *)
Definition raw_distance (metric : string) (t_vals h_vals : ndarray) : float :=
  let diff := sub t_vals h_vals in
  _compute_metric diff metric (Some t_vals) (Some h_vals).

Definition dict := list (string * float).

Fixpoint getitem (d : dict) (k : string) : float :=
  match d with
  | [] => 0
  | (k', v) :: d' => if String.eqb k k' then v else getitem d' k
  end.

(** One entry of [raw_results]. *)
Record RawRow : Type := {
  raw_date : Z;
  raw_dist : dict
}.

Definition column (col : string) (raw_df : list RawRow) : list float :=
  map (fun r => getitem (raw_dist r) col) raw_df.

Definition series_mean (s : list float) : float := mean s.

Definition series_std (s : list float) : float :=
  match s with
  | [] | [_] => nan
  | _ =>
      let avg := sum s / len s in
      PrimFloat.sqrt (sum (map (fun x => (avg - x) * (avg - x)) s) / (len s - 1))
  end.

(** [if std == 0 or np.isnan(std): std = 1.0]. *)
Definition guard_std (std : float) : float :=
  if (std =? 0) || is_nan std then 1 else std.

Definition feat_stats (feature_cols : list string) (raw_df : list RawRow)
    : list (string * (float * float)) :=
  map (fun col =>
         let mean := series_mean (column col raw_df) in
         let std := series_std (column col raw_df) in
         (col, (mean, guard_std std)))
      feature_cols.

Fixpoint stats_get (st : list (string * (float * float))) (k : string)
    : float * float :=
  match st with
  | [] => (0, 1)
  | (k', v) :: st' => if String.eqb k k' then v else stats_get st' k
  end.

(** [raw_df["distance"] += weights[col] * normalized]. *)
Definition blend_step (weights : dict) (st : list (string * (float * float)))
    (raw_df : list RawRow) (dist : list float) (col : string) : list float :=
  let '(mean, std) := stats_get st col in
  let normalized := map (fun x => (x - mean) / std) (column col raw_df) in
  Np.map2 PrimFloat.add dist (map (fun z => getitem weights col * z) normalized).

(** The [distance] column after the loop and the division by [weight_sum]. *)
Definition distance_column (weights : dict) (feature_cols : list string)
    (raw_df : list RawRow) : list float :=
  let weight_sum := sum (map (getitem weights) feature_cols) in
  let st := feat_stats feature_cols raw_df in
  let dist0 := map (fun _ => 0) raw_df in
  let dist := fold_left (blend_step weights st raw_df) feature_cols dist0 in
  map (fun d => d / weight_sum) dist.

(** The raw table of pass 1 for one feature and one-hour days: one row
    per historical price, dated from [first_date] on. *)
Fixpoint one_hour_days (metric col : string) (target : float) (first_date : Z)
    (prices : list float) : list RawRow :=
  match prices with
  | [] => []
  | p :: ps =>
      {| raw_date := first_date;
         raw_dist := [(col, raw_distance metric [target] [p])] |}
      :: one_hour_days metric col target (first_date + 1) ps
  end.

(** The double nearest to 0.1. *)
Definition tenth : float := 0x1.999999999999ap-4.

End F64.

(** ** [pipeline.py]: assembly of the tables and the call of the engine *)

(** One entry of [features]: [{"market": ..., "column": ..., "weight": ...}]. *)
Record FeatureSpec : Type := {
  f_market : string;
  f_column : string;
  f_weight : R
}.

(** The features [run] works with, after the default. *)
Definition effective_features (features : option (list FeatureSpec))
    : list FeatureSpec :=
  match features with
  | None => [ {| f_market := "da"; f_column := "lmp_total"; f_weight := 1 |} ]
  | Some fs => fs
  end.

(** [LMP_COLS = configs.FEATURE_COLS]. *)
Definition LMP_COLS : list string := FEATURE_COLS.

(** The market-qualified column name [f"{market}_{col}"]. *)
Definition prefixed (market col : string) : string := market ++ "_" ++ col.

(** The key of a feature in the weight mapping. *)
Definition feature_key (f : FeatureSpec) : string :=
  prefixed (f_market f) (f_column f).

(** [k] is one of the prefixed LMP columns of [market]. *)
Definition is_column_of (market k : string) : bool :=
  existsb (fun col => String.eqb k (prefixed market col)) LMP_COLS.

(** [d[k] = v] on a Python dict: an existing key keeps its place and takes
    the new value, a new key goes last. *)
Fixpoint dict_set (d : dict) (k : string) (v : R) : dict :=
  match d with
  | [] => [(k, v)]
  | (k', v') :: d' =>
      if String.eqb k k' then (k', v) :: d' else (k', v') :: dict_set d' k v
  end.

(** [{f"{f['market']}_{f['column']}": f["weight"] for f in features}]. *)
Definition build_feature_weights (features : list FeatureSpec) : dict :=
  fold_left (fun d f => dict_set d (prefixed (f_market f) (f_column f)) (f_weight f))
            features [].

(** [sorted(set(...))] on strings. *)
Definition sorted_set (l : list string) : list string :=
  sort_by String.leb (nodup string_dec l).

(** [x in xs] on a list of integers, as [Series.isin] tests it. *)
Definition isin (xs : list Z) (x : Z) : bool := existsb (Z.eqb x) xs.

(** [left.merge(right, on=[date, hour_ending], how="inner")], [right]
    being the prefixed table of [market]: the rows of [left], in order,
    each paired with the rows of [right] of the same date and hour. *)
Definition merge_inner (market : string) (left right : DataFrame) : DataFrame :=
  flat_map
    (fun l =>
       map (fun r => {| date := date l; hour_ending := hour_ending l;
                        cell := fun k => if is_column_of market k then cell r k
                                         else cell l k |})
           (filter (fun r => Z.eqb (date r) (date l) &&
                             Z.eqb (hour_ending r) (hour_ending l)) right))
    left.

(** What a call of [run] ends in: the returned dict (like days, hourly
    profiles tagged with their market, target date) or the exception
    raised. *)
Inductive run_result : Type :=
| RunOk (like_days : list MatchResult) (hourly_profiles : list (string * HourlyRow))
        (target_date : Z)
| RunValueError (msg : string)
| RunKeyError (key : string)
| RunIndexError.

Section Pipeline.

(** [lmps.pull(hub, market)]: the hourly rows of a hub and market as the
    database returns them, with the four LMP columns under their plain
    names. *)
Variable pull : string -> string -> DataFrame.

(** pandas' [dt.dayofweek] (0 = Monday .. 6 = Sunday) and [dt.month] of a
    date. *)
Variable dayofweek : Z -> Z.
Variable month : Z -> Z.

(** The table of one market with its LMP columns renamed to
    [f"{market}_{col}"] and every other column dropped. *)
Definition _pull_and_prefix (hub market : string) : DataFrame :=
  map (fun r =>
         {| date := date r; hour_ending := hour_ending r;
            cell := fun k =>
              match find (fun col => String.eqb k (prefixed market col)) LMP_COLS with
              | Some col => cell r col
              | None => 0
              end |})
      (pull hub market).

(** The row [row] of a joined table carries the values of a row of market
    [mkt] with the same date and hour. *)
Definition carries (hub mkt : string) (row : HourlyRow) : Prop :=
  exists p, In p (pull hub mkt) /\ date p = date row /\
            hour_ending p = hour_ending row /\
            forall col, In col LMP_COLS -> cell row (prefixed mkt col) = cell p col.

(** The inner join of the prefixed tables of the markets, in order. *)
Definition join_markets (hub : string) (first : string) (others : list string)
    : DataFrame :=
  fold_left (fun df mkt => merge_inner mkt df (_pull_and_prefix hub mkt))
            others (_pull_and_prefix hub first).

(** An optional filter on a table. *)
Definition filter_opt {A : Type} (arg : option A) (keep : A -> HourlyRow -> bool)
    (df : DataFrame) : DataFrame :=
  match arg with
  | Some a => filter (keep a) df
  | None => df
  end.

(** The historical pool: the rows before the target date, narrowed by the
    optional date range, days of week (0 = Sunday .. 6 = Saturday) and
    months. *)
Definition historical_pool (target_date : Z) (hist_start hist_end : option Z)
    (days_of_week months : option (list Z)) (df : DataFrame) : DataFrame :=
  let df_hist := filter (fun r => Z.ltb (date r) target_date) df in
  let df_hist := filter_opt hist_start (fun s r => Z.leb s (date r)) df_hist in
  let df_hist := filter_opt hist_end (fun e r => Z.leb (date r) e) df_hist in
  let df_hist :=
    filter_opt days_of_week
      (fun ds r => isin ds ((dayofweek (date r) + 1) mod 7)%Z) df_hist in
  filter_opt months (fun ms r => isin ms (month (date r))) df_hist.

(** The hourly profiles of the like days and of the target day: all hours
    of every requested market. *)
Definition gather_profiles (hub : string) (unique_markets : list string)
    (all_dates : list Z) : list (string * HourlyRow) :=
  flat_map (fun mkt => map (fun r => (mkt, r))
                           (filter (fun r => isin all_dates (date r)) (pull hub mkt)))
           unique_markets.

(** [run].  The engine reads the feature columns of the target table once
    it has found the table non-empty; a column that the joined table does
    not have raises [KeyError] there. *)
Definition run (target_date : Z) (hub : string) (features : option (list FeatureSpec))
    (n_neighbors : Z) (metric : string) (hist_start hist_end : option Z)
    (hours days_of_week months : option (list Z)) : run_result :=
  let features :=
    match features with
    | None => [ {| f_market := "da"; f_column := "lmp_total"; f_weight := 1 |} ]
    | Some fs => fs
    end in
  let unique_markets := sorted_set (map f_market features) in
  match unique_markets with
  | [] => RunIndexError
  | first :: others =>
      let df := join_markets hub first others in
      let df := filter_opt hours (fun hs r => isin hs (hour_ending r)) df in
      let df_target := filter (fun r => Z.eqb (date r) target_date) df in
      let df_hist :=
        historical_pool target_date hist_start hist_end days_of_week months df in
      let feature_weights := build_feature_weights features in
      let missing :=
        find (fun k => negb (existsb (fun mkt => is_column_of mkt k) unique_markets))
             (keys feature_weights) in
      match df_target, missing with
      | _ :: _, Some k => RunKeyError k
      | _, _ =>
          match find_like_days df_target df_hist (Some feature_weights) FEATURE_COLS
                               n_neighbors metric with
          | ValueError msg => RunValueError msg
          | Ok results =>
              let like_dates := map m_date results in
              let all_dates := (like_dates ++ [target_date])%list in
              RunOk results (gather_profiles hub unique_markets all_dates) target_date
          end
      end
  end.

End Pipeline.

(** ** [api.py]: the request handler *)

Definition VALID_MARKETS : list string := ["da"; "rt"; "dart"].
Definition VALID_COLS : list string := FEATURE_COLS.

(** [x in xs] on strings. *)
Definition str_in (x : string) (xs : list string) : bool :=
  existsb (String.eqb x) xs.

(** [sep in s] for a one-character separator. *)
Fixpoint contains (sep : ascii) (s : string) : bool :=
  match s with
  | EmptyString => false
  | String c s' => if Ascii.eqb c sep then true else contains sep s'
  end.

(** [s.split(sep)]. *)
Fixpoint split_on (sep : ascii) (s : string) : list string :=
  match s with
  | EmptyString => [EmptyString]
  | String c s' =>
      if Ascii.eqb c sep then EmptyString :: split_on sep s'
      else match split_on sep s' with
           | [] => [String c EmptyString]
           | w :: ws => String c w :: ws
           end
  end.

(** [s.split(sep, 1)] for a string that holds the separator: the part
    before its first occurrence and the part after it. *)
Fixpoint split_first (sep : ascii) (s : string) : string * string :=
  match s with
  | EmptyString => (EmptyString, EmptyString)
  | String c s' =>
      if Ascii.eqb c sep then (EmptyString, s')
      else let (a, b) := split_first sep s' in (String c a, b)
  end.

(** [s.rsplit(sep, 1)] for a string that holds the separator: the part
    before its last occurrence and the part after it. *)
Fixpoint rsplit_last (sep : ascii) (s : string) : string * string :=
  match s with
  | EmptyString => (EmptyString, EmptyString)
  | String c s' =>
      if contains sep s' then let (a, b) := rsplit_last sep s' in (String c a, b)
      else if Ascii.eqb c sep then (EmptyString, s')
      else (String c s', EmptyString)
  end.

(** The truth value of an optional query string: [None] and the empty
    string are false. *)
Definition truthy (q : option string) : option string :=
  match q with
  | Some EmptyString => None
  | other => other
  end.

(** What a request ends in: the JSON body, the [HTTPException] raised by
    the handler, or a [ValueError] that escapes it. *)
Inductive response : Type :=
| Json (target_date : Z) (hub metric : string) (n_neighbors : Z)
       (like_days : list MatchResult) (hourly_profiles : list (string * HourlyRow))
| HTTPException (status_code : Z) (detail : string)
| UnhandledValueError.

Section Api.

(** [str.strip], [str.lower], [float] and [int] ([None] when they raise
    [ValueError]) and tomorrow's date are taken from the runtime. *)
Variable strip : string -> string.
Variable lower : string -> string.
Variable float_of : string -> option R.
Variable int_of : string -> option Z.
Variable tomorrow : Z.

Variable pull : string -> string -> DataFrame.
Variable dayofweek : Z -> Z.
Variable month : Z -> Z.

(** [[int(h) for h in q.split(",")] if q else None]; the outer [None]
    stands for the [ValueError] of a failed conversion. *)
Fixpoint all_ints (parts : list string) : option (list Z) :=
  match parts with
  | [] => Some []
  | p :: ps =>
      match int_of p, all_ints ps with
      | Some z, Some zs => Some (z :: zs)
      | _, _ => None
      end
  end.

Definition parse_int_list (q : option string) : option (option (list Z)) :=
  match truthy q with
  | None => Some None
  | Some s =>
      match all_ints (split_on "," s) with
      | Some zs => Some (Some zs)
      | None => None
      end
  end.

(** A query string holds a part that is not an integer. *)
Definition bad_int_list (q : option string) : Prop :=
  exists s p, truthy q = Some s /\ In p (split_on "," s) /\ int_of p = None.

(** One entry [market.column:weight] of the [features] parameter. *)
Definition parse_feature_entry (entry : string) : option FeatureSpec :=
  let entry := strip entry in
  if negb (contains ":" entry) then None
  else
    let (spec, weight_str) := rsplit_last ":" entry in
    if negb (contains "." spec) then None
    else
      let (mkt, col) := split_first "." spec in
      let mkt := lower (strip mkt) in
      let col := strip col in
      if str_in mkt VALID_MARKETS && str_in col VALID_COLS then
        match float_of weight_str with
        | Some w => Some {| f_market := mkt; f_column := col; f_weight := w |}
        | None => None
        end
      else None.

(** One pair [column:weight] of the deprecated [feature_weights]
    parameter. *)
Definition parse_weight_pair (market pair : string) : option FeatureSpec :=
  let pair := strip pair in
  if contains ":" pair then
    let (col, w) := split_first ":" pair in
    let col := strip col in
    if str_in col VALID_COLS then
      match float_of w with
      | Some x => Some {| f_market := market; f_column := col; f_weight := x |}
      | None => None
      end
    else None
  else None.

Definition keep_some {A : Type} (l : list (option A)) : list A :=
  flat_map (fun o => match o with Some a => [a] | None => [] end) l.

(** [None] for an empty list: [if not features_list: features_list = None]. *)
Definition non_empty {A : Type} (l : list A) : option (list A) :=
  match l with
  | [] => None
  | _ => Some l
  end.

(** The [features_list] handed to [run]. *)
Definition request_features (features feature_cols feature_weights : option string)
    (market : string) : list FeatureSpec :=
  let from_features :=
    match truthy features with
    | Some s => non_empty (keep_some (map parse_feature_entry (split_on "," s)))
    | None => None
    end in
  let features_list :=
    match from_features with
    | Some fl => Some fl
    | None =>
        match truthy feature_weights with
        | Some s =>
            non_empty (keep_some (map (parse_weight_pair market) (split_on "," s)))
        | None =>
            match truthy feature_cols with
            | Some s =>
                let cols := filter (fun c => str_in c VALID_COLS)
                                   (map strip (split_on "," s)) in
                match cols with
                | [] => None
                | _ => Some (map (fun c => {| f_market := market; f_column := c;
                                              f_weight := 1 |}) cols)
                end
            | None => None
            end
        end
    end in
  match features_list with
  | Some fl => fl
  | None => [ {| f_market := market; f_column := "lmp_total"; f_weight := 1 |} ]
  end.

(** [like_day]. *)
Definition like_day (target_date : option Z) (hub market : string) (n_neighbors : Z)
    (metric : string) (hist_start hist_end : option Z)
    (hours days_of_week months features feature_cols feature_weights : option string)
    : response :=
  let target_date := match target_date with Some d => d | None => tomorrow end in
  match parse_int_list hours with
  | None => UnhandledValueError
  | Some hours_list =>
  match parse_int_list days_of_week with
  | None => UnhandledValueError
  | Some days_list =>
  match parse_int_list months with
  | None => UnhandledValueError
  | Some months_list =>
      let features_list := request_features features feature_cols feature_weights market in
      match run pull dayofweek month target_date hub (Some features_list) n_neighbors
                metric hist_start hist_end hours_list days_list months_list with
      | RunOk like_days hourly_profiles t =>
          Json t hub metric n_neighbors like_days hourly_profiles
      | RunValueError msg => HTTPException 500 ("Pipeline error: " ++ msg)
      | RunKeyError k => HTTPException 500 ("Pipeline error: '" ++ k ++ "'")
      | RunIndexError => HTTPException 500 "Pipeline error: list index out of range"
      end
  end end end.

End Api.

(** ** Vocabulary of the specification *)

(** The metric names the engine knows; any other name is treated as "mae". *)
Definition known_metric (metric : string) : Prop :=
  metric = "mae" \/ metric = "rmse" \/ metric = "euclidean" \/ metric = "cosine".

(** The number of hourly rows of day [d] in a table. *)
Definition hour_count (d : Z) (df : DataFrame) : nat :=
  List.length (filter (fun r => Z.eqb (date r) d) df).

(** The historical days that have as many hourly rows as the target day,
    in ascending date order. *)
Definition surviving_days (df_target df_hist : DataFrame) : list Z :=
  filter (fun d => (hour_count d df_hist =? List.length df_target)%nat)
         (group_keys df_hist).


(** The weights of a FeatureSpec list are non-negative. *)
Definition nonneg_weights (fw : option dict) : Prop :=
  match fw with
  | Some d => Forall (fun kv => 0 <= snd kv) d
  | None => True
  end.

(** Mean and standard deviation of one feature's raw distances across the
    whole surviving pool, the latter after the substitution of 1.0 for a
    zero or undefined value. *)
Definition pool_mean (raw_df : list RawRow) (k : string) : R :=
  series_mean (column k raw_df).

Definition pool_std (raw_df : list RawRow) (k : string) : R :=
  guard_std (series_std (column k raw_df)).

(** The blend in the words of the specification: the sum over the feature
    keys of [weight_k * (raw_distance_k - mean_k) / std_k], divided by the
    sum of all weights. *)
Definition spec_weighted_sum (weights : dict) (feature_cols : list string)
    (raw_df : list RawRow) (r : RawRow) : R :=
  fold_right Rplus 0
    (map (fun k => getitem weights k *
                   ((getitem (raw_dist r) k - pool_mean raw_df k) / pool_std raw_df k))
         feature_cols).

Definition spec_weight_total (weights : dict) (feature_cols : list string) : R :=
  fold_right Rplus 0 (map (getitem weights) feature_cols).

Definition spec_distance (weights : dict) (feature_cols : list string)
    (raw_df : list RawRow) (r : RawRow) : npfloat :=
  fdiv (Fin (spec_weighted_sum weights feature_cols raw_df r))
       (Fin (spec_weight_total weights feature_cols)).

(** The [raw_results] entry that pass 1 builds for the historical day [d]. *)
Definition raw_row_of (metric : string) (feature_cols : list string)
    (target_sorted df_hist : DataFrame) (d : Z) : RawRow :=
  let hist_sorted := sort_values_hour (filter (fun r => Z.eqb (date r) d) df_hist) in
  {| raw_date := d;
     raw_dist := map (fun col => (col, raw_distance metric target_sorted hist_sorted col))
                     feature_cols |}.

(** [raw_df]: one entry per surviving historical day. *)
Definition raw_table (metric : string) (feature_cols : list string)
    (df_target df_hist : DataFrame) : list RawRow :=
  map (raw_row_of metric feature_cols (sort_values_hour df_target) df_hist)
      (surviving_days df_target df_hist).

(** The hourly rows of day [d], sorted by hour. *)
Definition day_sorted (d : Z) (df : DataFrame) : DataFrame :=
  sort_values_hour (filter (fun r => Z.eqb (date r) d) df).

(** [raw_df] with its blended [distance] column. *)
Definition scored_table (weights : dict) (feature_cols : list string)
    (raw_df : list RawRow) : list ScoredRow :=
  Np.map2 (fun r d => {| s_row := r; s_distance := d |}) raw_df
          (distance_column weights feature_cols raw_df).

(** Ascending order as pandas sorts a float column: NaN cells last. *)
Definition fle_nan_last (x y : npfloat) : Prop := y = NaN \/ fle x y.

(** The similarity cell of one selected row, given the smallest and the
    largest selected distance. *)
Definition similarity_cell (min_dist max_dist d : npfloat) : npfloat :=
  if fgt0 (fsub max_dist min_dist) then
    fsub (Fin 1) (fdiv (fsub d min_dist) (fsub max_dist min_dist))
  else Fin 1.

(** Forgetting the raw feature columns of a scored row. *)
Definition forget_raw (r : ScoredRow) : ScoredRow :=
  {| s_row := {| raw_date := raw_date (s_row r); raw_dist := [] |};
     s_distance := s_distance r |}.

(** ** Sample tables *)

(** A row whose feature columns all hold [v]. *)
Definition sample_row (d h : Z) (v : R) : HourlyRow :=
  {| date := d; hour_ending := h; cell := fun _ => v |}.

(** A one-hour target day at price 10. *)
Definition sample_target : DataFrame := [sample_row 100 1 10].

(** Three one-hour historical days at prices 10, 11 and 12, and a two-hour
    day at price 10. *)
Definition sample_hist : DataFrame :=
  [sample_row 99 1 12; sample_row 96 1 10; sample_row 97 1 10;
   sample_row 98 1 11; sample_row 96 2 10].

Definition sample_weights : dict := [("da_lmp_total", 2)].

(** The raw distances of the three one-hour days under the mae metric. *)
Definition sample_raw : list RawRow :=
  [ {| raw_date := 97; raw_dist := [("da_lmp_total", 0)] |};
    {| raw_date := 98; raw_dist := [("da_lmp_total", 1)] |};
    {| raw_date := 99; raw_dist := [("da_lmp_total", 2)] |} ].

(** The frame the engine returns for the sample tables. *)
Definition sample_result : list MatchResult :=
  [ {| m_date := 97; rank := 1; distance := Fin (-1); similarity := Fin 1 |};
    {| m_date := 98; rank := 2; distance := Fin 0; similarity := Fin (1 / 2) |};
    {| m_date := 99; rank := 3; distance := Fin 1; similarity := Fin 0 |} ].

(** The frame returned for the sample tables when two neighbors are asked
    for. *)
Definition sample_result_top2 : list MatchResult :=
  [ {| m_date := 97; rank := 1; distance := Fin (-1); similarity := Fin 1 |};
    {| m_date := 98; rank := 2; distance := Fin 0; similarity := Fin 0 |} ].

(** A weight mapping whose weights sum to zero. *)
Definition zero_weights : dict := [("da_lmp_total", 0)].







(** A price source for the sample tables: the day-ahead market holds the
    target day and the historical days, the real-time market only the
    historical days. *)
Definition sample_pull (hub market : string) : DataFrame :=
  if String.eqb market "da" then (sample_target ++ sample_hist)%list
  else if String.eqb market "rt" then sample_hist
  else [].

Definition sample_features : list FeatureSpec :=
  [ {| f_market := "da"; f_column := "lmp_total"; f_weight := 2 |} ].

(** * Properties *)

(** ** Arithmetic of arrays *)

Section ArrayFacts.

Lemma fold_left_Rplus_acc (l : list R) (a : R) :
  fold_left Rplus l a = a + fold_left Rplus l 0.
Proof.
  revert a; induction l as [|x l IH]; intros a; simpl.
  - lra.
  - rewrite (IH (a + x)), (IH (0 + x)). lra.
Qed.

Lemma sum_nil : Np.sum [] = 0.
Proof. reflexivity. Qed.

Lemma sum_cons (x : R) (l : list R) : Np.sum (x :: l) = x + Np.sum l.
Proof.
  unfold Np.sum; simpl. rewrite fold_left_Rplus_acc. lra.
Qed.

Lemma sum_nonneg (l : list R) : Forall (fun x => 0 <= x) l -> 0 <= Np.sum l.
Proof.
  induction 1 as [|x l Hx _ IH]; [rewrite sum_nil; lra|].
  rewrite sum_cons. lra.
Qed.

Lemma sum_map_scale (A : Type) (f : A -> R) (c : R) (l : list A) :
  Np.sum (map (fun x => c * f x) l) = c * Np.sum (map f l).
Proof.
  induction l as [|x l IH]; simpl.
  - rewrite sum_nil. lra.
  - rewrite !sum_cons, IH. lra.
Qed.

Lemma sum_zero (l : list R) : Forall (fun x => x = 0) l -> Np.sum l = 0.
Proof.
  induction 1 as [|x l Hx _ IH]; [reflexivity|].
  rewrite sum_cons. lra.
Qed.

Lemma sum_nonneg_zero (l : list R) :
  Forall (fun x => 0 <= x) l -> Np.sum l = 0 -> Forall (fun x => x = 0) l.
Proof.
  induction 1 as [|x l Hx Hl IH]; intros Hs; [constructor|].
  rewrite sum_cons in Hs.
  pose proof (sum_nonneg l Hl).
  constructor; [lra|]. apply IH. lra.
Qed.

Lemma map2_self_square (a : ndarray) : Np.map2 Rmult a a = Np.square a.
Proof.
  induction a as [|x a IH]; simpl; [reflexivity|]. now rewrite IH.
Qed.

Lemma square_nonneg (a : ndarray) : Forall (fun x => 0 <= x) (Np.square a).
Proof.
  induction a as [|x a IH]; simpl; constructor; [nra|exact IH].
Qed.

Lemma dot_self_nonneg (a : ndarray) : 0 <= Np.dot a a.
Proof.
  unfold Np.dot. rewrite map2_self_square. apply sum_nonneg, square_nonneg.
Qed.

(** The norm is the square root of the sum of the squared components. *)
Lemma norm_euclidean (a : ndarray) : Np.norm a = sqrt (Np.sum (Np.square a)).
Proof. unfold Np.norm, Np.dot. now rewrite map2_self_square. Qed.

Lemma dot_self_zero (a : ndarray) :
  Np.dot a a = 0 -> Forall (fun x => x = 0) a.
Proof.
  unfold Np.dot. rewrite map2_self_square. intros H.
  pose proof (sum_nonneg_zero _ (square_nonneg a) H) as Hz.
  clear H. induction a as [|x a IH]; [constructor|].
  simpl in Hz. inversion Hz; subst. constructor; [nra|auto].
Qed.

Lemma dot_zero_l (z v : ndarray) :
  Forall (fun x => x = 0) z -> Np.dot z v = 0.
Proof.
  intros Hz. unfold Np.dot. apply sum_zero.
  revert v; induction Hz as [|x z Hx _ IH]; intros [|y v]; simpl; constructor.
  - subst; lra.
  - apply IH.
Qed.

Lemma norm_zero_iff (a : ndarray) :
  Np.norm a = 0 <-> Forall (fun x => x = 0) a.
Proof.
  unfold Np.norm; split; intros H.
  - apply dot_self_zero. apply sqrt_eq_0; [apply dot_self_nonneg|exact H].
  - rewrite (dot_zero_l a a H). apply sqrt_0.
Qed.

Lemma norm_sqr (a : ndarray) : Np.norm a * Np.norm a = Np.dot a a.
Proof. unfold Np.norm. apply sqrt_sqrt, dot_self_nonneg. Qed.

End ArrayFacts.

(** ** The metrics *)

Lemma unknown_metric_is_mae (metric : string) (diff : ndarray)
    (tf hf : option ndarray) :
  ~ known_metric metric ->
  _compute_metric diff metric tf hf = Np.mean (Np.abs diff).
Proof.
  intros Hk. unfold _compute_metric.
  destruct (String.eqb_spec metric "mae"); [reflexivity|].
  destruct (String.eqb_spec metric "rmse") as [->|]; [exfalso; apply Hk; red; auto|].
  destruct (String.eqb_spec metric "euclidean") as [->|]; [exfalso; apply Hk; red; auto|].
  destruct (String.eqb_spec metric "cosine") as [->|]; [exfalso; apply Hk; red; auto|].
  reflexivity.
Qed.

Lemma cosine_eq (diff t h : ndarray) :
  _compute_metric diff "cosine" (Some t) (Some h) =
  if Req_dec_T (Np.norm t * Np.norm h) 0 then 1
  else 1 - Np.dot t h / (Np.norm t * Np.norm h).
Proof. reflexivity. Qed.

Lemma raw_distance_unknown (metric : string) (ts hs : DataFrame) (col : string) :
  ~ known_metric metric ->
  raw_distance metric ts hs col = raw_distance "mae" ts hs col.
Proof.
  intros Hk. unfold raw_distance. now rewrite unknown_metric_is_mae.
Qed.

Lemma pass1_unknown (metric : string) (fc : list string) (ts hist : DataFrame) :
  ~ known_metric metric ->
  pass1 metric fc ts hist = pass1 "mae" fc ts hist.
Proof.
  intros Hk. unfold pass1. apply flat_map_ext. intros g.
  destruct (negb _); [reflexivity|].
  do 2 f_equal. apply map_ext. intros col.
  now rewrite raw_distance_unknown.
Qed.

(** C9.  A metric name outside mae, rmse, euclidean and cosine is not an
    error: [_compute_metric] returns for it the value the mae metric
    returns on the same arguments, and so [find_like_days] returns for it
    what it returns for mae. *)
Theorem unknown_metric_falls_back_to_mae (metric : string) :
  ~ known_metric metric ->
  (forall diff tf hf,
      _compute_metric diff metric tf hf = _compute_metric diff "mae" tf hf) /\
  (forall df_target df_hist fw fc n,
      find_like_days df_target df_hist fw fc n metric =
      find_like_days df_target df_hist fw fc n "mae").
Proof.
  intros Hk. split.
  - intros diff tf hf. now rewrite unknown_metric_is_mae.
  - intros df_target df_hist fw fc n. unfold find_like_days.
    destruct (resolve_features fw fc) as [cols weights].
    now rewrite (pass1_unknown metric cols _ _ Hk).
Qed.

Lemma manhattan_unknown : ~ known_metric "manhattan".
Proof. intros [H|[H|[H|H]]]; discriminate H. Qed.

Lemma unknown_metric_falls_back_to_mae_witness :
  _compute_metric [1; -3] "manhattan" None None =
  _compute_metric [1; -3] "mae" None None.
Proof.
  exact (proj1 (unknown_metric_falls_back_to_mae "manhattan" manhattan_unknown)
               [1; -3] None None).
Defined.

Lemma exists_nonzero_norm (v : ndarray) :
  Exists (fun x => x <> 0) v -> Np.norm v <> 0.
Proof.
  intros He Hn. apply norm_zero_iff in Hn.
  apply Exists_exists in He. destruct He as [x [Hin Hx]].
  rewrite Forall_forall in Hn. auto.
Qed.

Lemma cosine_guard (diff t h : ndarray) :
  Np.norm t = 0 \/ Np.norm h = 0 ->
  _compute_metric diff "cosine" (Some t) (Some h) = 1.
Proof.
  intros Hz. rewrite cosine_eq.
  destruct (Req_dec_T _ 0) as [_|Hne]; [reflexivity|].
  exfalso; apply Hne. destruct Hz as [-> | ->]; lra.
Qed.

Lemma cosine_quotient (diff t h : ndarray) :
  Np.norm t <> 0 -> Np.norm h <> 0 ->
  _compute_metric diff "cosine" (Some t) (Some h) =
  1 - Np.dot t h / (Np.norm t * Np.norm h).
Proof.
  intros Ht Hh. rewrite cosine_eq.
  destruct (Req_dec_T _ 0) as [He|_]; [|reflexivity].
  apply Rmult_integral in He. tauto.
Qed.

(** In exact arithmetic two identical non-zero vectors are at cosine
    distance 0.  On doubles the quotient is 1 only up to rounding. *)
Lemma cosine_identical_exact (diff t : ndarray) :
  Exists (fun x => x <> 0) t ->
  _compute_metric diff "cosine" (Some t) (Some t) = 0.
Proof.
  intros Hex. pose proof (exists_nonzero_norm t Hex) as Hn.
  rewrite (cosine_quotient diff t t Hn Hn), norm_sqr.
  assert (Np.dot t t <> 0) by (rewrite <- norm_sqr; nra).
  field. assumption.
Qed.

(** C7 (amended).  The cosine raw distance is 1 minus the dot product of
    the two hourly vectors over the product of their Euclidean norms; when
    a norm is zero the guard returns exactly 1 and nothing is divided; in
    particular a zero vector is at distance exactly 1 of any vector.
    (Two identical non-zero vectors are at distance 0 only up to
    rounding.) *)
Theorem cosine_distance (diff t h : ndarray) :
  let d := _compute_metric diff "cosine" (Some t) (Some h) in
  Np.norm t = sqrt (Np.sum (Np.square t)) /\
  (Np.norm t <> 0 -> Np.norm h <> 0 ->
   d = 1 - Np.dot t h / (Np.norm t * Np.norm h)) /\
  (Np.norm t = 0 \/ Np.norm h = 0 -> d = 1) /\
  (Forall (fun x => x = 0) t \/ Forall (fun x => x = 0) h -> d = 1).
Proof.
  cbv zeta. repeat split.
  - apply norm_euclidean.
  - apply cosine_quotient.
  - apply cosine_guard.
  - intros [Hz|Hz]; apply cosine_guard; [left|right]; now apply norm_zero_iff.
Qed.

Lemma cosine_distance_witness :
  _compute_metric [-3; -4] "cosine" (Some [0; 0]) (Some [3; 4]) = 1.
Proof.
  apply (cosine_distance [-3; -4] [0; 0] [3; 4]). left.
  repeat constructor.
Defined.

Section CosineOnDoubles.

Import Floats.

(** On doubles the cosine distance of the vector (1, 1) to itself is
    2^-52, not 0: the product of the two norms is sqrt(2) * sqrt(2) =
    2.0000000000000004. *)
Lemma cosine_identical_vectors_not_zero :
  F64.norm [1; 1]%float = 0x1.6a09e667f3bcdp+0%float /\
  F64.dot [1; 1]%float [1; 1]%float = 2%float /\
  F64._compute_metric (F64.sub [1; 1] [1; 1])%float "cosine"
                      (Some [1; 1]%float) (Some [1; 1]%float) = 0x1p-52%float /\
  PrimFloat.eqb 0x1p-52%float 0%float = false.
Proof. vm_compute. repeat split. Qed.

End CosineOnDoubles.

(** ** Lists, sorting and grouping *)

Section ListFacts.

Context {A B C : Type}.

Lemma map2_length (f : A -> B -> C) (xs : list A) (ys : list B) :
  List.length (Np.map2 f xs ys) = Nat.min (List.length xs) (List.length ys).
Proof.
  revert ys; induction xs as [|x xs IH]; intros [|y ys]; simpl; auto.
Qed.

Lemma map_map2 {D : Type} (g : C -> D) (f : A -> B -> C) (xs : list A) (ys : list B) :
  map g (Np.map2 f xs ys) = Np.map2 (fun x y => g (f x y)) xs ys.
Proof.
  revert ys; induction xs as [|x xs IH]; intros [|y ys]; simpl; auto.
  now rewrite IH.
Qed.

Lemma map2_left (k : A -> C) (xs : list A) (ys : list B) :
  List.length xs = List.length ys ->
  Np.map2 (fun x _ => k x) xs ys = map k xs.
Proof.
  revert ys; induction xs as [|x xs IH]; intros [|y ys]; simpl; try discriminate; auto.
  intros H; injection H as H. now rewrite IH.
Qed.

Lemma map2_right (k : B -> C) (xs : list A) (ys : list B) :
  List.length xs = List.length ys ->
  Np.map2 (fun _ y => k y) xs ys = map k ys.
Proof.
  revert ys; induction xs as [|x xs IH]; intros [|y ys]; simpl; try discriminate; auto.
  intros H; injection H as H. now rewrite IH.
Qed.

Lemma map2_In (f : A -> B -> C) (xs : list A) (ys : list B) (z : C) :
  In z (Np.map2 f xs ys) -> exists x y, In (x, y) (combine xs ys) /\ z = f x y.
Proof.
  revert ys; induction xs as [|x xs IH]; intros [|y ys]; simpl; try tauto.
  intros [<-|H].
  - exists x, y. auto.
  - destruct (IH _ H) as (x' & y' & Hin & ->). exists x', y'. auto.
Qed.

End ListFacts.

Section SortFacts.

Context {A : Type} (leb : A -> A -> bool).

Lemma insert_by_perm (x : A) (l : list A) :
  Permutation (insert_by leb x l) (x :: l).
Proof.
  induction l as [|y l IH]; simpl; [reflexivity|].
  destruct (leb x y); [reflexivity|].
  rewrite IH. apply perm_swap.
Qed.

Lemma sort_by_perm (l : list A) : Permutation (sort_by leb l) l.
Proof.
  induction l as [|x l IH]; simpl; [reflexivity|].
  rewrite insert_by_perm. now constructor.
Qed.

Lemma sort_by_length (l : list A) : List.length (sort_by leb l) = List.length l.
Proof. apply Permutation_length, sort_by_perm. Qed.

Lemma sort_by_In (l : list A) (x : A) : In x (sort_by leb l) <-> In x l.
Proof.
  split; apply Permutation_in; [|symmetry]; apply sort_by_perm.
Qed.

(** Sortedness for an order that is total and transitive on the elements
    of the list. *)
Variable P : A -> Prop.
Hypothesis leb_total : forall x y, P x -> P y -> leb x y = true \/ leb y x = true.
Hypothesis leb_trans :
  forall x y z, P x -> P y -> P z -> leb x y = true -> leb y z = true -> leb x z = true.

Lemma insert_by_Forall (Q : A -> Prop) (x : A) (l : list A) :
  Q x -> Forall Q l -> Forall Q (insert_by leb x l).
Proof.
  intros Hx Hl. rewrite Forall_forall in *. intros z Hz.
  apply (Permutation_in _ (insert_by_perm x l)) in Hz.
  destruct Hz as [<-|Hz]; auto.
Qed.

Let le' (x y : A) : Prop := leb x y = true.

Lemma insert_by_sorted (x : A) (l : list A) :
  P x -> Forall P l -> StronglySorted le' l ->
  StronglySorted le' (insert_by leb x l).
Proof.
  intros Hx Hl Hs. induction Hs as [|y l Hs IH Hy]; simpl.
  - repeat constructor.
  - inversion Hl as [|? ? Py Pl]; subst.
    destruct (leb x y) eqn:E.
    + constructor; [constructor; assumption|].
      constructor; [exact E|].
      rewrite Forall_forall in *. intros z Hz.
      apply (leb_trans x y z); auto. apply Hy, Hz.
    + constructor; [apply IH; assumption|].
      apply insert_by_Forall; [|assumption].
      destruct (leb_total x y Hx Py) as [H|H]; [congruence|exact H].
Qed.

Lemma sort_by_sorted (l : list A) :
  Forall P l -> StronglySorted le' (sort_by leb l).
Proof.
  induction 1 as [|x l Hx Hl IH]; simpl; [constructor|].
  apply insert_by_sorted; auto.
  rewrite Forall_forall in *. intros z Hz. apply Hl.
  now apply (sort_by_In l z).
Qed.

End SortFacts.

Lemma In_firstn {A : Type} (n : nat) (l : list A) (x : A) :
  In x (firstn n l) -> In x l.
Proof.
  revert n; induction l as [|y l IH]; intros [|n]; simpl; try tauto.
  intros [H|H]; [left; exact H|right; eapply IH; exact H].
Qed.

Lemma StronglySorted_firstn {A : Type} (R : A -> A -> Prop) (n : nat) (l : list A) :
  StronglySorted R l -> StronglySorted R (firstn n l).
Proof.
  intros Hs; revert n. induction Hs as [|x l Hs IH Hx]; intros [|n]; simpl;
    try constructor.
  - apply IH.
  - rewrite Forall_forall in *. intros z Hz. apply Hx.
    eapply In_firstn; exact Hz.
Qed.

(** ** Grouping and pass 1 *)

Lemma insert_key_In (d x : Z) (l : list Z) :
  In x (insert_key d l) <-> x = d \/ In x l.
Proof.
  induction l as [|y l IH]; simpl.
  - intuition.
  - destruct (Z.ltb_spec d y); [simpl; intuition|].
    destruct (Z.eqb_spec d y); simpl.
    + subst. intuition.
    + rewrite IH. intuition.
Qed.

Lemma group_keys_In (df : DataFrame) (d : Z) :
  In d (group_keys df) <-> In d (map date df).
Proof.
  unfold group_keys. induction df as [|r df IH]; simpl; [tauto|].
  rewrite insert_key_In, IH. intuition.
Qed.

Lemma sort_values_hour_length (df : DataFrame) :
  List.length (sort_values_hour df) = List.length df.
Proof. apply sort_by_length. Qed.

Lemma pass1_eq (metric : string) (fc : list string) (df_target df_hist : DataFrame) :
  pass1 metric fc (sort_values_hour df_target) df_hist =
  map (raw_row_of metric fc (sort_values_hour df_target) df_hist)
      (surviving_days df_target df_hist).
Proof.
  unfold pass1, groupby_date, surviving_days.
  induction (group_keys df_hist) as [|d l IH]; simpl; [reflexivity|].
  rewrite IH. rewrite !sort_values_hour_length. unfold hour_count.
  destruct (Nat.eqb _ _); reflexivity.
Qed.

Lemma surviving_days_In (df_target df_hist : DataFrame) (d : Z) :
  In d (surviving_days df_target df_hist) <->
  In d (map date df_hist) /\ hour_count d df_hist = List.length df_target.
Proof.
  unfold surviving_days. rewrite filter_In, group_keys_In, Nat.eqb_eq. tauto.
Qed.

(** The engine, with pass 1 in closed form. *)
Lemma find_like_days_eq (df_target df_hist : DataFrame) (fw : option dict)
    (fc : list string) (n : Z) (metric : string) :
  find_like_days df_target df_hist fw fc n metric =
  let cols := fst (resolve_features fw fc) in
  let weights := snd (resolve_features fw fc) in
  if (List.length df_target =? 0)%nat then
    ValueError "Target date has no hourly data"
  else
    match surviving_days df_target df_hist with
    | [] => ValueError "No historical days matched the target hours"
    | _ =>
        Ok (select_and_score n
              (scored_table weights cols
                 (map (raw_row_of metric cols (sort_values_hour df_target) df_hist)
                      (surviving_days df_target df_hist))))
    end.
Proof.
  unfold find_like_days. destruct (resolve_features fw fc) as [cols weights].
  cbv zeta. simpl fst; simpl snd.
  rewrite sort_values_hour_length, pass1_eq.
  destruct (Nat.eqb _ 0); [reflexivity|].
  destruct (surviving_days df_target df_hist); reflexivity.
Qed.

(** C6.  [find_like_days] raises its validation error exactly when the
    target day has no hourly row, or the historical pool is empty, or no
    historical day has the target's hour count; the call then yields the
    error alone and no result frame, and otherwise it yields a frame. *)
Theorem validation_error_iff (df_target df_hist : DataFrame) (fw : option dict)
    (fc : list string) (n : Z) (metric : string) :
  let failing :=
    List.length df_target = 0%nat \/ df_hist = [] \/
    (forall d, In d (map date df_hist) -> hour_count d df_hist <> List.length df_target) in
  ((exists msg, find_like_days df_target df_hist fw fc n metric = ValueError msg) <-> failing) /\
  (failing -> forall res, find_like_days df_target df_hist fw fc n metric <> Ok res) /\
  (~ failing -> exists res, find_like_days df_target df_hist fw fc n metric = Ok res).
Proof.
  cbv zeta.
  assert (Hno : df_hist = [] ->
                forall d, In d (map date df_hist) -> hour_count d df_hist <> List.length df_target).
  { intros -> d []. }
  assert (Hiff : (exists msg, find_like_days df_target df_hist fw fc n metric = ValueError msg) <->
                 (List.length df_target = 0%nat \/ df_hist = [] \/
                  (forall d, In d (map date df_hist) ->
                             hour_count d df_hist <> List.length df_target))).
  { rewrite find_like_days_eq. cbv zeta.
    destruct (Nat.eqb_spec (List.length df_target) 0) as [E|E].
    - split; [auto|]. intros _. eexists; reflexivity.
    - destruct (surviving_days df_target df_hist) as [|d l] eqn:Es.
      + split; [|intros _; eexists; reflexivity].
        intros _. right; right. intros d Hd Hc.
        assert (Hin : In d (surviving_days df_target df_hist))
          by (apply surviving_days_In; auto).
        rewrite Es in Hin. exact Hin.
      + split; [intros [msg Hm]; discriminate Hm|].
        intros [H|[H|H]]; [contradiction| |]; exfalso.
        * assert (Hin : In d (surviving_days df_target df_hist)) by (rewrite Es; left; auto).
          apply surviving_days_In in Hin. destruct Hin as [Hin _].
          rewrite H in Hin. exact Hin.
        * assert (Hin : In d (surviving_days df_target df_hist)) by (rewrite Es; left; auto).
          apply surviving_days_In in Hin. destruct Hin as [Hin Hc].
          exact (H d Hin Hc). }
  split; [exact Hiff|]. split.
  - intros Hf res Hr. apply Hiff in Hf. destruct Hf as [msg Hm].
    rewrite Hr in Hm. discriminate Hm.
  - intros Hnf.
    destruct (find_like_days df_target df_hist fw fc n metric) as [res|msg] eqn:E.
    + now exists res.
    + exfalso. apply Hnf, Hiff. now exists msg.
Qed.

Lemma validation_error_iff_witness :
  (exists msg, find_like_days [] sample_hist (Some sample_weights) FEATURE_COLS 5 "mae"
               = ValueError msg) /\
  (exists res, find_like_days sample_target sample_hist (Some sample_weights) FEATURE_COLS 5 "mae"
               = Ok res).
Proof.
  split.
  - apply (validation_error_iff [] sample_hist (Some sample_weights) FEATURE_COLS 5 "mae").
    left. reflexivity.
  - apply (validation_error_iff sample_target sample_hist (Some sample_weights)
             FEATURE_COLS 5 "mae").
    intros [H|[H|H]]; try discriminate H.
    apply (H 97%Z); [simpl; auto|reflexivity].
Defined.

(** ** The weighted blend *)

Lemma sum_fold_right (l : list R) : Np.sum l = fold_right Rplus 0 l.
Proof.
  induction l as [|x l IH]; [reflexivity|].
  rewrite sum_cons, IH. reflexivity.
Qed.

Lemma map2_map_same {A B C D : Type} (f : B -> C -> D) (g : A -> B) (h : A -> C)
    (l : list A) :
  Np.map2 f (map g l) (map h l) = map (fun x => f (g x) (h x)) l.
Proof.
  induction l as [|x l IH]; simpl; [reflexivity|]. now rewrite IH.
Qed.

Lemma stats_get_feat_stats (fc : list string) (raw_df : list RawRow) (k : string) :
  In k fc ->
  stats_get (feat_stats fc raw_df) k = (pool_mean raw_df k, pool_std raw_df k).
Proof.
  induction fc as [|c fc IH]; simpl; [tauto|].
  intros Hin. destruct (String.eqb_spec k c) as [->|Hne]; [reflexivity|].
  apply IH. destruct Hin as [->|Hin]; [congruence|exact Hin].
Qed.

(** The loop over the features adds to each day's cell that day's weighted
    normalized distances. *)
Lemma blend_loop (weights : dict) (raw_df : list RawRow)
    (st : list (string * (R * R))) (cs : list string) :
  (forall k, In k cs -> stats_get st k = (pool_mean raw_df k, pool_std raw_df k)) ->
  forall g : RawRow -> R,
    fold_left (blend_step weights st raw_df) cs (map g raw_df) =
    map (fun r => g r + spec_weighted_sum weights cs raw_df r) raw_df.
Proof.
  induction cs as [|k cs IH]; intros Hst g; simpl.
  - apply map_ext. intros r. unfold spec_weighted_sum. simpl. lra.
  - unfold blend_step at 2. rewrite (Hst k (or_introl eq_refl)).
    unfold column. rewrite !map_map, map2_map_same.
    rewrite IH by (intros k' Hk'; apply Hst; now right).
    apply map_ext. intros r. unfold spec_weighted_sum. simpl. lra.
Qed.

Lemma distance_column_spec (weights : dict) (fc : list string) (raw_df : list RawRow) :
  distance_column weights fc raw_df = map (spec_distance weights fc raw_df) raw_df.
Proof.
  unfold distance_column.
  rewrite (blend_loop weights raw_df (feat_stats fc raw_df) fc
             (fun k Hk => stats_get_feat_stats fc raw_df k Hk) (fun _ => 0)).
  rewrite map_map. apply map_ext. intros r.
  unfold spec_distance, spec_weight_total. rewrite sum_fold_right.
  now rewrite Rplus_0_l.
Qed.

Lemma scored_table_spec (weights : dict) (fc : list string) (raw_df : list RawRow) :
  scored_table weights fc raw_df =
  map (fun r => {| s_row := r; s_distance := spec_distance weights fc raw_df r |}) raw_df.
Proof.
  unfold scored_table. rewrite distance_column_spec.
  rewrite <- (map_id raw_df) at 1. now rewrite map2_map_same.
Qed.

(** ** Selection, ranks and similarity *)

Lemma filter_partition_length {A : Type} (p : A -> bool) (l : list A) :
  (List.length (filter (fun x => negb (p x)) l) + List.length (filter p l))%nat
  = List.length l.
Proof.
  induction l as [|x l IH]; simpl; [reflexivity|].
  destruct (p x); simpl; lia.
Qed.

Lemma nsmallest_length (n : Z) (sc : list ScoredRow) :
  List.length (nsmallest n sc) = Nat.min (Z.to_nat n) (List.length sc).
Proof.
  unfold nsmallest. rewrite length_firstn, length_app, sort_by_length.
  now rewrite filter_partition_length.
Qed.

Lemma nsmallest_In (n : Z) (sc : list ScoredRow) (r : ScoredRow) :
  In r (nsmallest n sc) -> In r sc.
Proof.
  unfold nsmallest. intros H. apply In_firstn in H.
  apply in_app_or in H. destruct H as [H|H].
  - apply sort_by_In in H. apply filter_In in H. tauto.
  - apply filter_In in H. tauto.
Qed.

Lemma arange1_length (n : nat) : List.length (arange1 n) = n.
Proof. unfold arange1. now rewrite length_map, length_seq. Qed.

Lemma similarity_column_length (l : list npfloat) :
  List.length (similarity_column l) = List.length l.
Proof.
  unfold similarity_column. destruct (fgt0 _); apply length_map.
Qed.

Section SelectFacts.

Variables (n : Z) (sc : list ScoredRow).

Let results_df := nsmallest n sc.

Lemma select_lengths :
  List.length (combine results_df (arange1 (List.length results_df))) =
  List.length (similarity_column (map s_distance results_df)).
Proof.
  rewrite length_combine, arange1_length, similarity_column_length, length_map.
  apply Nat.min_id.
Qed.

Lemma select_rank :
  map rank (select_and_score n sc) =
  arange1 (Nat.min (Z.to_nat n) (List.length sc)).
Proof.
  unfold select_and_score. fold results_df.
  rewrite map_map2. cbn [rank].
  rewrite (map2_left (fun rs : ScoredRow * Z => snd rs)) by apply select_lengths.
  rewrite <- (nsmallest_length n sc). fold results_df.
  assert (H : forall (l : list ScoredRow) (zs : list Z),
             List.length l = List.length zs -> map snd (combine l zs) = zs).
  { induction l as [|x l IH]; intros [|z zs]; simpl; try discriminate; auto.
    intros E; injection E as E. now rewrite IH. }
  apply H. now rewrite arange1_length.
Qed.

Lemma select_rows :
  map (fun m => (m_date m, distance m)) (select_and_score n sc) =
  map (fun r => (raw_date (s_row r), s_distance r)) results_df.
Proof.
  unfold select_and_score. fold results_df.
  rewrite map_map2. cbn [m_date distance].
  rewrite (map2_left (fun rs : ScoredRow * Z =>
                        (raw_date (s_row (fst rs)), s_distance (fst rs))))
    by apply select_lengths.
  assert (H : forall (l : list ScoredRow) (zs : list Z),
             List.length l = List.length zs ->
             map (fun rs : ScoredRow * Z =>
                    (raw_date (s_row (fst rs)), s_distance (fst rs))) (combine l zs) =
             map (fun r => (raw_date (s_row r), s_distance r)) l).
  { induction l as [|x l IH]; intros [|z zs]; simpl; try discriminate; auto.
    intros E; injection E as E. now rewrite IH. }
  apply H. now rewrite arange1_length.
Qed.

Lemma select_distance :
  map distance (select_and_score n sc) = map s_distance results_df.
Proof.
  pose proof select_rows as H.
  apply (f_equal (map snd)) in H. rewrite !map_map in H. exact H.
Qed.

Lemma select_date :
  map m_date (select_and_score n sc) = map (fun r => raw_date (s_row r)) results_df.
Proof.
  pose proof select_rows as H.
  apply (f_equal (map fst)) in H. rewrite !map_map in H. exact H.
Qed.

Lemma select_similarity :
  map similarity (select_and_score n sc) =
  similarity_column (map s_distance results_df).
Proof.
  unfold select_and_score. fold results_df.
  rewrite map_map2. cbn [similarity].
  rewrite (map2_right (fun s : npfloat => s)) by apply select_lengths.
  apply map_id.
Qed.

Lemma select_In (m : MatchResult) :
  In m (select_and_score n sc) ->
  exists r, In r sc /\ m_date m = raw_date (s_row r) /\ distance m = s_distance r.
Proof.
  intros Hm.
  assert (Hp : In (m_date m, distance m)
                  (map (fun m => (m_date m, distance m)) (select_and_score n sc)))
    by (apply in_map_iff; eauto).
  rewrite select_rows in Hp. apply in_map_iff in Hp.
  destruct Hp as (r & Hr & Hin). injection Hr as Hd Hs.
  exists r. split; [eapply nsmallest_In; exact Hin|]. auto.
Qed.

End SelectFacts.

(** ** The returned frame *)

Lemma find_like_days_ok (df_target df_hist : DataFrame) (fw : option dict)
    (fc : list string) (n : Z) (metric : string) (res : list MatchResult) :
  find_like_days df_target df_hist fw fc n metric = Ok res ->
  res = select_and_score n
          (scored_table (snd (resolve_features fw fc)) (fst (resolve_features fw fc))
             (raw_table metric (fst (resolve_features fw fc)) df_target df_hist)).
Proof.
  rewrite find_like_days_eq. cbv zeta. unfold raw_table.
  destruct (Nat.eqb _ 0); [discriminate|].
  destruct (surviving_days df_target df_hist); [discriminate|].
  intros H; injection H as <-. reflexivity.
Qed.

Lemma getitem_map_key (f : string -> R) (fc : list string) (k : string) :
  In k fc -> getitem (map (fun col => (col, f col)) fc) k = f k.
Proof.
  unfold getitem. induction fc as [|c fc IH]; simpl; [tauto|].
  intros Hin. destruct (String.eqb_spec k c) as [->|Hne]; [reflexivity|].
  apply IH. destruct Hin as [->|Hin]; [congruence|exact Hin].
Qed.

Lemma result_row_origin (df_target df_hist : DataFrame) (fw : option dict)
    (fc : list string) (n : Z) (metric : string) (res : list MatchResult) :
  find_like_days df_target df_hist fw fc n metric = Ok res ->
  let cols := fst (resolve_features fw fc) in
  let weights := snd (resolve_features fw fc) in
  let raw_df := raw_table metric cols df_target df_hist in
  forall m, In m res ->
    In (m_date m) (surviving_days df_target df_hist) /\
    distance m =
    spec_distance weights cols raw_df
      (raw_row_of metric cols (sort_values_hour df_target) df_hist (m_date m)).
Proof.
  intros Hok cols weights raw_df m Hm.
  rewrite (find_like_days_ok _ _ _ _ _ _ _ Hok) in Hm.
  apply select_In in Hm. destruct Hm as (r & Hr & Hd & Hs).
  fold cols weights raw_df in Hr. rewrite scored_table_spec in Hr.
  apply in_map_iff in Hr. destruct Hr as (raw & <- & Hraw).
  simpl in Hd, Hs. unfold raw_df, raw_table in Hraw.
  apply in_map_iff in Hraw. destruct Hraw as (d & <- & Hdin).
  simpl in Hd. subst d. split; [exact Hdin|exact Hs].
Qed.

(** Every feature the engine iterates over has a weight: [weights[col]]
    never fails. *)
Lemma weights_defined (fw : option dict) (fc : list string) (k : string) :
  In k (fst (resolve_features fw fc)) ->
  dict_get (snd (resolve_features fw fc)) k <> None.
Proof.
  assert (Hkeys : forall d : dict, In k (keys d) -> dict_get d k <> None).
  { induction d as [|[k' v] d IH]; simpl; [tauto|].
    intros [->|Hin]; [rewrite String.eqb_refl; discriminate|].
    destruct (String.eqb k k'); [discriminate|auto]. }
  assert (Hdef : In k fc -> dict_get (map (fun col => (col, 1)) fc) k <> None).
  { intros Hin. apply Hkeys. unfold keys. rewrite map_map. simpl.
    now rewrite map_id. }
  unfold resolve_features. destruct fw as [d|]; [|exact Hdef].
  destruct (Nat.ltb 0 (List.length d)); [exact (Hkeys d)|exact Hdef].
Qed.

Lemma resolve_nonempty (fw : dict) (fc : list string) :
  fw <> [] -> resolve_features (Some fw) fc = (keys fw, fw).
Proof.
  intros Hne. unfold resolve_features.
  destruct fw as [|kv fw]; [congruence|reflexivity].
Qed.

(** C1.  With a non-empty weight mapping, the distance of every returned
    day is the sum over the feature keys of
    [weight_k * (raw_distance_k - mean_k) / std_k] divided by the sum of
    the weights, [mean_k] and [std_k] being taken over the whole surviving
    pool (with the substitution of 1.0 for a zero or undefined [std_k]). *)
Theorem blended_distance_formula (df_target df_hist : DataFrame) (fw : dict)
    (fc : list string) (n : Z) (metric : string) (res : list MatchResult) :
  fw <> [] ->
  find_like_days df_target df_hist (Some fw) fc n metric = Ok res ->
  let raw_df := raw_table metric (keys fw) df_target df_hist in
  forall m, In m res ->
  exists r,
    In r raw_df /\ raw_date r = m_date m /\
    (forall k, In k (keys fw) ->
       getitem (raw_dist r) k =
       raw_distance metric (sort_values_hour df_target)
                    (day_sorted (m_date m) df_hist) k) /\
    let weighted :=
      fold_right Rplus 0
        (map (fun k => getitem fw k *
                       ((getitem (raw_dist r) k - pool_mean raw_df k) / pool_std raw_df k))
             (keys fw)) in
    let total := fold_right Rplus 0 (map (getitem fw) (keys fw)) in
    distance m = fdiv (Fin weighted) (Fin total) /\
    (total <> 0 -> distance m = Fin (weighted / total)) /\
    (forall k, pool_mean raw_df k = Np.mean (column k raw_df)) /\
    (forall k s, series_std (column k raw_df) = Fin s -> s <> 0 ->
                 pool_std raw_df k = s).
Proof.
  intros Hne Hok raw_df m Hm.
  pose proof (result_row_origin _ _ _ _ _ _ _ Hok m Hm) as [Hin Hd].
  rewrite (resolve_nonempty fw fc Hne) in Hd. simpl fst in Hd; simpl snd in Hd.
  exists (raw_row_of metric (keys fw) (sort_values_hour df_target) df_hist (m_date m)).
  split; [apply in_map; exact Hin|].
  split; [reflexivity|].
  split.
  - intros k Hk. unfold raw_row_of. cbn [raw_dist].
    now rewrite (getitem_map_key _ _ _ Hk).
  - cbv zeta. split; [exact Hd|]. split; [|split].
    + intros Ht. rewrite Hd. unfold spec_distance, spec_weight_total, spec_weighted_sum.
      unfold fdiv. fold raw_df.
      destruct (Req_dec_T _ 0) as [E|_]; [contradiction|reflexivity].
    + reflexivity.
    + intros k s Es Hs. unfold pool_std. rewrite Es. simpl.
      destruct (Req_dec_T s 0); [contradiction|reflexivity].
Qed.

(** C5.  A historical day whose number of hourly rows differs from the
    target's is dropped in pass 1, before any distance is computed, and so
    never appears in the returned frame, whatever its values. *)
Theorem mismatched_days_excluded (df_target df_hist : DataFrame) (fw : option dict)
    (fc : list string) (n : Z) (metric : string) (res : list MatchResult) :
  find_like_days df_target df_hist fw fc n metric = Ok res ->
  (forall m, In m res -> hour_count (m_date m) df_hist = List.length df_target) /\
  (forall d, hour_count d df_hist <> List.length df_target ->
     ~ In d (map m_date res) /\
     ~ In d (map raw_date
               (pass1 metric (fst (resolve_features fw fc))
                      (sort_values_hour df_target) df_hist))).
Proof.
  intros Hok.
  assert (Hres : forall m, In m res ->
                   hour_count (m_date m) df_hist = List.length df_target).
  { intros m Hm.
    destruct (result_row_origin _ _ _ _ _ _ _ Hok m Hm) as [Hin _].
    apply surviving_days_In in Hin. tauto. }
  split; [exact Hres|].
  intros d Hd. split.
  - intros Hin. apply in_map_iff in Hin. destruct Hin as (m & <- & Hm).
    apply Hd, Hres, Hm.
  - rewrite pass1_eq, map_map. cbn [raw_row_of raw_date]. rewrite map_id.
    intros Hin. apply surviving_days_In in Hin. tauto.
Qed.

(** ** The engine on the sample tables *)

(** Closed arithmetic on array cells. *)
Ltac real_cells :=
  unfold series_mean; unfold Np.mean, Np.sum, Np.abs, Np.square, Np.sub;
  cbn [fold_left List.length INR map Np.map2];
  unfold Rabs; repeat destruct (Rcase_abs _); try lra.

(** One comparison of two closed reals. *)
Ltac decide_one :=
  match goal with
  | |- context [Req_dec_T ?a ?b] =>
      destruct (Req_dec_T a b); [try (exfalso; lra)|try (exfalso; lra)]
  | |- context [Rlt_dec ?a ?b] =>
      destruct (Rlt_dec a b); [try (exfalso; lra)|try (exfalso; lra)]
  | |- context [Rle_dec ?a ?b] =>
      destruct (Rle_dec a b); [try (exfalso; lra)|try (exfalso; lra)]
  end.

(** Evaluation of the selection and similarity steps on a closed frame. *)
Ltac eval_frame :=
  repeat first
    [ progress cbn [fsub fdiv fgt0 fleb fmax2 fmin2 isnan negb fold_left fold_right
                    insert_by fleb_row s_distance s_row raw_date map Np.map2
                    combine firstn app filter List.length fst snd arange1 seq
                    Z.of_nat Pos.of_succ_nat Pos.succ]
    | progress (try unfold similarity_column; try unfold series_max;
                try unfold series_min; try unfold sort_by)
    | decide_one ].

Lemma sample_surviving : surviving_days sample_target sample_hist = [97%Z; 98%Z; 99%Z].
Proof. reflexivity. Qed.

Lemma sample_raw_table :
  raw_table "mae" ["da_lmp_total"] sample_target sample_hist = sample_raw.
Proof.
  unfold raw_table. rewrite sample_surviving.
  cbn [map]. unfold raw_row_of, raw_distance, _compute_metric. cbn.
  unfold sample_raw. repeat (f_equal; try real_cells).
Qed.

Lemma sample_pool_mean : pool_mean sample_raw "da_lmp_total" = 1.
Proof. unfold pool_mean, column. cbn. real_cells. Qed.

Lemma sample_pool_std : pool_std sample_raw "da_lmp_total" = 1.
Proof.
  unfold pool_std, column.
  cbn [map sample_raw raw_dist getitem dict_get String.eqb Ascii.eqb Bool.eqb].
  unfold series_std.
  match goal with |- context [sqrt ?x] => replace x with 1 by real_cells end.
  rewrite sqrt_1. unfold guard_std. decide_one. reflexivity.
Qed.

Lemma sample_scored :
  scored_table sample_weights ["da_lmp_total"] sample_raw =
  Np.map2 (fun r d => {| s_row := r; s_distance := Fin d |}) sample_raw [-1; 0; 1].
Proof.
  rewrite scored_table_spec.
  unfold spec_distance, spec_weighted_sum, spec_weight_total.
  cbn [map fold_right]. rewrite sample_pool_mean, sample_pool_std.
  cbn. unfold fdiv. repeat decide_one.
  repeat (f_equal; try lra).
Qed.

Lemma sample_selected :
  select_and_score 5
    (Np.map2 (fun r d => {| s_row := r; s_distance := Fin d |}) sample_raw [-1; 0; 1])
  = sample_result.
Proof.
  unfold select_and_score, nsmallest, sample_raw, sample_result.
  change (Z.to_nat 5) with 5%nat.
  eval_frame.
  repeat (f_equal; try lra).
Qed.

(** The three one-hour days come back in ascending distance, the two-hour
    day is left out. *)
Lemma sample_run :
  find_like_days sample_target sample_hist (Some sample_weights) FEATURE_COLS 5 "mae"
  = Ok sample_result.
Proof.
  rewrite find_like_days_eq. cbv zeta.
  change (resolve_features (Some sample_weights) FEATURE_COLS)
    with (["da_lmp_total"], sample_weights).
  cbn [fst snd]. fold (raw_table "mae" ["da_lmp_total"] sample_target sample_hist).
  rewrite sample_raw_table, sample_scored, sample_selected. reflexivity.
Qed.

Lemma blended_distance_formula_witness :
  exists r, In r (raw_table "mae" (keys sample_weights) sample_target sample_hist) /\
            raw_date r = 97%Z /\
            Fin (-1) =
            Fin (fold_right Rplus 0
                   (map (fun k => getitem sample_weights k *
                                  ((getitem (raw_dist r) k -
                                    pool_mean (raw_table "mae" (keys sample_weights)
                                                 sample_target sample_hist) k) /
                                   pool_std (raw_table "mae" (keys sample_weights)
                                               sample_target sample_hist) k))
                        (keys sample_weights)) /
                 fold_right Rplus 0 (map (getitem sample_weights) (keys sample_weights))).
Proof.
  assert (Hne : sample_weights <> []) by discriminate.
  assert (Hin : In {| m_date := 97; rank := 1; distance := Fin (-1); similarity := Fin 1 |}
                   sample_result) by (left; reflexivity).
  destruct (blended_distance_formula sample_target sample_hist sample_weights
              FEATURE_COLS 5 "mae" sample_result Hne sample_run _ Hin)
    as (r & Hr & Hd & _ & _ & Hfin & _).
  exists r. split; [exact Hr|]. split; [exact Hd|].
  apply Hfin. cbn. lra.
Defined.

Lemma mismatched_days_excluded_witness :
  hour_count 96 sample_hist <> List.length sample_target /\
  ~ In 96%Z (map m_date sample_result).
Proof.
  assert (Hc : hour_count 96 sample_hist <> List.length sample_target)
    by (cbn; discriminate).
  split; [exact Hc|].
  exact (proj1 (proj2 (mismatched_days_excluded sample_target sample_hist
                         (Some sample_weights) FEATURE_COLS 5 "mae" sample_result
                         sample_run) 96%Z Hc)).
Defined.

(** ** Degenerate standard deviations *)

Lemma guard_std_nonzero (std : npfloat) : guard_std std <> 0.
Proof.
  destruct std as [s| | |]; simpl; try lra.
  destruct (Req_dec_T s 0); [lra|assumption].
Qed.

(** The divisor of the normalization is never zero: it is 1.0 when the
    standard deviation of the feature's raw distances is zero or undefined
    (a pool of one day), and the standard deviation itself otherwise. *)
Lemma std_guard_cases (fc : list string) (raw_df : list RawRow) (col : string) :
  In col fc ->
  let std := series_std (column col raw_df) in
  let used := snd (stats_get (feat_stats fc raw_df) col) in
  used <> 0 /\
  (std = NaN \/ std = Fin 0 -> used = 1) /\
  (List.length raw_df = 1%nat -> used = 1) /\
  (forall s, std = Fin s -> s <> 0 -> used = s).
Proof.
  intros Hin. cbv zeta. rewrite (stats_get_feat_stats fc raw_df col Hin).
  cbn [snd]. unfold pool_std.
  assert (Hdeg : series_std (column col raw_df) = NaN \/
                 series_std (column col raw_df) = Fin 0 ->
                 guard_std (series_std (column col raw_df)) = 1).
  { intros [-> | ->]; simpl; [reflexivity|].
    destruct (Req_dec_T 0 0); [reflexivity|congruence]. }
  split; [apply guard_std_nonzero|].
  split; [exact Hdeg|].
  split.
  - intros Hlen. apply Hdeg. left.
    unfold column. destruct raw_df as [|r [|r' l]]; try discriminate Hlen.
    reflexivity.
  - intros s -> Hs. simpl. destruct (Req_dec_T s 0); [contradiction|reflexivity].
Qed.

Section StdOnDoubles.

Import Floats.

(** C8.  Identical raw distances are not always recognised as a
    degenerate pool.  On doubles the divisor is, for every value of the
    standard deviation, neither zero nor NaN, and it is 1.0 for a pool of
    one day.  But for three one-hour days at price 0 and a target at price
    0.1 (mae), the raw distances are all 0.1, their mean comes out as
    0.10000000000000002 and their standard deviation as 1.7e-17: the test
    [std == 0] fails, 1.0 is not substituted, and every day gets the
    distance -0.816 where the substitution would give 0. *)
Theorem identical_distances_std_not_replaced :
  (forall std : float,
     PrimFloat.eqb (F64.guard_std std) 0 = false /\
     PrimFloat.is_nan (F64.guard_std std) = false) /\
  (forall x : float, F64.guard_std (F64.series_std [x]) = 1%float) /\
  let raw := F64.one_hour_days "mae" "lmp_total" F64.tenth 97
                               [0; 0; 0]%float in
  F64.column "lmp_total" raw = [F64.tenth; F64.tenth; F64.tenth] /\
  F64.series_mean (F64.column "lmp_total" raw) = 0x1.999999999999bp-4%float /\
  F64.series_std (F64.column "lmp_total" raw) = 0x1.3988e1409212ep-56%float /\
  snd (F64.stats_get (F64.feat_stats ["lmp_total"] raw) "lmp_total")
  = 0x1.3988e1409212ep-56%float /\
  F64.distance_column [("lmp_total", 1%float)] ["lmp_total"] raw
  = [-0x1.a20bd700c2c3fp-1; -0x1.a20bd700c2c3fp-1; -0x1.a20bd700c2c3fp-1]%float.
Proof.
  split; [|split].
  - intros std. unfold F64.guard_std.
    destruct (PrimFloat.eqb std 0) eqn:E; cbn [orb]; [split; reflexivity|].
    destruct (PrimFloat.is_nan std) eqn:N; [split; reflexivity|].
    split; assumption.
  - intros x. reflexivity.
  - vm_compute. repeat split.
Qed.

End StdOnDoubles.

(** ** Scaling the weights *)










Section WeightsOnDoubles.

Import Floats.


(** On the same days the weights 2, 4 and 1/2 give the distances of the
    weight 1, digit for digit. *)
Lemma power_of_two_weights_on_doubles :
  let raw := F64.one_hour_days "mae" "lmp_total" 10 97 [10; 11; 13]%float in
  let d w := F64.distance_column [("lmp_total", w)] ["lmp_total"] raw in
  d 2%float = d 1%float /\ d 4%float = d 1%float /\ d 0.5%float = d 1%float.
Proof. vm_compute. repeat split. Qed.

End WeightsOnDoubles.

(** ** Minimum, maximum and similarity *)

Lemma similarity_column_cells (l : list npfloat) :
  similarity_column l = map (similarity_cell (series_min l) (series_max l)) l.
Proof.
  unfold similarity_column, similarity_cell.
  destruct (fgt0 _); reflexivity.
Qed.

Lemma map_eq_pointwise {A B : Type} (f g : A -> B) (l : list A) :
  map f l = map g l -> forall x, In x l -> f x = g x.
Proof.
  induction l as [|y l IH]; simpl; [tauto|].
  intros H; injection H as Hy Hl. intros x [<-|Hx]; auto.
Qed.

Lemma fmin2_Fin (a x : R) :
  fmin2 (Fin a) (Fin x) = if Rle_dec x a then Fin x else Fin a.
Proof. unfold fmin2. cbn [isnan fleb]. destruct (Rle_dec x a); reflexivity. Qed.

Lemma fmax2_Fin (b x : R) :
  fmax2 (Fin b) (Fin x) = if Rle_dec b x then Fin x else Fin b.
Proof. unfold fmax2. cbn [isnan fleb]. destruct (Rle_dec b x); reflexivity. Qed.

Lemma fold_fmin_Fin (xs : list R) (a : R) :
  exists a', fold_left fmin2 (map Fin xs) (Fin a) = Fin a' /\
             (a' = a \/ In a' xs) /\ a' <= a /\ forall x, In x xs -> a' <= x.
Proof.
  revert a; induction xs as [|x xs IH]; intros a; cbn [map fold_left].
  - exists a. repeat split; auto; try lra. intros x [].
  - rewrite fmin2_Fin. destruct (Rle_dec x a) as [Hle|Hnle].
    + destruct (IH x) as (a' & E & Hin & Hb & Hall).
      exists a'. split; [exact E|]. split; [cbn [In]; destruct Hin as [->|Hin]; auto|]. split; [lra|].
      intros y [<-|Hy]; auto.
    + destruct (IH a) as (a' & E & Hin & Hb & Hall).
      exists a'. split; [exact E|]. split; [cbn [In]; destruct Hin as [->|Hin]; auto|]. split; [lra|].
      intros y [<-|Hy]; [lra|auto].
Qed.

Lemma fold_fmax_Fin (xs : list R) (b : R) :
  exists b', fold_left fmax2 (map Fin xs) (Fin b) = Fin b' /\
             (b' = b \/ In b' xs) /\ b <= b' /\ forall x, In x xs -> x <= b'.
Proof.
  revert b; induction xs as [|x xs IH]; intros b; cbn [map fold_left].
  - exists b. repeat split; auto; try lra. intros x [].
  - rewrite fmax2_Fin. destruct (Rle_dec b x) as [Hle|Hnle].
    + destruct (IH x) as (b' & E & Hin & Hb & Hall).
      exists b'. split; [exact E|]. split; [cbn [In]; destruct Hin as [->|Hin]; auto|]. split; [lra|].
      intros y [<-|Hy]; auto.
    + destruct (IH b) as (b' & E & Hin & Hb & Hall).
      exists b'. split; [exact E|]. split; [cbn [In]; destruct Hin as [->|Hin]; auto|]. split; [lra|].
      intros y [<-|Hy]; [lra|auto].
Qed.

Lemma series_min_Fin (xs : list R) :
  xs <> [] ->
  exists a, series_min (map Fin xs) = Fin a /\ In a xs /\ forall x, In x xs -> a <= x.
Proof.
  destruct xs as [|x xs]; [congruence|]. intros _.
  unfold series_min. cbn [map fold_left fmin2 isnan].
  destruct (fold_fmin_Fin xs x) as (a & E & Hin & Hb & Hall).
  exists a. split; [exact E|]. split.
  - destruct Hin as [->|Hin]; [left; reflexivity|right; exact Hin].
  - intros y [<-|Hy]; auto.
Qed.

Lemma series_max_Fin (xs : list R) :
  xs <> [] ->
  exists b, series_max (map Fin xs) = Fin b /\ In b xs /\ forall x, In x xs -> x <= b.
Proof.
  destruct xs as [|x xs]; [congruence|]. intros _.
  unfold series_max. cbn [map fold_left fmax2 isnan].
  destruct (fold_fmax_Fin xs x) as (b & E & Hin & Hb & Hall).
  exists b. split; [exact E|]. split.
  - destruct Hin as [->|Hin]; [left; reflexivity|right; exact Hin].
  - intros y [<-|Hy]; auto.
Qed.

Lemma all_Fin_map (l : list npfloat) :
  Forall (fun x => is_finite x = true) l -> exists xs, l = map Fin xs.
Proof.
  induction 1 as [|x l Hx _ [xs ->]]; [exists []; reflexivity|].
  destruct x as [r| | |]; try discriminate Hx. now exists (r :: xs).
Qed.

Lemma similarity_cell_Fin (a b d : R) :
  a <= d <= b ->
  similarity_cell (Fin a) (Fin b) (Fin d) =
  Fin (if Rlt_dec a b then 1 - (d - a) / (b - a) else 1) /\
  0 <= (if Rlt_dec a b then 1 - (d - a) / (b - a) else 1) <= 1.
Proof.
  intros Hd. unfold similarity_cell. cbn [fsub fgt0 fdiv].
  destruct (Rlt_dec a b) as [Hlt|Hnlt].
  - destruct (Rlt_dec 0 (b - a)) as [_|N]; [|exfalso; lra].
    destruct (Req_dec_T (b - a) 0) as [E|_]; [exfalso; lra|].
    split; [reflexivity|].
    assert (0 <= (d - a) / (b - a) <= 1).
    { assert (Hi : 0 < / (b - a)) by (apply Rinv_0_lt_compat; lra).
      assert (Hone : (b - a) * / (b - a) = 1) by (apply Rinv_r; lra).
      unfold Rdiv. split; nra. }
    lra.
  - destruct (Rlt_dec 0 (b - a)) as [H|_]; [exfalso; lra|].
    split; [reflexivity|lra].
Qed.

Lemma fold_fmin_NaN (l : list npfloat) :
  Forall (fun x => x = NaN) l -> fold_left fmin2 l NaN = NaN.
Proof. induction 1 as [|x l -> _ IH]; simpl; auto. Qed.

Lemma fold_fmax_NaN (l : list npfloat) :
  Forall (fun x => x = NaN) l -> fold_left fmax2 l NaN = NaN.
Proof. induction 1 as [|x l -> _ IH]; simpl; auto. Qed.

Lemma fleb_refl (v : npfloat) : isnan v = false -> fleb v v = true.
Proof.
  destruct v as [r| | |]; simpl; try reflexivity; try discriminate.
  intros _. destruct (Rle_dec r r); [reflexivity|exfalso; lra].
Qed.

Lemma fold_const (f : npfloat -> npfloat -> npfloat) (v : npfloat) (l : list npfloat) :
  f v v = v -> Forall (fun x => x = v) l -> fold_left f l v = v.
Proof.
  intros Hf. induction 1 as [|x l -> _ IH]; simpl; [reflexivity|].
  now rewrite Hf.
Qed.

Lemma series_const (v : npfloat) (l : list npfloat) :
  l <> [] -> Forall (fun x => x = v) l -> series_min l = v /\ series_max l = v.
Proof.
  intros Hne Hall. destruct l as [|x l]; [congruence|].
  pose proof (Forall_inv Hall) as Hx. pose proof (Forall_inv_tail Hall) as Hl.
  simpl in Hx. subst x.
  unfold series_min, series_max. cbn [fold_left].
  destruct (isnan v) eqn:En.
  - destruct v; try discriminate En. cbn [fmin2 fmax2 isnan].
    split; [apply fold_fmin_NaN|apply fold_fmax_NaN]; exact Hl.
  - assert (E1 : fmin2 NaN v = v) by (unfold fmin2; rewrite En; reflexivity).
    assert (E2 : fmax2 NaN v = v) by (unfold fmax2; rewrite En; reflexivity).
    rewrite E1, E2. split; apply fold_const; try exact Hl.
    + unfold fmin2. rewrite En, (fleb_refl v En). reflexivity.
    + unfold fmax2. rewrite En, (fleb_refl v En). reflexivity.
Qed.

Lemma similarity_cell_same (v d : npfloat) : similarity_cell v v d = Fin 1.
Proof.
  unfold similarity_cell. destruct v as [r| | |]; cbn [fsub fgt0]; try reflexivity.
  destruct (Rlt_dec 0 (r - r)); [exfalso; lra|reflexivity].
Qed.

Lemma fold_fmin_nonfinite (l : list npfloat) (acc : npfloat) :
  is_finite acc = false -> Forall (fun x => is_finite x = false) l ->
  is_finite (fold_left fmin2 l acc) = false.
Proof.
  intros Ha Hl; revert acc Ha. induction Hl as [|x l Hx _ IH]; intros acc Ha; simpl; auto.
  apply IH. unfold fmin2.
  destruct (isnan x); [exact Ha|]. destruct (isnan acc); [exact Hx|].
  destruct (fleb x acc); assumption.
Qed.

Lemma fold_fmax_nonfinite (l : list npfloat) (acc : npfloat) :
  is_finite acc = false -> Forall (fun x => is_finite x = false) l ->
  is_finite (fold_left fmax2 l acc) = false.
Proof.
  intros Ha Hl; revert acc Ha. induction Hl as [|x l Hx _ IH]; intros acc Ha; simpl; auto.
  apply IH. unfold fmax2.
  destruct (isnan x); [exact Ha|]. destruct (isnan acc); [exact Hx|].
  destruct (fleb acc x); assumption.
Qed.

(** Over a column without a finite value the similarity is the same on
    every row: NaN when the column holds both infinities, 1.0 otherwise. *)
Lemma similarity_cell_nonfinite_uniform (mn mx : npfloat) :
  is_finite mn = false -> is_finite mx = false ->
  (forall d, is_finite d = false -> similarity_cell mn mx d = Fin 1) \/
  (forall d, is_finite d = false -> similarity_cell mn mx d = NaN).
Proof.
  destruct mn, mx; try discriminate; intros _ _;
    first [ left; intros d Hd; destruct d; try discriminate Hd; reflexivity
          | right; intros d Hd; destruct d; try discriminate Hd; reflexivity ].
Qed.

(** ** Distances of the blended table *)

Lemma fdiv_Fin_nonzero (a b : R) : b <> 0 -> fdiv (Fin a) (Fin b) = Fin (a / b).
Proof.
  intros Hb. unfold fdiv. destruct (Req_dec_T b 0); [contradiction|reflexivity].
Qed.

Lemma fdiv_Fin_zero (a : R) : is_finite (fdiv (Fin a) (Fin 0)) = false.
Proof.
  unfold fdiv. destruct (Req_dec_T 0 0) as [_|N]; [|congruence].
  destruct (Req_dec_T a 0); [reflexivity|].
  destruct (Rlt_dec 0 a); reflexivity.
Qed.

Lemma fdiv_zero_zero : fdiv (Fin 0) (Fin 0) = NaN.
Proof.
  unfold fdiv. destruct (Req_dec_T 0 0) as [_|N]; [reflexivity|congruence].
Qed.

Lemma weighted_sum_zero (weights : dict) (fc : list string) (raw_df : list RawRow)
    (r : RawRow) :
  (forall k, In k fc -> getitem weights k = 0) ->
  spec_weighted_sum weights fc raw_df r = 0 /\ spec_weight_total weights fc = 0.
Proof.
  unfold spec_weighted_sum, spec_weight_total.
  induction fc as [|k fc IH]; intros Hz; simpl; [split; reflexivity|].
  destruct IH as [E1 E2]; [intros k' Hk'; apply Hz; now right|].
  rewrite E1, E2, (Hz k (or_introl eq_refl)). split; lra.
Qed.

Lemma nonneg_total_zero (weights : dict) (fc : list string) :
  (forall k, 0 <= getitem weights k) ->
  spec_weight_total weights fc = 0 ->
  forall k, In k fc -> getitem weights k = 0.
Proof.
  intros Hnn. unfold spec_weight_total. rewrite <- sum_fold_right. intros Hs.
  assert (Hall : Forall (fun x => 0 <= x) (map (getitem weights) fc)).
  { rewrite Forall_forall. intros x Hx. apply in_map_iff in Hx.
    destruct Hx as (k & <- & _). apply Hnn. }
  pose proof (sum_nonneg_zero _ Hall Hs) as Hz.
  rewrite Forall_forall in Hz. intros k Hk. apply Hz. now apply in_map.
Qed.

Lemma dict_get_In (d : dict) (k : string) (v : R) :
  dict_get d k = Some v -> In (k, v) d.
Proof.
  induction d as [|[k' v'] d IH]; simpl; [discriminate|].
  destruct (String.eqb_spec k k') as [->|_].
  - intros H; injection H as <-. now left.
  - intros H. right. auto.
Qed.

Lemma resolved_weights_nonneg (fw : option dict) (fc : list string) :
  nonneg_weights fw ->
  forall k, 0 <= getitem (snd (resolve_features fw fc)) k.
Proof.
  intros Hnn k.
  assert (Hdef : 0 <= getitem (map (fun col => (col, 1)) fc) k).
  { unfold getitem. destruct (dict_get _ k) as [v|] eqn:E; [|lra].
    apply dict_get_In, in_map_iff in E. destruct E as (c & Hc & _).
    injection Hc as _ <-. lra. }
  unfold resolve_features. destruct fw as [d|]; [|exact Hdef].
  destruct (Nat.ltb 0 (List.length d)); [|exact Hdef].
  cbn [snd]. unfold getitem. destruct (dict_get d k) as [v|] eqn:E; [|lra].
  apply dict_get_In in E. simpl in Hnn. rewrite Forall_forall in Hnn.
  exact (Hnn _ E).
Qed.

Lemma result_similarity (df_target df_hist : DataFrame) (fw : option dict)
    (fc : list string) (n : Z) (metric : string) (res : list MatchResult) :
  find_like_days df_target df_hist fw fc n metric = Ok res ->
  forall m, In m res ->
    similarity m =
    similarity_cell (series_min (map distance res)) (series_max (map distance res))
                    (distance m).
Proof.
  intros Hok. pose proof (find_like_days_ok _ _ _ _ _ _ _ Hok) as Hres.
  assert (E : map similarity res =
              map (fun m => similarity_cell (series_min (map distance res))
                                            (series_max (map distance res)) (distance m)) res).
  { rewrite <- (map_map distance), <- similarity_column_cells.
    rewrite Hres at 1. rewrite select_similarity.
    rewrite Hres. now rewrite select_distance. }
  exact (map_eq_pointwise _ _ _ E).
Qed.

Lemma result_distances_cases (df_target df_hist : DataFrame) (fw : option dict)
    (fc : list string) (n : Z) (metric : string) (res : list MatchResult) :
  find_like_days df_target df_hist fw fc n metric = Ok res ->
  let cols := fst (resolve_features fw fc) in
  let weights := snd (resolve_features fw fc) in
  (spec_weight_total weights cols <> 0 ->
   Forall (fun x => is_finite x = true) (map distance res)) /\
  (spec_weight_total weights cols = 0 ->
   Forall (fun x => is_finite x = false) (map distance res)) /\
  ((forall k, In k cols -> getitem weights k = 0) ->
   Forall (fun x => x = NaN) (map distance res)).
Proof.
  intros Hok cols weights.
  pose proof (result_row_origin _ _ _ _ _ _ _ Hok) as Horigin. cbv zeta in Horigin.
  fold cols weights in Horigin.
  repeat split; intros H; rewrite Forall_forall; intros x Hx;
    apply in_map_iff in Hx; destruct Hx as (m & <- & Hm);
    destruct (Horigin m Hm) as [_ ->]; unfold spec_distance.
  - now rewrite fdiv_Fin_nonzero.
  - rewrite H. apply fdiv_Fin_zero.
  - destruct (weighted_sum_zero weights cols
                (raw_table metric cols df_target df_hist)
                (raw_row_of metric cols (sort_values_hour df_target) df_hist (m_date m)) H)
      as [-> ->].
    apply fdiv_zero_zero.
Qed.

Lemma Fin_pool_bounds (xs : list R) :
  xs <> [] ->
  exists a b, series_min (map Fin xs) = Fin a /\ series_max (map Fin xs) = Fin b /\
              In a xs /\ In b xs /\ forall x, In x xs -> a <= x <= b.
Proof.
  intros Hne.
  destruct (series_min_Fin xs Hne) as (a & Ea & Ha & Hla).
  destruct (series_max_Fin xs Hne) as (b & Eb & Hb & Hlb).
  exists a, b. repeat split; auto.
Qed.









(** ** Order of the selected rows *)

Lemma fleb_fle (x y : npfloat) : fleb x y = true <-> fle x y.
Proof.
  destruct x as [a| | |], y as [b| | |]; simpl; try tauto;
    try (split; [discriminate|tauto]).
  destruct (Rle_dec a b); split; auto; discriminate.
Qed.

Lemma fle_total (x y : npfloat) :
  isnan x = false -> isnan y = false -> fle x y \/ fle y x.
Proof.
  destruct x as [a| | |], y as [b| | |]; simpl; try tauto; try discriminate.
  intros _ _. lra.
Qed.

Lemma fle_trans (x y z : npfloat) : fle x y -> fle y z -> fle x z.
Proof.
  destruct x as [a| | |], y as [b| | |], z as [c| | |]; simpl; try tauto.
  lra.
Qed.

Lemma StronglySorted_map {A B : Type} (R : B -> B -> Prop) (f : A -> B) (l : list A) :
  StronglySorted (fun a b => R (f a) (f b)) l -> StronglySorted R (map f l).
Proof.
  induction 1 as [|x l Hs IH Hx]; simpl; constructor; [exact IH|].
  rewrite Forall_forall in *. intros y Hy. apply in_map_iff in Hy.
  destruct Hy as (z & <- & Hz). auto.
Qed.

Lemma StronglySorted_weaken {A : Type} (R R' : A -> A -> Prop) (l : list A) :
  (forall x y, In x l -> In y l -> R x y -> R' x y) ->
  StronglySorted R l -> StronglySorted R' l.
Proof.
  intros Himp Hs. induction Hs as [|x l Hs IH Hx]; constructor.
  - apply IH. intros a b Ha Hb. apply Himp; now right.
  - rewrite Forall_forall in *. intros y Hy.
    apply Himp; [now left|now right|auto].
Qed.

Lemma StronglySorted_app {A : Type} (R : A -> A -> Prop) (l1 l2 : list A) :
  StronglySorted R l1 -> StronglySorted R l2 ->
  (forall x y, In x l1 -> In y l2 -> R x y) ->
  StronglySorted R (l1 ++ l2).
Proof.
  intros H1 H2 H12. induction H1 as [|x l Hs IH Hx]; simpl; [exact H2|].
  constructor.
  - apply IH. intros a b Ha Hb. apply H12; [now right|exact Hb].
  - rewrite Forall_forall in *. intros y Hy. apply in_app_or in Hy.
    destruct Hy as [Hy|Hy]; [auto|]. apply H12; [now left|exact Hy].
Qed.

Lemma nsmallest_sorted (n : Z) (sc : list ScoredRow) :
  StronglySorted fle_nan_last (map s_distance (nsmallest n sc)).
Proof.
  unfold nsmallest. rewrite <- firstn_map. apply StronglySorted_firstn.
  rewrite map_app. apply StronglySorted_app.
  - apply StronglySorted_map.
    apply (StronglySorted_weaken (fun a b => fleb_row a b = true)).
    + intros a b _ _ H. right. now apply fleb_fle.
    + apply (sort_by_sorted fleb_row (fun r => isnan (s_distance r) = false)).
      * intros a b Ha Hb. unfold fleb_row.
        destruct (fle_total _ _ Ha Hb) as [H|H]; [left|right]; now apply fleb_fle.
      * intros a b c _ _ _ Hab Hbc. unfold fleb_row in *.
        apply fleb_fle. apply fleb_fle in Hab, Hbc. eapply fle_trans; eauto.
      * rewrite Forall_forall. intros r Hr. apply filter_In in Hr.
        destruct Hr as [_ Hr]. now destruct (isnan (s_distance r)).
  - apply StronglySorted_map.
    induction sc as [|r sc IH]; simpl; [constructor|].
    destruct (isnan (s_distance r)) eqn:E; [|exact IH].
    constructor; [exact IH|]. rewrite Forall_forall. intros r' Hr'.
    apply filter_In in Hr'. left. destruct Hr' as [_ Hn].
    now destruct (s_distance r').
  - intros x y _ Hy. left. apply in_map_iff in Hy.
    destruct Hy as (r & <- & Hr). apply filter_In in Hr. destruct Hr as [_ Hn].
    now destruct (s_distance r).
Qed.

Lemma raw_table_length (metric : string) (fc : list string) (df_target df_hist : DataFrame) :
  List.length (raw_table metric fc df_target df_hist) =
  List.length (surviving_days df_target df_hist).
Proof. unfold raw_table. apply length_map. Qed.

Lemma scored_table_length (weights : dict) (fc : list string) (raw_df : list RawRow) :
  List.length (scored_table weights fc raw_df) = List.length raw_df.
Proof. rewrite scored_table_spec. apply length_map. Qed.

Lemma result_ranks (df_target df_hist : DataFrame) (fw : option dict)
    (fc : list string) (n : Z) (metric : string) (res : list MatchResult) :
  find_like_days df_target df_hist fw fc n metric = Ok res ->
  map rank res =
  arange1 (Nat.min (Z.to_nat n) (List.length (surviving_days df_target df_hist))).
Proof.
  intros Hok. rewrite (find_like_days_ok _ _ _ _ _ _ _ Hok).
  now rewrite select_rank, scored_table_length, raw_table_length.
Qed.

(** C2 (amended).  The returned rows are in non-decreasing order of
    distance (pandas' ascending order, in which the undefined distances of
    a zero weight sum come last), and the ranks are exactly 1..K without
    gaps, K being the smaller of [n_neighbors] and the number of surviving
    historical days. *)
Theorem ranking_sorted_ranks_gapless (df_target df_hist : DataFrame)
    (fw : option dict) (fc : list string) (n : Z) (metric : string)
    (res : list MatchResult) :
  find_like_days df_target df_hist fw fc n metric = Ok res ->
  let cols := fst (resolve_features fw fc) in
  let weights := snd (resolve_features fw fc) in
  StronglySorted fle_nan_last (map distance res) /\
  (Np.sum (map (getitem weights) cols) <> 0 ->
   StronglySorted fle (map distance res)) /\
  map rank res =
  arange1 (Nat.min (Z.to_nat n) (List.length (surviving_days df_target df_hist))) /\
  (Z.of_nat (List.length (surviving_days df_target df_hist)) >= n ->
   map rank res = arange1 (Z.to_nat n))%Z.
Proof.
  intros Hok cols weights.
  assert (Hs : StronglySorted fle_nan_last (map distance res)).
  { rewrite (find_like_days_ok _ _ _ _ _ _ _ Hok), select_distance.
    apply nsmallest_sorted. }
  split; [exact Hs|]. split; [|split].
  - intros Hws.
    destruct (result_distances_cases _ _ _ _ _ _ _ Hok) as (Hfin & _).
    fold cols weights in Hfin. unfold spec_weight_total in Hfin.
    rewrite <- sum_fold_right in Hfin. specialize (Hfin Hws).
    apply (StronglySorted_weaken fle_nan_last); [|exact Hs].
    intros x y _ Hy [->|H]; [|exact H].
    rewrite Forall_forall in Hfin. specialize (Hfin _ Hy). discriminate Hfin.
  - exact (result_ranks _ _ _ _ _ _ _ Hok).
  - intros Hn. rewrite (result_ranks _ _ _ _ _ _ _ Hok). f_equal. lia.
Qed.

Lemma ranking_sorted_ranks_gapless_witness :
  StronglySorted fle (map distance sample_result) /\
  map rank sample_result = [1; 2; 3]%Z.
Proof.
  destruct (ranking_sorted_ranks_gapless sample_target sample_hist (Some sample_weights)
              FEATURE_COLS 5 "mae" sample_result sample_run) as (_ & Hs & Hr & _).
  split.
  - apply Hs. cbn. unfold Np.sum. cbn. lra.
  - exact Hr.
Defined.

(** The ranks of the sample run stop at 3 although five neighbors were
    asked for from a pool of three comparable days. *)
Lemma ranks_stop_at_pool_size :
  exists res,
    find_like_days sample_target sample_hist (Some sample_weights) FEATURE_COLS 5 "mae"
    = Ok res /\
    (2 <= List.length (surviving_days sample_target sample_hist))%nat /\
    map rank res <> arange1 (Z.to_nat 5).
Proof.
  exists sample_result. split; [exact sample_run|]. split.
  - rewrite sample_surviving. simpl. lia.
  - discriminate.
Qed.

(** ** A zero weight sum *)

Lemma result_length (df_target df_hist : DataFrame) (fw : option dict)
    (fc : list string) (n : Z) (metric : string) (res : list MatchResult) :
  find_like_days df_target df_hist fw fc n metric = Ok res ->
  List.length res =
  Nat.min (Z.to_nat n) (List.length (surviving_days df_target df_hist)).
Proof.
  intros Hok. rewrite <- (length_map rank), (result_ranks _ _ _ _ _ _ _ Hok).
  apply arange1_length.
Qed.

Lemma find_like_days_runs (df_target df_hist : DataFrame) (fw : option dict)
    (fc : list string) (n : Z) (metric : string) :
  df_target <> [] ->
  (exists d, In d (map date df_hist) /\ hour_count d df_hist = List.length df_target) ->
  exists res, find_like_days df_target df_hist fw fc n metric = Ok res.
Proof.
  intros Ht [d Hd]. rewrite find_like_days_eq. cbv zeta.
  destruct df_target as [|r t]; [congruence|]. cbn [List.length Nat.eqb].
  apply surviving_days_In in Hd.
  destruct (surviving_days (r :: t) df_hist); [destruct Hd|].
  eexists; reflexivity.
Qed.

Lemma zero_sum_frame (df_target df_hist : DataFrame) (fw : dict)
    (fc : list string) (n : Z) (metric : string) (res : list MatchResult) :
  fw <> [] ->
  Np.sum (map (getitem fw) (keys fw)) = 0 ->
  find_like_days df_target df_hist (Some fw) fc n metric = Ok res ->
  (forall m, In m res -> is_finite (distance m) = false) /\
  ((forall m, In m res -> similarity m = Fin 1) \/
   (forall m, In m res -> similarity m = NaN)) /\
  ((forall k, In k (keys fw) -> getitem fw k = 0) ->
   forall m, In m res -> distance m = NaN /\ similarity m = Fin 1).
Proof.
  intros Hne Hsum Hok.
  pose proof (result_similarity _ _ _ _ _ _ _ Hok) as Hsim.
  pose proof (result_distances_cases _ _ _ _ _ _ _ Hok) as Hcases. cbv zeta in Hcases.
  rewrite (resolve_nonempty fw fc Hne) in Hcases. cbn [fst snd] in Hcases.
  destruct Hcases as (_ & Hinf & Hnan).
  unfold spec_weight_total in Hinf. rewrite <- sum_fold_right in Hinf.
  specialize (Hinf Hsum).
  assert (Hall : forall m, In m res -> is_finite (distance m) = false).
  { intros m Hm. rewrite Forall_forall in Hinf. apply Hinf. now apply in_map. }
  split; [exact Hall|]. split.
  - destruct (similarity_cell_nonfinite_uniform
                (series_min (map distance res)) (series_max (map distance res)))
      as [H1|Hn].
    + apply fold_fmin_nonfinite; [reflexivity|exact Hinf].
    + apply fold_fmax_nonfinite; [reflexivity|exact Hinf].
    + left. intros m Hm. rewrite (Hsim m Hm). apply H1, Hall, Hm.
    + right. intros m Hm. rewrite (Hsim m Hm). apply Hn, Hall, Hm.
  - intros Hz m Hm. specialize (Hnan Hz). split.
    + rewrite Forall_forall in Hnan. apply Hnan. now apply in_map.
    + assert (Hres : map distance res <> []) by (destruct res; [destruct Hm|discriminate]).
      destruct (series_const NaN _ Hres Hnan) as [Emin Emax].
      rewrite (Hsim m Hm), Emin, Emax. apply similarity_cell_same.
Qed.

(** C10 (amended).  A non-empty weight mapping whose weights sum to zero
    is not reported as an error: whenever the target day has rows and some
    historical day has its hour count, a frame is returned, and every
    returned distance is NaN or an infinity.  The similarity is then 1.0
    for every row or NaN for every row; with all weights zero, every
    distance is NaN and every similarity is 1.0. *)
Theorem zero_weight_sum_not_reported (df_target df_hist : DataFrame) (fw : dict)
    (fc : list string) (n : Z) (metric : string) :
  fw <> [] ->
  Np.sum (map (getitem fw) (keys fw)) = 0 ->
  df_target <> [] ->
  (exists d, In d (map date df_hist) /\ hour_count d df_hist = List.length df_target) ->
  exists res,
    find_like_days df_target df_hist (Some fw) fc n metric = Ok res /\
    List.length res =
    Nat.min (Z.to_nat n) (List.length (surviving_days df_target df_hist)) /\
    (forall m, In m res -> is_finite (distance m) = false) /\
    ((forall m, In m res -> similarity m = Fin 1) \/
     (forall m, In m res -> similarity m = NaN)) /\
    ((forall k, In k (keys fw) -> getitem fw k = 0) ->
     forall m, In m res -> distance m = NaN /\ similarity m = Fin 1).
Proof.
  intros Hne Hsum Ht Hd.
  destruct (find_like_days_runs df_target df_hist (Some fw) fc n metric Ht Hd)
    as [res Hok].
  exists res. split; [exact Hok|].
  split; [exact (result_length _ _ _ _ _ _ _ Hok)|].
  exact (zero_sum_frame _ _ _ _ _ _ _ Hne Hsum Hok).
Qed.

Lemma zero_weights_sum : Np.sum (map (getitem zero_weights) (keys zero_weights)) = 0.
Proof. cbn. unfold Np.sum. cbn. lra. Qed.

Lemma zero_weights_all_zero :
  forall k, In k (keys zero_weights) -> getitem zero_weights k = 0.
Proof. intros k [<-|[]]. reflexivity. Qed.

Lemma sample_comparable_day :
  exists d, In d (map date sample_hist) /\
            hour_count d sample_hist = List.length sample_target.
Proof. exists 97%Z. split; [simpl; auto|reflexivity]. Qed.

Lemma zero_weight_sum_not_reported_witness :
  exists res,
    find_like_days sample_target sample_hist (Some zero_weights) FEATURE_COLS 5 "mae"
    = Ok res /\
    List.length res = 3%nat /\
    forall m, In m res -> is_finite (distance m) = false.
Proof.
  assert (Hne : zero_weights <> []) by discriminate.
  assert (Ht : sample_target <> []) by discriminate.
  destruct (zero_weight_sum_not_reported sample_target sample_hist zero_weights
              FEATURE_COLS 5 "mae" Hne zero_weights_sum Ht sample_comparable_day)
    as (res & Hok & Hlen & Hall & _).
  exists res. split; [exact Hok|]. split; [exact Hlen|].
  exact Hall.
Defined.

(** With the single weight 0 the sample run returns three rows, each with
    a NaN distance and the numeric similarity 1.0. *)
Lemma zero_weights_similarity_is_one :
  exists res,
    find_like_days sample_target sample_hist (Some zero_weights) FEATURE_COLS 5 "mae"
    = Ok res /\
    List.length res = 3%nat /\
    forall m, In m res ->
      distance m = NaN /\ similarity m = Fin 1 /\ is_finite (similarity m) = true.
Proof.
  assert (Hne : zero_weights <> []) by discriminate.
  assert (Ht : sample_target <> []) by discriminate.
  destruct (find_like_days_runs sample_target sample_hist (Some zero_weights)
              FEATURE_COLS 5 "mae" Ht sample_comparable_day) as [res Hok].
  exists res. split; [exact Hok|].
  split; [exact (result_length _ _ _ _ _ _ _ Hok)|].
  intros m Hm.
  destruct (zero_sum_frame _ _ _ _ _ _ _ Hne zero_weights_sum Hok) as (_ & _ & Hz).
  destruct (Hz zero_weights_all_zero m Hm) as [Hd Hs].
  rewrite Hs. auto.
Qed.

(** * Further properties of the engine *)

(** ** The metrics as distances *)

Lemma sub_swap (t h : ndarray) : Np.sub h t = map Ropp (Np.sub t h).
Proof.
  unfold Np.sub. revert h; induction t as [|x t IH]; intros [|y h]; simpl; auto.
  rewrite IH. f_equal. lra.
Qed.

Lemma abs_opp (d : ndarray) : Np.abs (map Ropp d) = Np.abs d.
Proof.
  unfold Np.abs. rewrite map_map. apply map_ext. intros x. apply Rabs_Ropp.
Qed.

Lemma square_opp (d : ndarray) : Np.square (map Ropp d) = Np.square d.
Proof.
  unfold Np.square. rewrite map_map. apply map_ext. intros x. lra.
Qed.

Lemma opp_length (d : ndarray) : List.length (map Ropp d) = List.length d.
Proof. apply length_map. Qed.

Lemma mean_abs_opp (d : ndarray) : Np.mean (Np.abs (map Ropp d)) = Np.mean (Np.abs d).
Proof. now rewrite abs_opp. Qed.

Lemma dot_comm (t h : ndarray) : Np.dot t h = Np.dot h t.
Proof.
  unfold Np.dot. f_equal.
  revert h; induction t as [|x t IH]; intros [|y h]; simpl; auto.
  rewrite IH. f_equal. lra.
Qed.

(** X1.  Every metric is symmetric: the raw distance from the target day
    to a historical day is the raw distance from that day to the target. *)
Theorem metric_symmetric (metric : string) (t h : ndarray) :
  _compute_metric (Np.sub t h) metric (Some t) (Some h) =
  _compute_metric (Np.sub h t) metric (Some h) (Some t).
Proof.
  unfold _compute_metric. rewrite (sub_swap t h), abs_opp, square_opp.
  rewrite (dot_comm h t), (Rmult_comm (Np.norm h) (Np.norm t)).
  reflexivity.
Qed.

Lemma abs_nonneg (d : ndarray) : Forall (fun x => 0 <= x) (Np.abs d).
Proof.
  unfold Np.abs. rewrite Forall_forall. intros x Hx.
  apply in_map_iff in Hx. destruct Hx as (y & <- & _). apply Rabs_pos.
Qed.

Lemma mean_nonneg (l : ndarray) : Forall (fun x => 0 <= x) l -> 0 <= Np.mean l.
Proof.
  intros Hl. unfold Np.mean. pose proof (sum_nonneg l Hl).
  destruct l as [|x l].
  - rewrite sum_nil. unfold Rdiv. lra.
  - assert (0 < INR (List.length (x :: l))) by (apply lt_0_INR; simpl; lia).
    apply Rmult_le_pos; [assumption|]. left. now apply Rinv_0_lt_compat.
Qed.

(** X2.  On two hourly vectors of the same non-zero length the mae, rmse
    and euclidean metrics, and every unknown name, yield a non-negative
    raw distance.  (For the cosine metric this holds in exact arithmetic
    only: rounding can bring the distance of a vector to itself just
    below zero.) *)
Theorem metric_range (metric : string) (t h : ndarray) :
  metric <> "cosine" ->
  List.length t = List.length h -> t <> [] ->
  0 <= _compute_metric (Np.sub t h) metric (Some t) (Some h).
Proof.
  intros Hm _ _. unfold _compute_metric.
  destruct (String.eqb metric "mae"); [apply mean_nonneg, abs_nonneg|].
  destruct (String.eqb metric "rmse"); [apply sqrt_pos|].
  destruct (String.eqb metric "euclidean"); [apply sqrt_pos|].
  destruct (String.eqb_spec metric "cosine"); [contradiction|].
  apply mean_nonneg, abs_nonneg.
Qed.

Lemma metric_range_witness :
  0 <= _compute_metric (Np.sub [1; 2] [2; -1]) "rmse" (Some [1; 2]) (Some [2; -1]).
Proof.
  apply (metric_range "rmse" [1; 2] [2; -1]).
  - discriminate.
  - reflexivity.
  - discriminate.
Defined.

Lemma sub_zero_eq (t h : ndarray) :
  List.length t = List.length h ->
  Forall (fun x => x = 0) (Np.sub t h) -> t = h.
Proof.
  unfold Np.sub. revert h; induction t as [|x t IH]; intros [|y h]; simpl;
    try discriminate; auto.
  intros Hl Hz. injection Hl as Hl. inversion Hz; subst.
  f_equal; [lra|auto].
Qed.

Lemma sub_self_zero (t : ndarray) : Forall (fun x => x = 0) (Np.sub t t).
Proof.
  unfold Np.sub. induction t as [|x t IH]; simpl; constructor; [lra|exact IH].
Qed.

Lemma sub_length (t h : ndarray) :
  List.length t = List.length h -> List.length (Np.sub t h) = List.length t.
Proof. intros H. unfold Np.sub. rewrite map2_length, <- H. apply Nat.min_id. Qed.

Lemma abs_all_zero (d : ndarray) :
  Forall (fun x => x = 0) (Np.abs d) <-> Forall (fun x => x = 0) d.
Proof.
  unfold Np.abs. rewrite Forall_map. split; apply Forall_impl; intros x Hx.
  - destruct (Req_dec_T x 0); [assumption|]. apply Rabs_no_R0 in n. contradiction.
  - subst. apply Rabs_R0.
Qed.

Lemma square_all_zero (d : ndarray) :
  Forall (fun x => x = 0) (Np.square d) <-> Forall (fun x => x = 0) d.
Proof.
  unfold Np.square. rewrite Forall_map. split; apply Forall_impl; intros x Hx; nra.
Qed.

Lemma mean_zero_iff (l : ndarray) :
  l <> [] -> Forall (fun x => 0 <= x) l ->
  (Np.mean l = 0 <-> Forall (fun x => x = 0) l).
Proof.
  intros Hne Hnn.
  assert (Hn : 0 < INR (List.length l)).
  { apply lt_0_INR. destruct l; [congruence|simpl; lia]. }
  unfold Np.mean. split.
  - intros Hm. apply sum_nonneg_zero; [exact Hnn|].
    assert (Hi : / INR (List.length l) <> 0) by (apply Rinv_neq_0_compat; lra).
    unfold Rdiv in Hm. apply Rmult_integral in Hm. tauto.
  - intros Hz. rewrite (sum_zero l Hz). unfold Rdiv. lra.
Qed.

(** X3.  Under mae, rmse, euclidean (and any unknown name, treated as
    mae) the raw distance between two hourly vectors of the same non-zero
    length is zero exactly when the vectors are equal. *)
Theorem metric_zero_iff_equal (metric : string) (t h : ndarray) :
  metric <> "cosine" ->
  List.length t = List.length h -> t <> [] ->
  (_compute_metric (Np.sub t h) metric (Some t) (Some h) = 0 <-> t = h).
Proof.
  intros Hc Hl Hne.
  assert (Hd : Np.sub t h <> []).
  { intros E. apply (f_equal (@List.length R)) in E.
    rewrite (sub_length t h Hl) in E. destruct t; [congruence|discriminate]. }
  assert (Habs : Np.mean (Np.abs (Np.sub t h)) = 0 <-> t = h).
  { rewrite mean_zero_iff.
    - rewrite abs_all_zero. split; [now apply sub_zero_eq|].
      intros ->. apply sub_self_zero.
    - unfold Np.abs. destruct (Np.sub t h); [congruence|discriminate].
    - apply abs_nonneg. }
  assert (Hsq : Np.sum (Np.square (Np.sub t h)) = 0 <-> t = h).
  { split.
    - intros Hs. apply sub_zero_eq; [exact Hl|]. apply square_all_zero.
      apply sum_nonneg_zero; [apply square_nonneg|exact Hs].
    - intros ->. apply sum_zero, square_all_zero, sub_self_zero. }
  unfold _compute_metric.
  destruct (String.eqb metric "mae"); [exact Habs|].
  destruct (String.eqb metric "rmse").
  - rewrite <- Hsq. split.
    + intros Hs. apply sqrt_eq_0 in Hs; [|apply mean_nonneg, square_nonneg].
      apply mean_zero_iff in Hs; [|unfold Np.square; destruct (Np.sub t h);
                                    [congruence|discriminate]|apply square_nonneg].
      now apply sum_zero.
    + intros Hs. unfold Np.mean. rewrite Hs. unfold Rdiv. rewrite Rmult_0_l.
      apply sqrt_0.
  - destruct (String.eqb metric "euclidean").
    + rewrite <- Hsq. split.
      * intros Hs. apply sqrt_eq_0 in Hs; [exact Hs|].
        apply sum_nonneg, square_nonneg.
      * intros ->. apply sqrt_0.
    + destruct (String.eqb_spec metric "cosine"); [contradiction|exact Habs].
Qed.

Lemma metric_zero_iff_equal_witness :
  _compute_metric (Np.sub [10; 30] [10; 30]) "rmse" (Some [10; 30]) (Some [10; 30]) = 0.
Proof.
  assert (Hc : "rmse" <> "cosine") by discriminate.
  assert (Hl : List.length [10; 30] = List.length [10; 30]) by reflexivity.
  assert (Hn : [10; 30] <> []) by discriminate.
  exact (proj2 (metric_zero_iff_equal "rmse" [10; 30] [10; 30] Hc Hl Hn) eq_refl).
Defined.

(** ** What the selection looks at *)

Section SortMap.

Context {A B : Type} (f : A -> B) (lebA : A -> A -> bool) (lebB : B -> B -> bool).
Hypothesis leb_f : forall x y, lebB (f x) (f y) = lebA x y.

Lemma insert_by_map (x : A) (l : list A) :
  insert_by lebB (f x) (map f l) = map f (insert_by lebA x l).
Proof.
  induction l as [|y l IH]; simpl; [reflexivity|].
  rewrite leb_f. destruct (lebA x y); simpl; [reflexivity|]. now rewrite IH.
Qed.

Lemma sort_by_map (l : list A) :
  sort_by lebB (map f l) = map f (sort_by lebA l).
Proof.
  induction l as [|x l IH]; simpl; [reflexivity|].
  now rewrite IH, insert_by_map.
Qed.

End SortMap.

Lemma filter_map_comm {A B : Type} (f : A -> B) (p : B -> bool) (l : list A) :
  filter p (map f l) = map f (filter (fun x => p (f x)) l).
Proof.
  induction l as [|x l IH]; simpl; [reflexivity|].
  destruct (p (f x)); simpl; now rewrite IH.
Qed.

Lemma map2_map_l {A A' B C : Type} (g : A' -> B -> C) (h : A -> A')
    (xs : list A) (ys : list B) :
  Np.map2 g (map h xs) ys = Np.map2 (fun x y => g (h x) y) xs ys.
Proof.
  revert ys; induction xs as [|x xs IH]; intros [|y ys]; simpl; auto.
  now rewrite IH.
Qed.

Lemma combine_map_l {A A' B : Type} (h : A -> A') (xs : list A) (ys : list B) :
  combine (map h xs) ys = map (fun p => (h (fst p), snd p)) (combine xs ys).
Proof.
  revert ys; induction xs as [|x xs IH]; intros [|y ys]; simpl; auto.
  now rewrite IH.
Qed.

Lemma nsmallest_map_forget (n : Z) (sc : list ScoredRow) :
  nsmallest n (map forget_raw sc) = map forget_raw (nsmallest n sc).
Proof.
  unfold nsmallest. rewrite !filter_map_comm. cbn [forget_raw s_distance].
  rewrite (sort_by_map forget_raw fleb_row fleb_row) by reflexivity.
  now rewrite <- map_app, firstn_map.
Qed.

Lemma select_and_score_forget (n : Z) (sc : list ScoredRow) :
  select_and_score n (map forget_raw sc) = select_and_score n sc.
Proof.
  unfold select_and_score. rewrite nsmallest_map_forget.
  rewrite !length_map, map_map. cbn [forget_raw s_distance].
  rewrite combine_map_l, map2_map_l. reflexivity.
Qed.

(** The returned frame depends on the scored table through the dates and
    the blended distances only. *)
Lemma select_and_score_keys (n : Z) (sc sc' : list ScoredRow) :
  map (fun r => (raw_date (s_row r), s_distance r)) sc =
  map (fun r => (raw_date (s_row r), s_distance r)) sc' ->
  select_and_score n sc = select_and_score n sc'.
Proof.
  intros H. rewrite <- (select_and_score_forget n sc), <- (select_and_score_forget n sc').
  f_equal.
  apply (f_equal (map (fun p : Z * npfloat =>
                         {| s_row := {| raw_date := fst p; raw_dist := [] |};
                            s_distance := snd p |}))) in H.
  rewrite !map_map in H. exact H.
Qed.

(** ** Rescaling a feature's raw distances *)

Lemma mean_scale (c : R) (xs : list R) :
  Np.mean (map (Rmult c) xs) = c * Np.mean xs.
Proof.
  unfold Np.mean. rewrite length_map.
  rewrite <- (map_id xs) at 1. rewrite map_map.
  rewrite (sum_map_scale R (fun x => x) c xs), map_id.
  unfold Rdiv. ring.
Qed.

Lemma sum_sq_dev_scale (c m : R) (xs : list R) :
  Np.sum (map (fun x => (x - c * m) * (x - c * m)) (map (Rmult c) xs)) =
  (c * c) * Np.sum (map (fun x => (x - m) * (x - m)) xs).
Proof.
  rewrite map_map. rewrite <- sum_map_scale. f_equal.
  apply map_ext. intros x. ring.
Qed.

Lemma sum_sq_dev_nonneg (m : R) (xs : list R) :
  0 <= Np.sum (map (fun x => (x - m) * (x - m)) xs).
Proof.
  apply sum_nonneg. rewrite Forall_map, Forall_forall. intros x _.
  exact (Rle_0_sqr (x - m)).
Qed.

Lemma series_std_scale (c : R) (xs : list R) :
  0 < c ->
  series_std (map (Rmult c) xs) =
  match series_std xs with Fin s => Fin (c * s) | other => other end.
Proof.
  intros Hc. destruct xs as [|x [|y xs]]; [reflexivity|reflexivity|].
  assert (Hunf : forall a b l,
             series_std (a :: b :: l) =
             Fin (sqrt (Np.sum (map (fun z => (z - Np.mean (a :: b :: l)) *
                                              (z - Np.mean (a :: b :: l))) (a :: b :: l))
                        / (INR (List.length (a :: b :: l)) - 1)))) by reflexivity.
  rewrite (Hunf x y xs).
  change (map (Rmult c) (x :: y :: xs))
    with (c * x :: c * y :: map (Rmult c) xs).
  rewrite (Hunf (c * x) (c * y) (map (Rmult c) xs)).
  change (c * x :: c * y :: map (Rmult c) xs) with (map (Rmult c) (x :: y :: xs)).
  rewrite mean_scale, sum_sq_dev_scale, length_map.
  set (n1 := INR (List.length (x :: y :: xs)) - 1).
  assert (Hn : 0 < n1).
  { unfold n1. cbn [List.length]. rewrite !S_INR.
    pose proof (pos_INR (List.length xs)). lra. }
  set (S := Np.sum (map (fun z => (z - Np.mean (x :: y :: xs)) *
                                  (z - Np.mean (x :: y :: xs))) (x :: y :: xs))).
  assert (HS : 0 <= S) by apply sum_sq_dev_nonneg.
  assert (HV : 0 <= S / n1).
  { unfold Rdiv. apply Rmult_le_pos; [exact HS|]. left. now apply Rinv_0_lt_compat. }
  f_equal. replace (c * c * S / n1) with ((c * c) * (S / n1)) by (unfold Rdiv; ring).
  rewrite sqrt_mult by nra. rewrite sqrt_square by lra. reflexivity.
Qed.

Lemma std_zero_all_mean (xs : list R) (x : R) :
  series_std xs = Fin 0 -> In x xs -> x = Np.mean xs.
Proof.
  destruct xs as [|a [|b xs]]; [discriminate|discriminate|].
  unfold series_std. intros H Hx. injection H as H.
  set (l := a :: b :: xs) in *.
  assert (Hn : 0 < INR (List.length l) - 1).
  { unfold l. cbn [List.length]. rewrite !S_INR.
    pose proof (pos_INR (List.length xs)). lra. }
  pose proof (sum_sq_dev_nonneg (Np.mean l) l) as HS.
  apply sqrt_eq_0 in H.
  - assert (Hs : Np.sum (map (fun z => (z - Np.mean l) * (z - Np.mean l)) l) = 0).
    { unfold Rdiv in H. apply Rmult_integral in H. destruct H as [H|H]; [exact H|].
      exfalso. apply (Rinv_neq_0_compat (INR (List.length l) - 1)); [lra|exact H]. }
    apply sum_nonneg_zero in Hs.
    + rewrite Forall_map, Forall_forall in Hs. specialize (Hs x Hx). nra.
    + rewrite Forall_map, Forall_forall. intros z _. exact (Rle_0_sqr (z - Np.mean l)).
  - unfold Rdiv. apply Rmult_le_pos; [exact HS|]. left. now apply Rinv_0_lt_compat.
Qed.

(** The normalized distance of a day does not change when the raw
    distances of the whole pool are multiplied by a positive constant. *)
Lemma zscore_scale (c : R) (xs : list R) (x : R) :
  0 < c -> In x xs ->
  (c * x - Np.mean (map (Rmult c) xs)) / guard_std (series_std (map (Rmult c) xs)) =
  (x - Np.mean xs) / guard_std (series_std xs).
Proof.
  intros Hc Hx. rewrite mean_scale, (series_std_scale c xs Hc).
  destruct (series_std xs) as [s| | |] eqn:Es.
  - cbn [guard_std]. destruct (Req_dec_T s 0) as [->|Hs].
    + rewrite Rmult_0_r. destruct (Req_dec_T 0 0) as [_|N]; [|congruence].
      rewrite <- (std_zero_all_mean xs x Es Hx). unfold Rdiv. ring.
    + destruct (Req_dec_T (c * s) 0) as [E|_]; [exfalso; nra|].
      field. split; [exact Hs|lra].
  - destruct xs as [|a [|b xs]]; discriminate Es.
  - destruct xs as [|a [|b xs]]; discriminate Es.
  - cbn [guard_std].
    destruct xs as [|a [|b xs]]; [destruct Hx| |discriminate Es].
    destruct Hx as [<-|[]].
    unfold Np.mean, Np.sum. cbn. field.
Qed.

Lemma fold_right_Rplus_ext_in {A : Type} (f g : A -> R) (l : list A) :
  (forall x, In x l -> f x = g x) ->
  fold_right Rplus 0 (map f l) = fold_right Rplus 0 (map g l).
Proof. intros H. f_equal. now apply map_ext_in. Qed.

Section Rescale.

Context {D : Type} (weights : dict) (cols : list string) (days : list D).
Variables (g g' : D -> RawRow) (c : string -> R).
Hypothesis same_date : forall d, raw_date (g' d) = raw_date (g d).
Hypothesis factor_pos : forall k, In k cols -> 0 < c k.
Hypothesis rescaled :
  forall k d, In k cols -> In d days ->
    getitem (raw_dist (g' d)) k = c k * getitem (raw_dist (g d)) k.

Lemma column_rescaled (k : string) :
  In k cols -> column k (map g' days) = map (Rmult (c k)) (column k (map g days)).
Proof.
  intros Hk. unfold column. rewrite !map_map. apply map_ext_in.
  intros d Hd. now apply rescaled.
Qed.

Lemma spec_distance_rescaled (d : D) :
  In d days ->
  spec_distance weights cols (map g' days) (g' d) =
  spec_distance weights cols (map g days) (g d).
Proof.
  intros Hd. unfold spec_distance. do 2 f_equal.
  unfold spec_weighted_sum. apply fold_right_Rplus_ext_in. intros k Hk.
  f_equal. unfold pool_mean, pool_std, series_mean.
  rewrite (column_rescaled k Hk), (rescaled k d Hk Hd).
  apply zscore_scale; [now apply factor_pos|].
  unfold column. rewrite map_map. apply in_map_iff. now exists d.
Qed.

Lemma scored_table_rescaled :
  map (fun r => (raw_date (s_row r), s_distance r))
      (scored_table weights cols (map g' days)) =
  map (fun r => (raw_date (s_row r), s_distance r))
      (scored_table weights cols (map g days)).
Proof.
  rewrite !scored_table_spec, !map_map. cbn [s_row s_distance].
  apply map_ext_in. intros d Hd.
  now rewrite same_date, spec_distance_rescaled.
Qed.

End Rescale.

(** ** A feature of weight zero *)

Open Scope list_scope.

Lemma fold_right_Rplus_insert {A : Type} (F : A -> R) (l1 l2 : list A) (k : A) :
  fold_right Rplus 0 (map F (l1 ++ k :: l2)) =
  F k + fold_right Rplus 0 (map F (l1 ++ l2)).
Proof.
  induction l1 as [|x l1 IH]; simpl; [reflexivity|]. rewrite IH. ring.
Qed.

Lemma dict_get_insert_other (fw1 fw2 : dict) (k k' : string) (v : R) :
  k' <> k ->
  dict_get (fw1 ++ (k, v) :: fw2) k' = dict_get (fw1 ++ fw2) k'.
Proof.
  intros Hne. induction fw1 as [|[a w] fw1 IH]; simpl.
  - destruct (String.eqb_spec k' k); [contradiction|reflexivity].
  - destruct (String.eqb k' a); [reflexivity|exact IH].
Qed.

Lemma dict_get_insert_same (fw1 fw2 : dict) (k : string) (v : R) :
  ~ In k (keys fw1) -> dict_get (fw1 ++ (k, v) :: fw2) k = Some v.
Proof.
  induction fw1 as [|[a w] fw1 IH]; simpl; intros Hk.
  - now rewrite String.eqb_refl.
  - destruct (String.eqb_spec k a) as [->|_]; [exfalso; apply Hk; now left|].
    apply IH. intros H. apply Hk. now right.
Qed.

Lemma spec_distance_drop_zero (fw fw' : dict) (l1 l2 : list string) (k : string)
    (raw_df : list RawRow) (r : RawRow) :
  getitem fw' k = 0 ->
  (forall k', In k' (l1 ++ l2) -> getitem fw' k' = getitem fw k') ->
  spec_distance fw' (l1 ++ k :: l2) raw_df r = spec_distance fw (l1 ++ l2) raw_df r.
Proof.
  intros Hz Hsame. unfold spec_distance, spec_weighted_sum, spec_weight_total.
  rewrite !fold_right_Rplus_insert, Hz, Rmult_0_l, !Rplus_0_l.
  f_equal; f_equal; apply fold_right_Rplus_ext_in; intros k' Hk';
    now rewrite (Hsame k' Hk').
Qed.

Lemma raw_row_getitem (metric : string) (cols : list string)
    (ts df_hist : DataFrame) (d : Z) (k : string) :
  In k cols ->
  getitem (raw_dist (raw_row_of metric cols ts df_hist d)) k =
  raw_distance metric ts (day_sorted d df_hist) k.
Proof.
  intros Hk. unfold raw_row_of. cbn [raw_dist].
  now rewrite (getitem_map_key _ _ _ Hk).
Qed.

(** X6.  A feature of weight zero has no influence: adding to the weight
    mapping a further feature with weight 0 returns the same frame. *)
Theorem zero_weight_feature_ignored (df_target df_hist : DataFrame)
    (fw1 fw2 : dict) (k : string) (fc : list string) (n : Z) (metric : string) :
  fw1 ++ fw2 <> [] ->
  ~ In k (keys (fw1 ++ fw2)) ->
  find_like_days df_target df_hist (Some (fw1 ++ (k, 0) :: fw2)) fc n metric =
  find_like_days df_target df_hist (Some (fw1 ++ fw2)) fc n metric.
Proof.
  intros Hne Hk.
  assert (Hne' : fw1 ++ (k, 0) :: fw2 <> []) by (destruct fw1; discriminate).
  rewrite !find_like_days_eq. cbv zeta.
  pose proof (resolve_nonempty _ fc Hne) as R1.
  pose proof (resolve_nonempty _ fc Hne') as R2.
  unfold dict in R1, R2 |- *. rewrite R1, R2. clear R1 R2. cbn [fst snd].
  destruct (Nat.eqb (List.length df_target) 0); [reflexivity|].
  destruct (surviving_days df_target df_hist) as [|d0 l0] eqn:Es; [reflexivity|].
  rewrite <- Es. f_equal. apply select_and_score_keys.
  set (ts := sort_values_hour df_target).
  set (days := surviving_days df_target df_hist).
  unfold keys in *. rewrite !map_app in *. cbn [map fst] in *.
  set (l1 := map fst fw1) in *. set (l2 := map fst fw2) in *.
  assert (Hk1 : ~ In k (map fst fw1)).
  { intros H. apply Hk. apply in_or_app. now left. }
  transitivity
    (map (fun r => (raw_date (s_row r), s_distance r))
         (scored_table (fw1 ++ fw2) (l1 ++ l2)
            (map (raw_row_of metric (l1 ++ k :: l2) ts df_hist) days))).
  - rewrite !scored_table_spec, !map_map. cbn [s_row s_distance].
    apply map_ext. intros d. f_equal.
    apply spec_distance_drop_zero.
    + unfold getitem. now rewrite (dict_get_insert_same fw1 fw2 k 0 Hk1).
    + intros k' Hk'. unfold getitem. rewrite dict_get_insert_other; [reflexivity|].
      intros ->. exact (Hk Hk').
  - apply (scored_table_rescaled (fw1 ++ fw2) (l1 ++ l2) days
             (raw_row_of metric (l1 ++ l2) ts df_hist)
             (raw_row_of metric (l1 ++ k :: l2) ts df_hist)
             (fun _ => 1)).
    + reflexivity.
    + intros; lra.
    + intros k' d Hk' Hd. rewrite Rmult_1_l.
      rewrite !raw_row_getitem; [reflexivity|exact Hk'|].
      apply in_app_or in Hk'. apply in_or_app.
      destruct Hk' as [H|H]; [now left|right; now right].
Qed.

Lemma zero_weight_feature_ignored_witness :
  find_like_days sample_target sample_hist
                 (Some (sample_weights ++ [("rt_lmp_total", 0)])) FEATURE_COLS 5 "mae"
  = Ok sample_result.
Proof.
  rewrite (zero_weight_feature_ignored sample_target sample_hist sample_weights []
             "rt_lmp_total" FEATURE_COLS 5 "mae").
  - rewrite app_nil_r. exact sample_run.
  - discriminate.
  - intros [H|[]]. discriminate H.
Defined.

(** ** The dates of the returned frame *)

Lemma insert_key_sorted (d : Z) (l : list Z) :
  StronglySorted Z.lt l -> StronglySorted Z.lt (insert_key d l).
Proof.
  induction 1 as [|x l Hs IH Hx]; simpl; [repeat constructor|].
  destruct (Z.ltb_spec d x) as [Hlt|Hge].
  - constructor; [now constructor|].
    constructor; [exact Hlt|]. rewrite Forall_forall in *. intros y Hy.
    specialize (Hx y Hy). lia.
  - destruct (Z.eqb_spec d x) as [->|Hne]; [now constructor|].
    constructor; [exact IH|]. rewrite Forall_forall in *. intros y Hy.
    apply insert_key_In in Hy. destruct Hy as [->|Hy]; [lia|auto].
Qed.

Lemma group_keys_sorted (df : DataFrame) : StronglySorted Z.lt (group_keys df).
Proof.
  unfold group_keys. induction (map date df) as [|d l IH]; simpl; [constructor|].
  now apply insert_key_sorted.
Qed.

Lemma sorted_lt_NoDup (l : list Z) : StronglySorted Z.lt l -> NoDup l.
Proof.
  induction 1 as [|x l Hs IH Hx]; constructor; [|exact IH].
  intros Hin. rewrite Forall_forall in Hx. specialize (Hx x Hin). lia.
Qed.

Lemma surviving_days_NoDup (df_target df_hist : DataFrame) :
  NoDup (surviving_days df_target df_hist).
Proof. apply NoDup_filter, sorted_lt_NoDup, group_keys_sorted. Qed.

Lemma filter_partition_perm {A : Type} (p : A -> bool) (l : list A) :
  Permutation (filter (fun x => negb (p x)) l ++ filter p l) l.
Proof.
  induction l as [|x l IH]; simpl; [constructor|].
  destruct (p x); simpl.
  - rewrite <- Permutation_middle. now constructor.
  - now constructor.
Qed.

(** The selection is a prefix of a rearrangement of the scored table. *)
Lemma nsmallest_prefix (n : Z) (sc : list ScoredRow) :
  exists rest, Permutation (nsmallest n sc ++ rest) sc /\
               (List.length sc <= Z.to_nat n -> rest = [])%nat.
Proof.
  unfold nsmallest.
  set (L := sort_by fleb_row (filter (fun r => negb (isnan (s_distance r))) sc) ++
            filter (fun r => isnan (s_distance r)) sc).
  assert (HL : Permutation L sc).
  { unfold L. rewrite sort_by_perm. apply filter_partition_perm. }
  exists (skipn (Z.to_nat n) L). split.
  - now rewrite firstn_skipn.
  - intros Hlen. apply skipn_all2. now rewrite (Permutation_length HL).
Qed.

Lemma scored_table_dates (weights : dict) (cols : list string) (raw_df : list RawRow) :
  map (fun r => raw_date (s_row r)) (scored_table weights cols raw_df) =
  map raw_date raw_df.
Proof. rewrite scored_table_spec, map_map. reflexivity. Qed.

Lemma raw_table_dates (metric : string) (cols : list string)
    (df_target df_hist : DataFrame) :
  map raw_date (raw_table metric cols df_target df_hist) =
  surviving_days df_target df_hist.
Proof. unfold raw_table. rewrite map_map. cbn [raw_row_of raw_date]. apply map_id. Qed.

(** X7.  No date is returned twice, every returned date is a historical
    day with the target's hour count, and when [n_neighbors] is at least
    the number of such days all of them are returned. *)
Theorem returned_dates (df_target df_hist : DataFrame) (fw : option dict)
    (fc : list string) (n : Z) (metric : string) (res : list MatchResult) :
  find_like_days df_target df_hist fw fc n metric = Ok res ->
  NoDup (map m_date res) /\
  (forall d, In d (map m_date res) ->
     In d (map date df_hist) /\ hour_count d df_hist = List.length df_target) /\
  ((Z.of_nat (List.length (surviving_days df_target df_hist)) <= n)%Z ->
   Permutation (map m_date res) (surviving_days df_target df_hist)).
Proof.
  intros Hok. pose proof (find_like_days_ok _ _ _ _ _ _ _ Hok) as Hres.
  set (sc := scored_table (snd (resolve_features fw fc)) (fst (resolve_features fw fc))
               (raw_table metric (fst (resolve_features fw fc)) df_target df_hist))
    in Hres.
  assert (Hdates : map m_date res = map (fun r => raw_date (s_row r)) (nsmallest n sc)).
  { rewrite Hres. apply select_date. }
  destruct (nsmallest_prefix n sc) as (rest & Hperm & Hall).
  assert (Hsc : map (fun r => raw_date (s_row r)) sc = surviving_days df_target df_hist).
  { unfold sc. now rewrite scored_table_dates, raw_table_dates. }
  assert (Hp : Permutation (map m_date res ++ map (fun r => raw_date (s_row r)) rest)
                           (surviving_days df_target df_hist)).
  { rewrite Hdates, <- map_app, <- Hsc. now apply Permutation_map. }
  split; [|split].
  - apply (NoDup_app_remove_r _ (map (fun r => raw_date (s_row r)) rest)).
    apply (Permutation_NoDup (Permutation_sym Hp)), surviving_days_NoDup.
  - intros d Hd. apply surviving_days_In.
    apply (Permutation_in _ Hp). apply in_or_app. now left.
  - intros Hn. rewrite Hall in Hp.
    + simpl in Hp. now rewrite app_nil_r in Hp.
    + unfold sc. rewrite scored_table_length, raw_table_length. lia.
Qed.

Lemma returned_dates_witness :
  NoDup (map m_date sample_result) /\
  Permutation (map m_date sample_result) [97; 98; 99]%Z.
Proof.
  destruct (returned_dates sample_target sample_hist (Some sample_weights)
              FEATURE_COLS 5 "mae" sample_result sample_run) as (Hnd & _ & Hall).
  split; [exact Hnd|]. apply Hall. rewrite sample_surviving. simpl. lia.
Defined.

(** ** The selected days are the closest ones *)

Lemma StronglySorted_app_elim {A : Type} (R : A -> A -> Prop) (l1 l2 : list A) :
  StronglySorted R (l1 ++ l2) -> forall x y, In x l1 -> In y l2 -> R x y.
Proof.
  induction l1 as [|a l1 IH]; simpl; intros Hs x y Hx Hy; [destruct Hx|].
  inversion Hs as [|? ? Hs' Ha]; subst.
  destruct Hx as [<-|Hx].
  - rewrite Forall_forall in Ha. apply Ha, in_or_app. now right.
  - now apply IH.
Qed.

Lemma nsmallest_all (sc : list ScoredRow) :
  nsmallest (Z.of_nat (List.length sc)) sc =
  sort_by fleb_row (filter (fun r => negb (isnan (s_distance r))) sc) ++
  filter (fun r => isnan (s_distance r)) sc.
Proof.
  unfold nsmallest. apply firstn_all2.
  rewrite Nat2Z.id, length_app, sort_by_length, filter_partition_length. lia.
Qed.

Lemma nsmallest_optimal (n : Z) (sc : list ScoredRow) (r r' : ScoredRow) :
  In r (nsmallest n sc) -> In r' sc -> ~ In r' (nsmallest n sc) ->
  fle_nan_last (s_distance r) (s_distance r').
Proof.
  intros Hr Hr' Hnot.
  pose proof (nsmallest_sorted (Z.of_nat (List.length sc)) sc) as Hs.
  rewrite nsmallest_all in Hs.
  unfold nsmallest in Hr, Hnot.
  set (L := sort_by fleb_row (filter (fun r => negb (isnan (s_distance r))) sc) ++
            filter (fun r => isnan (s_distance r)) sc) in *.
  assert (HL : In r' L).
  { apply (Permutation_in (l := sc)); [|exact Hr'].
    symmetry. unfold L. rewrite sort_by_perm. apply filter_partition_perm. }
  rewrite <- (firstn_skipn (Z.to_nat n) L) in HL, Hs.
  apply in_app_or in HL. destruct HL as [HL|HL]; [contradiction|].
  rewrite map_app in Hs.
  apply (StronglySorted_app_elim _ _ _ Hs); now apply in_map.
Qed.

(** X8.  The returned days are the closest ones: with a non-zero weight
    sum, no surviving historical day left out of the frame has a blended
    distance smaller than that of a returned day. *)
Theorem closest_days_selected (df_target df_hist : DataFrame) (fw : option dict)
    (fc : list string) (n : Z) (metric : string) (res : list MatchResult) :
  find_like_days df_target df_hist fw fc n metric = Ok res ->
  let cols := fst (resolve_features fw fc) in
  let weights := snd (resolve_features fw fc) in
  let raw_df := raw_table metric cols df_target df_hist in
  Np.sum (map (getitem weights) cols) <> 0 ->
  forall m d,
    In m res ->
    In d (surviving_days df_target df_hist) ->
    ~ In d (map m_date res) ->
    exists x y,
      distance m = Fin x /\
      spec_distance weights cols raw_df
        (raw_row_of metric cols (sort_values_hour df_target) df_hist d) = Fin y /\
      x <= y.
Proof.
  intros Hok cols weights raw_df Hws m d Hm Hd Hnot.
  pose proof (find_like_days_ok _ _ _ _ _ _ _ Hok) as Hres.
  fold cols weights raw_df in Hres.
  set (sc := scored_table weights cols raw_df) in Hres.
  set (rd := raw_row_of metric cols (sort_values_hour df_target) df_hist d).
  set (sd := {| s_row := rd; s_distance := spec_distance weights cols raw_df rd |}).
  assert (Hsd : In sd sc).
  { unfold sc. rewrite scored_table_spec. apply in_map_iff. exists rd.
    split; [reflexivity|]. unfold raw_df, raw_table. now apply in_map. }
  assert (Hsd_not : ~ In sd (nsmallest n sc)).
  { intros Hin. apply Hnot. rewrite Hres, select_date.
    apply in_map_iff. exists sd. split; [reflexivity|exact Hin]. }
  assert (Hrow : exists r, In r (nsmallest n sc) /\ s_distance r = distance m).
  { assert (Hin : In (distance m) (map distance res)) by now apply in_map.
    rewrite Hres, select_distance in Hin. apply in_map_iff in Hin.
    destruct Hin as (r & E & Hr). now exists r. }
  destruct Hrow as (r & Hr & Er).
  pose proof (nsmallest_optimal n sc r sd Hr Hsd Hsd_not) as Hle.
  rewrite Er in Hle. cbn [sd s_distance] in Hle.
  assert (Htot : spec_weight_total weights cols <> 0).
  { unfold spec_weight_total. now rewrite <- sum_fold_right. }
  assert (Hy : spec_distance weights cols raw_df rd =
               Fin (spec_weighted_sum weights cols raw_df rd /
                    spec_weight_total weights cols)).
  { unfold spec_distance. now apply fdiv_Fin_nonzero. }
  destruct (result_distances_cases _ _ _ _ _ _ _ Hok) as (Hfin & _).
  fold cols weights in Hfin. specialize (Hfin Htot).
  rewrite Forall_forall in Hfin.
  assert (Hx : is_finite (distance m) = true) by (apply Hfin; now apply in_map).
  destruct (distance m) as [x| | |] eqn:Ex; try discriminate Hx.
  rewrite Hy in Hle |- *.
  eexists x, _. split; [reflexivity|]. split; [reflexivity|].
  destruct Hle as [Hle|Hle]; [discriminate Hle|exact Hle].
Qed.

Lemma sample_run_top2 :
  find_like_days sample_target sample_hist (Some sample_weights) FEATURE_COLS 2 "mae"
  = Ok sample_result_top2.
Proof.
  rewrite find_like_days_eq. cbv zeta.
  change (resolve_features (Some sample_weights) FEATURE_COLS)
    with (["da_lmp_total"], sample_weights).
  cbn [fst snd]. fold (raw_table "mae" ["da_lmp_total"] sample_target sample_hist).
  rewrite sample_raw_table, sample_scored.
  cbn [List.length sample_target Nat.eqb]. rewrite sample_surviving. f_equal.
  unfold select_and_score, nsmallest, sample_raw, sample_result_top2.
  change (Z.to_nat 2) with 2%nat.
  eval_frame.
  repeat (f_equal; try lra).
Qed.

Lemma closest_days_selected_witness :
  exists x y,
    Fin (-1) = Fin x /\
    spec_distance sample_weights ["da_lmp_total"]
      (raw_table "mae" ["da_lmp_total"] sample_target sample_hist)
      (raw_row_of "mae" ["da_lmp_total"] (sort_values_hour sample_target)
                  sample_hist 99) = Fin y /\
    x <= y.
Proof.
  apply (closest_days_selected sample_target sample_hist (Some sample_weights)
           FEATURE_COLS 2 "mae" sample_result_top2 sample_run_top2
           ltac:(cbn; unfold Np.sum; cbn; lra)
           {| m_date := 97; rank := 1; distance := Fin (-1); similarity := Fin 1 |}
           99%Z).
  - left; reflexivity.
  - rewrite sample_surviving. simpl. auto.
  - simpl. intros [H|[H|[]]]; discriminate H.
Defined.

(** ** Rank and similarity *)

Lemma result_sorted_finite (df_target df_hist : DataFrame) (fw : option dict)
    (fc : list string) (n : Z) (metric : string) (res : list MatchResult) :
  find_like_days df_target df_hist fw fc n metric = Ok res ->
  spec_weight_total (snd (resolve_features fw fc)) (fst (resolve_features fw fc)) <> 0 ->
  exists xs, map distance res = map Fin xs /\ StronglySorted Rle xs.
Proof.
  intros Hok Htot.
  destruct (result_distances_cases _ _ _ _ _ _ _ Hok) as (Hfin & _).
  destruct (all_Fin_map _ (Hfin Htot)) as [xs Exs].
  exists xs. split; [exact Exs|].
  assert (Hs : StronglySorted fle_nan_last (map distance res)).
  { rewrite (find_like_days_ok _ _ _ _ _ _ _ Hok), select_distance.
    apply nsmallest_sorted. }
  rewrite Exs in Hs. clear - Hs.
  induction xs as [|x xs IH]; [constructor|].
  cbn [map] in Hs. inversion Hs as [|? ? Hs' Hx]; subst.
  constructor; [now apply IH|].
  rewrite Forall_forall in *. intros y Hy.
  destruct (Hx (Fin y) (in_map Fin _ _ Hy)) as [H|H]; [discriminate H|exact H].
Qed.

Lemma sorted_le_last (xs : list R) (d x : R) :
  StronglySorted Rle xs -> In x xs -> x <= last xs d.
Proof.
  intros Hs; revert x. induction Hs as [|a l Hs IH Ha]; intros x Hx; [destruct Hx|].
  destruct l as [|b l].
  - destruct Hx as [<-|[]]. simpl. lra.
  - change (last (a :: b :: l) d) with (last (b :: l) d).
    destruct Hx as [<-|Hx]; [|now apply IH].
    rewrite Forall_forall in Ha.
    assert (Hb : a <= b) by (apply Ha; now left).
    assert (b <= last (b :: l) d) by (apply IH; now left). lra.
Qed.

Lemma last_In {A : Type} (x : A) (l : list A) : In (last (x :: l) x) (x :: l).
Proof.
  revert x; induction l as [|y l IH]; intros x; [now left|].
  change (last (x :: y :: l) x) with (last (y :: l) x).
  right. destruct l as [|z l]; [now left|].
  change (last (y :: z :: l) x) with (last (z :: l) x).
  specialize (IH y). change (last (y :: z :: l) y) with (last (z :: l) y) in IH.
  assert (E : forall d d' : A, last (z :: l) d = last (z :: l) d').
  { clear. revert z. induction l as [|w l IH]; intros z d d'; [reflexivity|].
    change (last (z :: w :: l) d) with (last (w :: l) d).
    change (last (z :: w :: l) d') with (last (w :: l) d'). apply IH. }
  rewrite (E x y). exact IH.
Qed.

Lemma last_map_cons {A B : Type} (f : A -> B) (x : A) (l : list A) :
  last (map f (x :: l)) (f x) = f (last (x :: l) x).
Proof.
  revert x; induction l as [|y l IH]; intros x; [reflexivity|].
  change (last (map f (x :: y :: l)) (f x)) with (last (map f (y :: l)) (f x)).
  change (last (x :: y :: l) x) with (last (y :: l) x).
  assert (E : forall (C : Type) (z : C) (k : list C) (d d' : C),
             last (z :: k) d = last (z :: k) d').
  { clear. intros C z k; revert z. induction k as [|w k IH]; intros z d d';
      [reflexivity|].
    change (last (z :: w :: k) d) with (last (w :: k) d).
    change (last (z :: w :: k) d') with (last (w :: k) d'). apply IH. }
  cbn [map]. rewrite (E _ (f y) (map f l) (f x) (f y)), (E _ y l x y).
  apply IH.
Qed.

(** X9.  The first row of the frame has rank 1 and similarity 1.0; the
    last row has similarity 0.0, unless its distance equals that of the
    first row, in which case every row is at similarity 1.0 (weights being
    non-negative, as the data model has them). *)
Theorem first_and_last_similarity (df_target df_hist : DataFrame) (fw : option dict)
    (fc : list string) (n : Z) (metric : string) (m0 : MatchResult)
    (rest : list MatchResult) :
  find_like_days df_target df_hist fw fc n metric = Ok (m0 :: rest) ->
  nonneg_weights fw ->
  let ml := last (m0 :: rest) m0 in
  rank m0 = 1%Z /\ similarity m0 = Fin 1 /\
  (distance ml = distance m0 -> similarity ml = Fin 1) /\
  (distance ml <> distance m0 -> similarity ml = Fin 0).
Proof.
  intros Hok Hnn ml.
  assert (Hrank : rank m0 = 1%Z).
  { pose proof (result_ranks _ _ _ _ _ _ _ Hok) as Hr.
    pose proof (result_length _ _ _ _ _ _ _ Hok) as Hl. cbn [List.length] in Hl.
    rewrite <- Hl in Hr. cbn in Hr. now injection Hr. }
  split; [exact Hrank|].
  pose proof (result_similarity _ _ _ _ _ _ _ Hok) as Hsim.
  assert (Hm0 : In m0 (m0 :: rest)) by now left.
  assert (Hml : In ml (m0 :: rest)) by apply last_In.
  destruct (Req_dec_T (spec_weight_total (snd (resolve_features fw fc))
                                         (fst (resolve_features fw fc))) 0) as [E0|N0].
  - destruct (result_distances_cases _ _ _ _ _ _ _ Hok) as (_ & _ & Hnan).
    pose proof (Hnan (nonneg_total_zero _ _ (resolved_weights_nonneg fw fc Hnn) E0))
      as Hall.
    assert (Hne : map distance (m0 :: rest) <> []) by discriminate.
    destruct (series_const NaN _ Hne Hall) as [Emin Emax].
    assert (Hone : forall m, In m (m0 :: rest) -> similarity m = Fin 1).
    { intros m Hm. rewrite (Hsim m Hm), Emin, Emax. apply similarity_cell_same. }
    split; [now apply Hone|]. split; [intros _; now apply Hone|].
    intros Hd. exfalso. apply Hd.
    rewrite Forall_forall in Hall.
    rewrite (Hall (distance ml)), (Hall (distance m0)); auto using in_map.
  - destruct (result_sorted_finite _ _ _ _ _ _ _ Hok N0) as (xs & Exs & Hsorted).
    destruct xs as [|x0 xr]; [discriminate Exs|].
    assert (Ed0 : distance m0 = Fin x0) by (cbn in Exs; now injection Exs).
    assert (Edl : distance ml = Fin (last (x0 :: xr) x0)).
    { unfold ml. rewrite <- (last_map_cons distance), Exs.
      rewrite Ed0. apply (last_map_cons Fin). }
    assert (Hne : x0 :: xr <> []) by discriminate.
    destruct (Fin_pool_bounds _ Hne) as (a & b & Ea & Eb & Ha & Hb & Hab).
    assert (Hhead : forall x, In x (x0 :: xr) -> x0 <= x).
    { inversion Hsorted as [|? ? _ Hx]; subst. rewrite Forall_forall in Hx.
      intros x [<-|Hin]; [lra|auto]. }
    assert (Ea0 : a = x0).
    { pose proof (Hhead a Ha). pose proof (Hab x0 (or_introl eq_refl)). lra. }
    assert (Ebl : b = last (x0 :: xr) x0).
    { pose proof (sorted_le_last _ x0 b Hsorted Hb).
      pose proof (Hab _ (last_In x0 xr)). lra. }
    rewrite (Hsim m0 Hm0), (Hsim ml Hml), Exs, Ea, Eb, Ed0, Edl, <- Ebl, <- Ea0.
    assert (Hle : a <= b) by (apply (Hab a Ha)).
    destruct (similarity_cell_Fin a b a) as [E1 _]; [lra|].
    destruct (similarity_cell_Fin a b b) as [E2 _]; [lra|].
    rewrite E1, E2.
    destruct (Rlt_dec a b) as [Hlt|Hnlt].
    + split; [f_equal; field; lra|]. split.
      * intros E. injection E as E. lra.
      * intros _. f_equal. field. lra.
    + split; [reflexivity|]. split; [reflexivity|].
      intros Hd. exfalso. apply Hd. f_equal. lra.
Qed.

Lemma first_and_last_similarity_witness :
  similarity {| m_date := 97; rank := 1; distance := Fin (-1); similarity := Fin 1 |}
  = Fin 1 /\
  similarity (last sample_result
                {| m_date := 97; rank := 1; distance := Fin (-1); similarity := Fin 1 |})
  = Fin 0.
Proof.
  destruct (first_and_last_similarity sample_target sample_hist (Some sample_weights)
              FEATURE_COLS 5 "mae" _ _ sample_run) as (_ & H1 & _ & H0).
  - repeat constructor. simpl. lra.
  - split; [exact H1|]. apply H0. cbn. intros E. injection E as E. lra.
Defined.

(** ** Defaults and the number of neighbors *)



(** X12.  Asking for zero or a negative number of neighbors is not an
    error of its own: whenever the call succeeds the frame is empty. *)
Theorem no_neighbors_requested (df_target df_hist : DataFrame) (fw : option dict)
    (fc : list string) (n : Z) (metric : string) :
  (n <= 0)%Z ->
  df_target <> [] ->
  (exists d, In d (map date df_hist) /\ hour_count d df_hist = List.length df_target) ->
  find_like_days df_target df_hist fw fc n metric = Ok [].
Proof.
  intros Hn Ht Hd.
  destruct (find_like_days_runs df_target df_hist fw fc n metric Ht Hd) as [res Hok].
  pose proof (result_length _ _ _ _ _ _ _ Hok) as Hl.
  replace (Z.to_nat n) with 0%nat in Hl by lia. simpl in Hl.
  destruct res; [exact Hok|discriminate Hl].
Qed.

Lemma no_neighbors_requested_witness :
  find_like_days sample_target sample_hist (Some sample_weights) FEATURE_COLS 0 "mae"
  = Ok [].
Proof.
  apply no_neighbors_requested;
    [lia|discriminate|exact sample_comparable_day].
Defined.





(** * The pipeline *)

(** ** Market-qualified column names *)

Open Scope string_scope.

Lemma string_length_append (a b : string) :
  String.length (a ++ b) = (String.length a + String.length b)%nat.
Proof. induction a as [|c a IH]; simpl; [reflexivity|]. now rewrite IH. Qed.

Lemma append_nil_r (a : string) : a ++ "" = a.
Proof. induction a as [|c a IH]; simpl; [reflexivity|]. now rewrite IH. Qed.

Lemma append_assoc_str (a b c : string) : (a ++ b) ++ c = a ++ (b ++ c).
Proof. induction a as [|x a IH]; simpl; [reflexivity|]. now rewrite IH. Qed.

Lemma append_eq_split (x y s t : string) :
  x ++ s = y ++ t -> (String.length s <= String.length t)%nat ->
  exists u, t = u ++ s /\ x = y ++ u.
Proof.
  revert y; induction x as [|a x IH]; intros y H Hl.
  - simpl in H. subst s. rewrite string_length_append in Hl.
    destruct y as [|b y]; [|simpl in Hl; lia].
    exists "". split; reflexivity.
  - destruct y as [|b y].
    + simpl in H. exists (String a x). split; [now symmetry|reflexivity].
    + simpl in H. injection H as -> H.
      destruct (IH y H Hl) as (u & Et & Ex).
      exists u. split; [exact Et|]. simpl. now rewrite Ex.
Qed.

Lemma substring_all (s : string) : substring 0 (String.length s) s = s.
Proof. induction s as [|c s IH]; simpl; [reflexivity|]. now rewrite IH. Qed.

Lemma substring_suffix (u s : string) :
  substring (String.length u) (String.length s) (u ++ s) = s.
Proof.
  induction u as [|c u IH]; simpl; [apply substring_all|exact IH].
Qed.

(** The end of a string that ends in [s]. *)
Lemma suffix_read (u s t : string) :
  t = u ++ s ->
  substring (String.length t - String.length s) (String.length s) t = s.
Proof.
  intros ->. rewrite string_length_append.
  replace (String.length u + String.length s - String.length s)%nat
    with (String.length u) by lia.
  apply substring_suffix.
Qed.

Lemma suffix_same_length (u s t : string) :
  t = u ++ s -> String.length s = String.length t -> u = "".
Proof.
  intros -> Hl. rewrite string_length_append in Hl.
  destruct u; [reflexivity|simpl in Hl; lia].
Qed.

Lemma column_suffix_unique (x y c c' : string) :
  In c LMP_COLS -> In c' LMP_COLS ->
  x ++ "_" ++ c = y ++ "_" ++ c' -> x = y /\ c = c'.
Proof.
  intros Hc Hc' H.
  assert (Hcase : (String.length ("_" ++ c) <= String.length ("_" ++ c'))%nat \/
                  (String.length ("_" ++ c') <= String.length ("_" ++ c))%nat) by lia.
  destruct Hcase as [Hl|Hl].
  - destruct (append_eq_split _ _ _ _ H Hl) as (u & Et & Ex).
    pose proof (suffix_read _ _ _ Et) as Hs.
    unfold LMP_COLS, FEATURE_COLS in Hc, Hc'. simpl in Hc, Hc'.
    repeat (destruct Hc as [<-|Hc]; [|]); try destruct Hc;
      repeat (destruct Hc' as [<-|Hc']; [|]); try destruct Hc';
      try (vm_compute in Hs; discriminate Hs);
      apply suffix_same_length in Et; try reflexivity;
      subst u; rewrite append_nil_r in Ex; auto.
  - symmetry in H. destruct (append_eq_split _ _ _ _ H Hl) as (u & Et & Ex).
    pose proof (suffix_read _ _ _ Et) as Hs.
    unfold LMP_COLS, FEATURE_COLS in Hc, Hc'. simpl in Hc, Hc'.
    repeat (destruct Hc as [<-|Hc]; [|]); try destruct Hc;
      repeat (destruct Hc' as [<-|Hc']; [|]); try destruct Hc';
      try (vm_compute in Hs; discriminate Hs);
      apply suffix_same_length in Et; try reflexivity;
      subst u; rewrite append_nil_r in Ex; auto.
Qed.

(** X14.  A market-qualified column name determines its market and its
    column: for the four LMP columns [f"{market}_{col}"] is injective,
    whatever the market names are. *)
Theorem prefixed_injective (m m' c c' : string) :
  In c LMP_COLS -> In c' LMP_COLS ->
  prefixed m c = prefixed m' c' -> m = m' /\ c = c'.
Proof. unfold prefixed. apply column_suffix_unique. Qed.

Lemma prefixed_injective_witness :
  "da" = "da" /\ "lmp_total" = "lmp_total".
Proof.
  apply (prefixed_injective "da" "da" "lmp_total" "lmp_total");
    [left; reflexivity|left; reflexivity|reflexivity].
Defined.

(** ** The weight mapping built from the feature list *)

Open Scope list_scope.

Lemma dict_set_get (d : dict) (k k' : string) (v : R) :
  dict_get (dict_set d k v) k' =
  if String.eqb k' k then Some v else dict_get d k'.
Proof.
  induction d as [|[a w] d IH]; simpl.
  - reflexivity.
  - destruct (String.eqb_spec k a) as [->|Hka]; simpl.
    + destruct (String.eqb k' a); reflexivity.
    + destruct (String.eqb_spec k' a) as [->|Hk'a].
      * destruct (String.eqb_spec a k); [congruence|reflexivity].
      * exact IH.
Qed.

Lemma dict_set_keys_In (d : dict) (k k' : string) (v : R) :
  In k' (keys (dict_set d k v)) <-> k' = k \/ In k' (keys d).
Proof.
  unfold keys. induction d as [|[a w] d IH]; simpl.
  - intuition.
  - destruct (String.eqb_spec k a) as [->|Hka]; simpl.
    + intuition.
    + rewrite IH. intuition.
Qed.

Lemma dict_set_NoDup (d : dict) (k : string) (v : R) :
  NoDup (keys d) -> NoDup (keys (dict_set d k v)).
Proof.
  unfold keys. induction d as [|[a w] d IH]; simpl; intros Hnd.
  - repeat constructor. intros [].
  - inversion Hnd as [|? ? Ha Hd]; subst.
    destruct (String.eqb_spec k a) as [->|Hka]; simpl.
    + now constructor.
    + constructor; [|now apply IH].
      intros Hin. apply (dict_set_keys_In d k a v) in Hin.
      destruct Hin as [E|Hin]; [congruence|contradiction].
Qed.

Lemma build_from (features : list FeatureSpec) (d : dict) :
  let d' := fold_left (fun d f => dict_set d (feature_key f) (f_weight f)) features d in
  (NoDup (keys d) -> NoDup (keys d')) /\
  (forall k, In k (keys d') <-> In k (keys d) \/ In k (map feature_key features)) /\
  (forall k, ~ In k (map feature_key features) -> dict_get d' k = dict_get d k).
Proof.
  revert d; induction features as [|f fs IH]; intros d; cbn [fold_left map].
  - cbv zeta. split; [auto|]. split; [intros k; simpl; tauto|reflexivity].
  - specialize (IH (dict_set d (feature_key f) (f_weight f))). cbv zeta in IH |- *.
    destruct IH as (Hnd & Hkeys & Hget). split; [|split].
    + intros H. now apply Hnd, dict_set_NoDup.
    + intros k. rewrite Hkeys, dict_set_keys_In. simpl. intuition.
    + intros k Hk. rewrite Hget by (intros H; apply Hk; now right).
      rewrite dict_set_get. destruct (String.eqb_spec k (feature_key f)) as [->|_];
        [|reflexivity].
      exfalso. apply Hk. now left.
Qed.

(** X15.  The weight mapping that [run] hands to the engine has pairwise
    distinct keys, one per market-qualified column named in [features];
    when a (market, column) pair is listed several times its last weight
    is kept and the earlier ones are dropped. *)
Theorem feature_weights_last_wins (fs1 fs2 : list FeatureSpec) (f : FeatureSpec) :
  ~ In (feature_key f) (map feature_key fs2) ->
  let fw := build_feature_weights (fs1 ++ f :: fs2) in
  NoDup (keys fw) /\
  (forall k, In k (keys fw) <-> In k (map feature_key (fs1 ++ f :: fs2))) /\
  dict_get fw (feature_key f) = Some (f_weight f).
Proof.
  intros Hlast. cbv zeta. unfold build_feature_weights.
  fold feature_key.
  change (fun d f0 => dict_set d (prefixed (f_market f0) (f_column f0)) (f_weight f0))
    with (fun d f0 => dict_set d (feature_key f0) (f_weight f0)).
  destruct (build_from (fs1 ++ f :: fs2) []) as (Hnd & Hkeys & _). cbv zeta in *.
  split; [apply Hnd; constructor|].
  split; [intros k; rewrite Hkeys; simpl; tauto|].
  rewrite fold_left_app. cbn [fold_left].
  destruct (build_from fs2
              (dict_set (fold_left (fun d f0 => dict_set d (feature_key f0) (f_weight f0))
                                   fs1 [])
                        (feature_key f) (f_weight f))) as (_ & _ & Hget).
  cbv zeta in Hget. rewrite (Hget _ Hlast), dict_set_get.
  now rewrite String.eqb_refl.
Qed.

Lemma feature_weights_last_wins_witness :
  dict_get (build_feature_weights
              [ {| f_market := "da"; f_column := "lmp_total"; f_weight := 1 |};
                {| f_market := "rt"; f_column := "lmp_total"; f_weight := 3 |};
                {| f_market := "da"; f_column := "lmp_total"; f_weight := 2 |} ])
           "da_lmp_total" = Some 2.
Proof.
  apply (feature_weights_last_wins
           [ {| f_market := "da"; f_column := "lmp_total"; f_weight := 1 |};
             {| f_market := "rt"; f_column := "lmp_total"; f_weight := 3 |} ]
           []
           {| f_market := "da"; f_column := "lmp_total"; f_weight := 2 |}).
  intros [].
Defined.

(** ** The inner join of the markets *)

Lemma sorted_set_In (l : list string) (x : string) : In x (sorted_set l) <-> In x l.
Proof. unfold sorted_set. rewrite sort_by_In. apply nodup_In. Qed.

Lemma sorted_set_NoDup (l : list string) : NoDup (sorted_set l).
Proof.
  unfold sorted_set.
  apply (Permutation_NoDup (l := nodup string_dec l)).
  - symmetry. apply sort_by_perm.
  - apply NoDup_nodup.
Qed.

Lemma is_column_of_prefixed (mkt col : string) :
  In col LMP_COLS -> is_column_of mkt (prefixed mkt col) = true.
Proof.
  intros Hc. unfold is_column_of. apply existsb_exists.
  exists col. split; [exact Hc|apply String.eqb_refl].
Qed.

Lemma is_column_of_other (mkt mkt' col : string) :
  In col LMP_COLS -> mkt <> mkt' -> is_column_of mkt' (prefixed mkt col) = false.
Proof.
  intros Hc Hne. unfold is_column_of.
  destruct (existsb _ LMP_COLS) eqn:E; [|reflexivity].
  apply existsb_exists in E. destruct E as (col' & Hc' & E).
  apply String.eqb_eq in E.
  destruct (column_suffix_unique _ _ _ _ Hc Hc' E) as [Hm _]. contradiction.
Qed.

Lemma merge_inner_In (mkt : string) (left right : DataFrame) (row : HourlyRow) :
  In row (merge_inner mkt left right) <->
  exists l r, In l left /\ In r right /\ date r = date l /\
              hour_ending r = hour_ending l /\
              row = {| date := date l; hour_ending := hour_ending l;
                       cell := fun k => if is_column_of mkt k then cell r k
                                        else cell l k |}.
Proof.
  unfold merge_inner. rewrite in_flat_map. split.
  - intros (l & Hl & Hrow). apply in_map_iff in Hrow.
    destruct Hrow as (r & <- & Hr). apply filter_In in Hr.
    destruct Hr as [Hr Hk]. apply andb_true_iff in Hk.
    destruct Hk as [Hd Hh]. apply Z.eqb_eq in Hd, Hh.
    exists l, r. auto.
  - intros (l & r & Hl & Hr & Hd & Hh & ->). exists l. split; [exact Hl|].
    apply in_map_iff. exists r. split; [reflexivity|].
    apply filter_In. split; [exact Hr|].
    apply andb_true_iff. split; now apply Z.eqb_eq.
Qed.

Section PipelineFacts.

Variable pull : string -> string -> DataFrame.
Variable dayofweek : Z -> Z.
Variable month : Z -> Z.

Lemma pull_and_prefix_carries (hub mkt : string) (row : HourlyRow) :
  In row (_pull_and_prefix pull hub mkt) -> carries pull hub mkt row.
Proof.
  unfold _pull_and_prefix. intros H. apply in_map_iff in H.
  destruct H as (p & <- & Hp). exists p. cbn [date hour_ending cell].
  repeat split; auto. intros col Hc.
  destruct (find _ LMP_COLS) as [col'|] eqn:E.
  - apply find_some in E. destruct E as [Hc' E]. apply String.eqb_eq in E.
    destruct (column_suffix_unique _ _ _ _ Hc Hc' E) as [_ <-]. reflexivity.
  - exfalso. apply (find_none _ _ E col) in Hc. now rewrite String.eqb_refl in Hc.
Qed.

Lemma pull_and_prefix_keys (hub mkt : string) (d h : Z) :
  (exists row, In row (_pull_and_prefix pull hub mkt) /\ date row = d /\
               hour_ending row = h) <->
  (exists p, In p (pull hub mkt) /\ date p = d /\ hour_ending p = h).
Proof.
  unfold _pull_and_prefix. split.
  - intros (row & Hrow & Hd & Hh). apply in_map_iff in Hrow.
    destruct Hrow as (p & <- & Hp). exists p. auto.
  - intros (p & Hp & Hd & Hh). eexists. split; [apply in_map; exact Hp|]. auto.
Qed.

Lemma join_fold (hub : string) (others done : list string) (df : DataFrame) :
  NoDup (done ++ others) ->
  (forall row, In row df -> forall mkt, In mkt done -> carries pull hub mkt row) ->
  forall row,
    In row (fold_left (fun df mkt => merge_inner mkt df (_pull_and_prefix pull hub mkt))
                      others df) ->
    forall mkt, In mkt (done ++ others) -> carries pull hub mkt row.
Proof.
  revert done df; induction others as [|m others IH]; intros done df Hnd Hinv row Hrow mkt Hm.
  - rewrite app_nil_r in Hm. cbn in Hrow. now apply Hinv.
  - cbn [fold_left] in Hrow.
    assert (Hnd' : NoDup ((done ++ [m]) ++ others)) by now rewrite <- app_assoc.
    replace (done ++ m :: others) with ((done ++ [m]) ++ others) in Hm
      by now rewrite <- app_assoc.
    apply (IH (done ++ [m]) (merge_inner m df (_pull_and_prefix pull hub m)) Hnd')
      with (row := row); [|exact Hrow|exact Hm].
    clear row Hrow mkt Hm. intros row Hrow mkt Hm.
    apply merge_inner_In in Hrow.
    destruct Hrow as (l & r & Hl & Hr & Hd & Hh & ->).
    apply in_app_or in Hm. destruct Hm as [Hm|[<-|[]]].
    + destruct (Hinv l Hl mkt Hm) as (p & Hp & Hpd & Hph & Hcell).
      exists p. cbn [date hour_ending cell]. repeat split; auto.
      intros col Hc. rewrite is_column_of_other; [now apply Hcell|exact Hc|].
      intros ->. apply NoDup_remove_2 in Hnd. apply Hnd.
      apply in_or_app. now left.
    + destruct (pull_and_prefix_carries hub m r Hr) as (p & Hp & Hpd & Hph & Hcell).
      exists p. cbn [date hour_ending cell].
      repeat split; try congruence.
      intros col Hc. rewrite is_column_of_prefixed by exact Hc. now apply Hcell.
Qed.

Lemma join_fold_keys (hub : string) (others : list string) (df : DataFrame) (d h : Z) :
  (exists row, In row df /\ date row = d /\ hour_ending row = h) ->
  (forall mkt, In mkt others ->
     exists p, In p (pull hub mkt) /\ date p = d /\ hour_ending p = h) ->
  exists row,
    In row (fold_left (fun df mkt => merge_inner mkt df (_pull_and_prefix pull hub mkt))
                      others df) /\
    date row = d /\ hour_ending row = h.
Proof.
  revert df; induction others as [|m others IH]; intros df Hdf Hall; [exact Hdf|].
  cbn [fold_left]. apply IH; [|intros mkt Hm; apply Hall; now right].
  destruct Hdf as (l & Hl & Hd & Hh).
  destruct (proj2 (pull_and_prefix_keys hub m d h) (Hall m (or_introl eq_refl)))
    as (r & Hr & Hrd & Hrh).
  eexists. split.
  - apply merge_inner_In. exists l, r. repeat split; auto; congruence.
  - cbn [date hour_ending]. auto.
Qed.

Lemma join_markets_carries (hub first : string) (others : list string)
    (row : HourlyRow) (mkt : string) :
  NoDup (first :: others) ->
  In row (join_markets pull hub first others) -> In mkt (first :: others) ->
  carries pull hub mkt row.
Proof.
  intros Hnd Hrow Hm. unfold join_markets in Hrow.
  apply (join_fold hub others [first] (_pull_and_prefix pull hub first) Hnd)
    with (row := row); [|exact Hrow|exact Hm].
  intros r Hr m [<-|[]]. now apply pull_and_prefix_carries.
Qed.

(** X16.  The joined table is the strict intersection of the markets: a
    (date, hour) pair has a row in it exactly when every requested market
    has a row for that pair, and each joined row carries, under the
    market-qualified names, the four LMP values of such a row of each
    market. *)
Theorem join_is_intersection (hub first : string) (others : list string) :
  NoDup (first :: others) ->
  (forall row, In row (join_markets pull hub first others) ->
     forall mkt, In mkt (first :: others) -> carries pull hub mkt row) /\
  (forall d h,
     (exists row, In row (join_markets pull hub first others) /\
                  date row = d /\ hour_ending row = h) <->
     (forall mkt, In mkt (first :: others) ->
        exists p, In p (pull hub mkt) /\ date p = d /\ hour_ending p = h)).
Proof.
  intros Hnd.
  assert (Hcarry : forall row, In row (join_markets pull hub first others) ->
                     forall mkt, In mkt (first :: others) -> carries pull hub mkt row).
  { intros row Hrow mkt Hm. now apply (join_markets_carries hub first others). }
  split; [exact Hcarry|].
  intros d h. split.
  - intros (row & Hrow & Hd & Hh) mkt Hm.
    destruct (Hcarry row Hrow mkt Hm) as (p & Hp & Hpd & Hph & _).
    exists p. repeat split; congruence.
  - intros Hall. unfold join_markets. apply join_fold_keys.
    + apply pull_and_prefix_keys. apply Hall. now left.
    + intros mkt Hm. apply Hall. now right.
Qed.

End PipelineFacts.

(** ** [run]: filters, failures and profiles *)

Lemma isin_In (xs : list Z) (x : Z) : isin xs x = true <-> In x xs.
Proof.
  unfold isin. rewrite existsb_exists. split.
  - intros (y & Hy & E). apply Z.eqb_eq in E. now subst.
  - intros H. exists x. split; [exact H|apply Z.eqb_refl].
Qed.

Lemma filter_opt_In {A : Type} (arg : option A) (keep : A -> HourlyRow -> bool)
    (df : DataFrame) (r : HourlyRow) :
  In r (filter_opt arg keep df) <->
  In r df /\ forall a, arg = Some a -> keep a r = true.
Proof.
  destruct arg as [a|]; simpl.
  - rewrite filter_In. split.
    + intros [H1 H2]. split; [exact H1|]. intros a' E. now injection E as <-.
    + intros [H1 H2]. split; [exact H1|]. now apply H2.
  - split; [intros H; split; [exact H|discriminate]|tauto].
Qed.

Lemma filter_none {A : Type} (p : A -> bool) (l : list A) :
  (forall x, In x l -> p x = false) -> filter p l = [].
Proof.
  induction l as [|x l IH]; intros H; simpl; [reflexivity|].
  rewrite (H x (or_introl eq_refl)). apply IH. intros y Hy. apply H. now right.
Qed.

Lemma find_like_days_no_target (df_hist : DataFrame) (fw : option dict)
    (fc : list string) (n : Z) (metric : string) :
  find_like_days [] df_hist fw fc n metric =
  ValueError "Target date has no hourly data".
Proof. now rewrite find_like_days_eq. Qed.

Section RunFacts.

Variable pull : string -> string -> DataFrame.
Variable dayofweek : Z -> Z.
Variable month : Z -> Z.

Lemma historical_pool_In (target_date : Z) (hist_start hist_end : option Z)
    (days_of_week months : option (list Z)) (df : DataFrame) (r : HourlyRow) :
  In r (historical_pool dayofweek month target_date hist_start hist_end
                        days_of_week months df) <->
  In r df /\ (date r < target_date)%Z /\
  (forall s, hist_start = Some s -> (s <= date r)%Z) /\
  (forall e, hist_end = Some e -> (date r <= e)%Z) /\
  (forall ds, days_of_week = Some ds -> In ((dayofweek (date r) + 1) mod 7)%Z ds) /\
  (forall ms, months = Some ms -> In (month (date r)) ms).
Proof.
  unfold historical_pool. rewrite !filter_opt_In, filter_In, Z.ltb_lt.
  split.
  - intros [[[[[Hin Hlt] Hs] He] Hd] Hm].
    repeat split; auto.
    + intros s E. apply Z.leb_le. now apply Hs.
    + intros e E. apply Z.leb_le. now apply He.
    + intros ds E. apply isin_In. now apply Hd.
    + intros ms E. apply isin_In. now apply Hm.
  - intros (Hin & Hlt & Hs & He & Hd & Hm).
    repeat split; auto.
    + intros s E. apply Z.leb_le. now apply Hs.
    + intros e E. apply Z.leb_le. now apply He.
    + intros ds E. apply isin_In. now apply Hd.
    + intros ms E. apply isin_In. now apply Hm.
Qed.

(** What a successful call went through. *)
Lemma run_ok_inv (target_date : Z) (hub : string) (features : option (list FeatureSpec))
    (n : Z) (metric : string) (hist_start hist_end : option Z)
    (hours days_of_week months : option (list Z))
    (res : list MatchResult) (profiles : list (string * HourlyRow)) (t : Z) :
  run pull dayofweek month target_date hub features n metric hist_start hist_end
      hours days_of_week months = RunOk res profiles t ->
  exists first others,
    sorted_set (map f_market (effective_features features)) = first :: others /\
    let df := filter_opt hours (fun hs r => isin hs (hour_ending r))
                         (join_markets pull hub first others) in
    find_like_days (filter (fun r => Z.eqb (date r) target_date) df)
                   (historical_pool dayofweek month target_date hist_start hist_end
                                    days_of_week months df)
                   (Some (build_feature_weights (effective_features features)))
                   FEATURE_COLS n metric = Ok res /\
    profiles = gather_profiles pull hub (first :: others)
                 (map m_date res ++ [target_date]) /\
    t = target_date.
Proof.
  unfold run. fold (effective_features features).
  destruct (sorted_set (map f_market (effective_features features)))
    as [|first others]; [discriminate|].
  intros H. exists first, others. split; [reflexivity|]. cbv zeta.
  destruct (filter (fun r => Z.eqb (date r) target_date) _) as [|r0 tgt] eqn:Et.
  - rewrite find_like_days_no_target in H. discriminate H.
  - destruct (find _ (keys _)); [discriminate H|].
    destruct (find_like_days _ _ _ _ _ _) as [results|msg]; [|discriminate H].
    injection H as <- <- <-. auto.
Qed.

Lemma result_dates_in_pool (df_target df_hist : DataFrame) (fw : option dict)
    (fc : list string) (n : Z) (metric : string) (res : list MatchResult) (m : MatchResult) :
  find_like_days df_target df_hist fw fc n metric = Ok res -> In m res ->
  exists r, In r df_hist /\ date r = m_date m.
Proof.
  intros Hok Hm.
  destruct (result_row_origin _ _ _ _ _ _ _ Hok m Hm) as [Hin _].
  apply surviving_days_In in Hin. destruct Hin as [Hin _].
  apply in_map_iff in Hin. destruct Hin as (r & E & Hr). now exists r.
Qed.

(** X17.  Every like day returned by [run] lies strictly before the
    target date and passes every filter that was supplied: the inclusive
    date range, the days of week (0 = Sunday .. 6 = Saturday, pandas'
    Monday-based number shifted by one modulo 7) and the months. *)
Theorem run_respects_filters (target_date : Z) (hub : string)
    (features : option (list FeatureSpec)) (n : Z) (metric : string)
    (hist_start hist_end : option Z) (hours days_of_week months : option (list Z))
    (res : list MatchResult) (profiles : list (string * HourlyRow)) (t : Z) :
  run pull dayofweek month target_date hub features n metric hist_start hist_end
      hours days_of_week months = RunOk res profiles t ->
  t = target_date /\
  forall m, In m res ->
    (m_date m < target_date)%Z /\
    (forall s, hist_start = Some s -> (s <= m_date m)%Z) /\
    (forall e, hist_end = Some e -> (m_date m <= e)%Z) /\
    (forall ds, days_of_week = Some ds ->
       In ((dayofweek (m_date m) + 1) mod 7)%Z ds) /\
    (forall ms, months = Some ms -> In (month (m_date m)) ms).
Proof.
  intros Hrun.
  destruct (run_ok_inv _ _ _ _ _ _ _ _ _ _ _ _ _ Hrun)
    as (first & others & _ & Hok & _ & Ht). cbv zeta in Hok.
  split; [exact Ht|]. intros m Hm.
  destruct (result_dates_in_pool _ _ _ _ _ _ _ m Hok Hm) as (r & Hr & <-).
  apply historical_pool_In in Hr. tauto.
Qed.

Lemma run_target_missing_aux (target_date : Z) (hub : string)
    (features : option (list FeatureSpec)) (n : Z) (metric : string)
    (hist_start hist_end : option Z) (hours days_of_week months : option (list Z))
    (mkt : string) :
  In mkt (map f_market (effective_features features)) ->
  (forall p, In p (pull hub mkt) -> date p <> target_date) ->
  run pull dayofweek month target_date hub features n metric hist_start hist_end
      hours days_of_week months =
  RunValueError "Target date has no hourly data".
Proof.
  intros Hmkt Hnone. unfold run. fold (effective_features features).
  pose proof (sorted_set_NoDup (map f_market (effective_features features))) as Hnd.
  apply sorted_set_In in Hmkt.
  destruct (sorted_set (map f_market (effective_features features)))
    as [|first others]; [destruct Hmkt|].
  cbv zeta.
  rewrite (filter_none (fun r => Z.eqb (date r) target_date)).
  - now rewrite find_like_days_no_target.
  - intros r Hr. apply filter_opt_In in Hr. destruct Hr as [Hr _].
    destruct (join_markets_carries pull hub first others r mkt Hnd Hr Hmkt)
      as (p & Hp & Hd & _).
    apply Z.eqb_neq. rewrite <- Hd. now apply Hnone.
Qed.

(** X18.  When some requested market has no row at all for the target
    date, the inner join leaves the target day empty and [run] fails with
    the engine's "Target date has no hourly data" error, whatever the
    other markets hold. *)
Theorem run_target_missing (target_date : Z) (hub : string)
    (features : option (list FeatureSpec)) (n : Z) (metric : string)
    (hist_start hist_end : option Z) (hours days_of_week months : option (list Z))
    (mkt : string) :
  In mkt (map f_market (effective_features features)) ->
  (forall p, In p (pull hub mkt) -> date p <> target_date) ->
  run pull dayofweek month target_date hub features n metric hist_start hist_end
      hours days_of_week months =
  RunValueError "Target date has no hourly data".
Proof.
  exact (run_target_missing_aux target_date hub features n metric hist_start hist_end
           hours days_of_week months mkt).
Qed.

Lemma run_index_error_cases (target_date : Z) (hub : string)
    (features : option (list FeatureSpec)) (n : Z) (metric : string)
    (hist_start hist_end : option Z) (hours days_of_week months : option (list Z)) :
  run pull dayofweek month target_date hub features n metric hist_start hist_end
      hours days_of_week months = RunIndexError
  <-> features = Some [].
Proof.
  split.
  - unfold run. fold (effective_features features).
    destruct (sorted_set (map f_market (effective_features features)))
      as [|first others] eqn:Es.
    + intros _. destruct features as [[|f fs]|]; [reflexivity| |].
      * exfalso. assert (H : In (f_market f) (sorted_set (map f_market (f :: fs))))
          by (apply sorted_set_In; now left).
        cbn [effective_features] in Es. rewrite Es in H. exact H.
      * exfalso. assert (H : In "da" (sorted_set (map f_market (effective_features None))))
          by (apply sorted_set_In; now left).
        rewrite Es in H. exact H.
    + cbv zeta.
      destruct (filter (fun r => Z.eqb (date r) target_date) _) as [|r0 tgt].
      * destruct (find_like_days _ _ _ _ _ _); discriminate.
      * destruct (find _ (keys _)); [discriminate|].
        destruct (find_like_days _ _ _ _ _ _); discriminate.
  - intros ->. reflexivity.
Qed.

(** X19.  [run] fails with an index error exactly when it is given an
    empty feature list: only a missing list ([None]) is replaced by the
    default feature. *)
Theorem run_index_error_iff (target_date : Z) (hub : string)
    (features : option (list FeatureSpec)) (n : Z) (metric : string)
    (hist_start hist_end : option Z) (hours days_of_week months : option (list Z)) :
  run pull dayofweek month target_date hub features n metric hist_start hist_end
      hours days_of_week months = RunIndexError
  <-> features = Some [].
Proof.
  exact (run_index_error_cases target_date hub features n metric hist_start hist_end
           hours days_of_week months).
Qed.

Lemma gather_profiles_In (hub : string) (markets : list string) (all_dates : list Z)
    (mkt : string) (r : HourlyRow) :
  In (mkt, r) (gather_profiles pull hub markets all_dates) <->
  In mkt markets /\ In r (pull hub mkt) /\ In (date r) all_dates.
Proof.
  unfold gather_profiles. rewrite in_flat_map. split.
  - intros (m & Hm & Hin). apply in_map_iff in Hin.
    destruct Hin as (r' & E & Hr'). injection E as -> ->.
    apply filter_In in Hr'. destruct Hr' as [Hr' Hd]. apply isin_In in Hd. auto.
  - intros (Hm & Hr & Hd). exists mkt. split; [exact Hm|].
    apply in_map_iff. exists r. split; [reflexivity|].
    apply filter_In. split; [exact Hr|]. now apply isin_In.
Qed.

(** X20.  The hourly profiles returned by [run] are exactly the pulled
    rows of the requested markets whose date is the target date or one of
    the like days: all their hours, whether or not an hour filter narrowed
    the comparison. *)
Theorem run_profiles (target_date : Z) (hub : string)
    (features : option (list FeatureSpec)) (n : Z) (metric : string)
    (hist_start hist_end : option Z) (hours days_of_week months : option (list Z))
    (res : list MatchResult) (profiles : list (string * HourlyRow)) (t : Z) :
  run pull dayofweek month target_date hub features n metric hist_start hist_end
      hours days_of_week months = RunOk res profiles t ->
  forall mkt r,
    In (mkt, r) profiles <->
    In mkt (map f_market (effective_features features)) /\
    In r (pull hub mkt) /\
    (date r = target_date \/ In (date r) (map m_date res)).
Proof.
  intros Hrun mkt r.
  destruct (run_ok_inv _ _ _ _ _ _ _ _ _ _ _ _ _ Hrun)
    as (first & others & Es & _ & -> & _).
  rewrite gather_profiles_In, <- Es, sorted_set_In, in_app_iff. simpl.
  intuition.
Qed.

Lemma run_key_error_cases (target_date : Z) (hub : string)
    (features : option (list FeatureSpec)) (n : Z) (metric : string)
    (hist_start hist_end : option Z) (hours days_of_week months : option (list Z)) :
  ((forall f, In f (effective_features features) -> In (f_column f) LMP_COLS) ->
   forall k,
     run pull dayofweek month target_date hub features n metric hist_start hist_end
         hours days_of_week months <> RunKeyError k) /\
  (forall k,
     run pull dayofweek month target_date hub features n metric hist_start hist_end
         hours days_of_week months = RunKeyError k ->
     exists f, In f (effective_features features) /\ feature_key f = k /\
               forall col, In col LMP_COLS -> f_column f <> col).
Proof.
  assert (Hkey : forall k,
     run pull dayofweek month target_date hub features n metric hist_start hist_end
         hours days_of_week months = RunKeyError k ->
     exists f, In f (effective_features features) /\ feature_key f = k /\
               forall col, In col LMP_COLS -> f_column f <> col).
  { intros k. unfold run. fold (effective_features features).
    destruct (sorted_set (map f_market (effective_features features)))
      as [|first others] eqn:Es; [discriminate|]. cbv zeta.
    destruct (filter (fun r => Z.eqb (date r) target_date) _) as [|r0 tgt].
    - destruct (find_like_days _ _ _ _ _ _); discriminate.
    - destruct (find _ (keys _)) as [k'|] eqn:Ef.
      + intros H. injection H as <-. apply find_some in Ef.
        destruct Ef as [Hk Hnot]. apply negb_true_iff in Hnot.
        assert (Hin : In k' (map feature_key (effective_features features))).
        { unfold build_feature_weights in Hk.
          change (fun d f0 => dict_set d (prefixed (f_market f0) (f_column f0))
                                       (f_weight f0))
            with (fun d f0 => dict_set d (feature_key f0) (f_weight f0)) in Hk.
          destruct (build_from (effective_features features) []) as (_ & Hkeys & _).
          cbv zeta in Hkeys. apply Hkeys in Hk. destruct Hk as [[]|Hk]. exact Hk. }
        apply in_map_iff in Hin. destruct Hin as (f & E & Hf).
        exists f. split; [exact Hf|]. split; [exact E|].
        intros col Hc Ecol.
        assert (Hex : existsb (fun mkt => is_column_of mkt k') (first :: others) = true).
        { apply existsb_exists. exists (f_market f). split.
          - rewrite <- Es. apply sorted_set_In. now apply in_map.
          - rewrite <- E. unfold feature_key. rewrite Ecol.
            now apply is_column_of_prefixed. }
        rewrite Hex in Hnot. discriminate Hnot.
      + destruct (find_like_days _ _ _ _ _ _); discriminate. }
  split; [|exact Hkey].
  intros Hvalid k Hrun. destruct (Hkey k Hrun) as (f & Hf & _ & Hbad).
  exact (Hbad (f_column f) (Hvalid f Hf) eq_refl).
Qed.

(** X21.  When every feature names one of the four LMP columns, [run]
    never fails on a missing column; a failure on a missing column names
    the key of a feature whose column is none of the four. *)
Theorem run_key_error (target_date : Z) (hub : string)
    (features : option (list FeatureSpec)) (n : Z) (metric : string)
    (hist_start hist_end : option Z) (hours days_of_week months : option (list Z)) :
  ((forall f, In f (effective_features features) -> In (f_column f) LMP_COLS) ->
   forall k,
     run pull dayofweek month target_date hub features n metric hist_start hist_end
         hours days_of_week months <> RunKeyError k) /\
  (forall k,
     run pull dayofweek month target_date hub features n metric hist_start hist_end
         hours days_of_week months = RunKeyError k ->
     exists f, In f (effective_features features) /\ feature_key f = k /\
               forall col, In col LMP_COLS -> f_column f <> col).
Proof.
  exact (run_key_error_cases target_date hub features n metric hist_start hist_end
           hours days_of_week months).
Qed.

End RunFacts.

(** ** [run] on the sample price source *)

Lemma sample_pipeline_engine (dayofweek month : Z -> Z) :
  find_like_days
    (filter (fun r => Z.eqb (date r) 100)
            (_pull_and_prefix sample_pull "WESTERN HUB" "da"))
    (historical_pool dayofweek month 100 None None None None
                     (_pull_and_prefix sample_pull "WESTERN HUB" "da"))
    (Some sample_weights) FEATURE_COLS 5 "mae"
  = Ok sample_result.
Proof.
  rewrite find_like_days_eq. cbv zeta.
  change (resolve_features (Some sample_weights) FEATURE_COLS)
    with (["da_lmp_total"], sample_weights).
  cbn [fst snd].
  set (tgt := filter (fun r => Z.eqb (date r) 100)
                     (_pull_and_prefix sample_pull "WESTERN HUB" "da")).
  set (hist := historical_pool dayofweek month 100 None None None None
                               (_pull_and_prefix sample_pull "WESTERN HUB" "da")).
  assert (Hs : surviving_days tgt hist = [97; 98; 99]%Z) by reflexivity.
  assert (Hl : Nat.eqb (List.length tgt) 0 = false) by reflexivity.
  rewrite Hl, Hs.
  assert (Hraw : map (raw_row_of "mae" ["da_lmp_total"] (sort_values_hour tgt) hist)
                     [97; 98; 99]%Z = sample_raw).
  { cbn [map]. unfold raw_row_of, raw_distance, _compute_metric. cbn.
    unfold sample_raw. repeat (f_equal; try real_cells). }
  rewrite Hraw, sample_scored, sample_selected. reflexivity.
Qed.

Lemma sample_pipeline_run (dayofweek month : Z -> Z) :
  run sample_pull dayofweek month 100 "WESTERN HUB" (Some sample_features) 5 "mae"
      None None None None None
  = RunOk sample_result
          (gather_profiles sample_pull "WESTERN HUB" ["da"] [97; 98; 99; 100]%Z)
          100.
Proof.
  unfold run.
  change (sorted_set (map f_market sample_features)) with ["da"].
  cbv zeta. unfold join_markets. cbn [fold_left filter_opt].
  change (build_feature_weights sample_features) with sample_weights.
  rewrite sample_pipeline_engine.
  reflexivity.
Qed.

Lemma join_is_intersection_witness :
  exists row, In row (join_markets sample_pull "WESTERN HUB" "da" ["rt"]) /\
              date row = 97%Z /\ hour_ending row = 1%Z.
Proof.
  assert (Hnd : NoDup ["da"; "rt"]).
  { constructor; [intros [H|[]]; discriminate H|].
    constructor; [intros []|constructor]. }
  apply (proj2 (join_is_intersection sample_pull "WESTERN HUB" "da" ["rt"] Hnd)).
  intros mkt [<-|[<-|[]]]; exists (sample_row 97 1 10);
    (split; [cbn; auto 8|split; reflexivity]).
Defined.

Lemma run_respects_filters_witness :
  (m_date {| m_date := 99; rank := 3; distance := Fin 1; similarity := Fin 0 |} < 100)%Z.
Proof.
  destruct (run_respects_filters sample_pull (fun _ => 0%Z) (fun _ => 1%Z)
              100 "WESTERN HUB" (Some sample_features) 5 "mae"
              None None None None None sample_result _ 100
              (sample_pipeline_run _ _)) as [_ H].
  apply H. right; right; left; reflexivity.
Defined.

Lemma run_target_missing_witness :
  run sample_pull (fun _ => 0%Z) (fun _ => 1%Z) 100 "WESTERN HUB"
      (Some [ {| f_market := "da"; f_column := "lmp_total"; f_weight := 1 |};
              {| f_market := "rt"; f_column := "lmp_total"; f_weight := 1 |} ])
      5 "mae" None None None None None
  = RunValueError "Target date has no hourly data".
Proof.
  apply (run_target_missing sample_pull _ _ 100 "WESTERN HUB" _ 5 "mae"
           None None None None None "rt").
  - right; left; reflexivity.
  - intros p Hp. cbn in Hp.
    destruct Hp as [<-|[<-|[<-|[<-|[<-|[]]]]]]; discriminate.
Defined.

Lemma run_index_error_iff_witness :
  run sample_pull (fun _ => 0%Z) (fun _ => 1%Z) 100 "WESTERN HUB" (Some [])
      5 "mae" None None None None None
  = RunIndexError.
Proof.
  exact (proj2 (run_index_error_iff sample_pull (fun _ => 0%Z) (fun _ => 1%Z) 100
                  "WESTERN HUB" (Some []) 5 "mae" None None None None None) eq_refl).
Defined.

Lemma run_profiles_witness :
  In ("da", sample_row 96 2 10)
     (gather_profiles sample_pull "WESTERN HUB" ["da"] [97; 98; 99; 100]%Z) <->
  In "da" (map f_market sample_features) /\
  In (sample_row 96 2 10) (sample_pull "WESTERN HUB" "da") /\
  (date (sample_row 96 2 10) = 100%Z \/
   In (date (sample_row 96 2 10)) (map m_date sample_result)).
Proof.
  exact (run_profiles sample_pull (fun _ => 0%Z) (fun _ => 1%Z)
           100 "WESTERN HUB" (Some sample_features) 5 "mae"
           None None None None None sample_result _ 100
           (sample_pipeline_run _ _) "da" (sample_row 96 2 10)).
Defined.

Lemma run_key_error_witness :
  run sample_pull (fun _ => 0%Z) (fun _ => 1%Z) 100 "WESTERN HUB"
      (Some sample_features) 5 "mae" None None None None None
  <> RunKeyError "da_lmp_total".
Proof.
  apply (run_key_error sample_pull (fun _ => 0%Z) (fun _ => 1%Z) 100 "WESTERN HUB"
           (Some sample_features) 5 "mae" None None None None None).
  intros f [<-|[]]. left. reflexivity.
Defined.

(** * The request handler *)

Lemma find_like_days_messages (df_target df_hist : DataFrame) (fw : option dict)
    (fc : list string) (n : Z) (metric : string) (msg : string) :
  find_like_days df_target df_hist fw fc n metric = ValueError msg ->
  msg = "Target date has no hourly data" \/
  msg = "No historical days matched the target hours".
Proof.
  rewrite find_like_days_eq. cbv zeta.
  destruct (Nat.eqb _ 0); [intros H; injection H as <-; now left|].
  destruct (surviving_days df_target df_hist); [|discriminate].
  intros H; injection H as <-. now right.
Qed.

Lemma run_messages (pull : string -> string -> DataFrame) (dayofweek month : Z -> Z)
    (target_date : Z) (hub : string) (features : option (list FeatureSpec)) (n : Z)
    (metric : string) (hist_start hist_end : option Z)
    (hours days_of_week months : option (list Z)) (msg : string) :
  run pull dayofweek month target_date hub features n metric hist_start hist_end
      hours days_of_week months = RunValueError msg ->
  msg = "Target date has no hourly data" \/
  msg = "No historical days matched the target hours".
Proof.
  unfold run.
  destruct (sorted_set _) as [|first others]; [discriminate|]. cbv zeta.
  destruct (filter (fun r => Z.eqb (date r) target_date) _) as [|r0 tgt].
  - destruct (find_like_days _ _ _ _ _ _) as [res|m] eqn:E; [discriminate|].
    intros H; injection H as <-. exact (find_like_days_messages _ _ _ _ _ _ _ E).
  - destruct (find _ (keys _)); [discriminate|].
    destruct (find_like_days _ _ _ _ _ _) as [res|m] eqn:E; [discriminate|].
    intros H; injection H as <-. exact (find_like_days_messages _ _ _ _ _ _ _ E).
Qed.

Lemma str_in_In (x : string) (xs : list string) : str_in x xs = true <-> In x xs.
Proof.
  unfold str_in. rewrite existsb_exists. split.
  - intros (y & Hy & E). apply String.eqb_eq in E. now subst.
  - intros H. exists x. split; [exact H|apply String.eqb_refl].
Qed.

Lemma keep_some_In {A : Type} (l : list (option A)) (a : A) :
  In a (keep_some l) <-> In (Some a) l.
Proof.
  unfold keep_some. rewrite in_flat_map. split.
  - intros ([b|] & Hb & Ha); [|destruct Ha].
    destruct Ha as [<-|[]]. exact Hb.
  - intros H. exists (Some a). split; [exact H|now left].
Qed.

Lemma non_empty_Some {A : Type} (l fl : list A) :
  non_empty l = Some fl -> fl = l /\ l <> [].
Proof.
  destruct l; [discriminate|]. intros H; injection H as <-.
  split; [reflexivity|discriminate].
Qed.

Section ApiFacts.

Variable strip : string -> string.
Variable lower : string -> string.
Variable float_of : string -> option R.
Variable int_of : string -> option Z.
Variable tomorrow : Z.
Variable pull : string -> string -> DataFrame.
Variable dayofweek : Z -> Z.
Variable month : Z -> Z.

Lemma parse_feature_entry_valid (entry : string) (f : FeatureSpec) :
  parse_feature_entry strip lower float_of entry = Some f ->
  In (f_column f) VALID_COLS /\ In (f_market f) VALID_MARKETS.
Proof.
  unfold parse_feature_entry.
  destruct (negb (contains ":" (strip entry))); [discriminate|].
  destruct (rsplit_last ":" (strip entry)) as [spec weight_str].
  destruct (negb (contains "." spec)); [discriminate|].
  destruct (split_first "." spec) as [mkt col].
  destruct (str_in (lower (strip mkt)) VALID_MARKETS &&
            str_in (strip col) VALID_COLS) eqn:E; [|discriminate].
  apply andb_true_iff in E. destruct E as [Em Ec].
  destruct (float_of weight_str); [|discriminate].
  intros H; injection H as <-. cbn [f_column f_market].
  split; now apply str_in_In.
Qed.

Lemma parse_weight_pair_valid (market pair : string) (f : FeatureSpec) :
  parse_weight_pair strip float_of market pair = Some f ->
  In (f_column f) VALID_COLS /\ f_market f = market.
Proof.
  unfold parse_weight_pair.
  destruct (contains ":" (strip pair)); [|discriminate].
  destruct (split_first ":" (strip pair)) as [col w].
  destruct (str_in (strip col) VALID_COLS) eqn:E; [|discriminate].
  destruct (float_of w); [|discriminate].
  intros H; injection H as <-. cbn [f_column f_market].
  split; [now apply str_in_In|reflexivity].
Qed.

Lemma request_features_valid_aux (features feature_cols feature_weights : option string)
    (market : string) :
  let fl := request_features strip lower float_of features feature_cols
                             feature_weights market in
  fl <> [] /\
  forall f, In f fl ->
    In (f_column f) VALID_COLS /\
    (In (f_market f) VALID_MARKETS \/ f_market f = market).
Proof.
  cbv zeta. unfold request_features.
  set (from_features :=
         match truthy features with
         | Some s => non_empty (keep_some (map (parse_feature_entry strip lower float_of)
                                               (split_on "," s)))
         | None => None
         end).
  assert (Hdefault :
            let fl := [ {| f_market := market; f_column := "lmp_total"; f_weight := 1 |} ] in
            fl <> [] /\
            forall f, In f fl ->
              In (f_column f) VALID_COLS /\
              (In (f_market f) VALID_MARKETS \/ f_market f = market)).
  { cbv zeta. split; [discriminate|]. intros f [<-|[]]. cbn.
    split; [now left|now right]. }
  destruct from_features as [fl|] eqn:Ef.
  - unfold from_features in Ef. destruct (truthy features) as [s|]; [|discriminate].
    apply non_empty_Some in Ef. destruct Ef as [-> Hne].
    split; [exact Hne|]. intros f Hf. apply keep_some_In, in_map_iff in Hf.
    destruct Hf as (entry & Hp & _).
    destruct (parse_feature_entry_valid entry f Hp). auto.
  - destruct (truthy feature_weights) as [s|].
    + destruct (non_empty _) as [fl|] eqn:En; [|exact Hdefault].
      apply non_empty_Some in En. destruct En as [-> Hne].
      split; [exact Hne|]. intros f Hf. apply keep_some_In, in_map_iff in Hf.
      destruct Hf as (pair & Hp & _).
      destruct (parse_weight_pair_valid market pair f Hp). auto.
    + destruct (truthy feature_cols) as [s|]; [|exact Hdefault].
      destruct (filter _ _) as [|c cols] eqn:Ec; [exact Hdefault|].
      split; [discriminate|]. intros f Hf. apply in_map_iff in Hf.
      destruct Hf as (c' & <- & Hc'). cbn [f_column f_market].
      split; [|now right]. rewrite <- Ec in Hc'. apply filter_In in Hc'.
      now apply str_in_In.
Qed.

(** X22.  Whatever the query strings hold, the feature list the handler
    passes to [run] is never empty and names only the four LMP columns;
    the market of an entry is one of da, rt, dart when it was parsed from
    [features], and is the request's [market] parameter as it came
    otherwise. *)
Theorem request_features_valid (features feature_cols feature_weights : option string)
    (market : string) :
  let fl := request_features strip lower float_of features feature_cols
                             feature_weights market in
  fl <> [] /\
  forall f, In f fl ->
    In (f_column f) VALID_COLS /\
    (In (f_market f) VALID_MARKETS \/ f_market f = market).
Proof.
  exact (request_features_valid_aux features feature_cols feature_weights market).
Qed.

(** X23.  The handler answers a pipeline failure with status 500 and one
    of two details: the target date has no hourly data, or no historical
    day matched the target hours.  The feature list it builds can cause
    neither an index error nor a missing column in [run]. *)
Theorem api_failure_details (target_date : option Z) (hub market : string)
    (n_neighbors : Z) (metric : string) (hist_start hist_end : option Z)
    (hours days_of_week months features feature_cols feature_weights : option string)
    (status : Z) (detail : string) :
  like_day strip lower float_of int_of tomorrow pull dayofweek month
           target_date hub market n_neighbors metric hist_start hist_end
           hours days_of_week months features feature_cols feature_weights
  = HTTPException status detail ->
  status = 500%Z /\
  (detail = "Pipeline error: Target date has no hourly data" \/
   detail = "Pipeline error: No historical days matched the target hours").
Proof.
  unfold like_day.
  destruct (parse_int_list int_of hours) as [hours_list|]; [|discriminate].
  destruct (parse_int_list int_of days_of_week) as [days_list|]; [|discriminate].
  destruct (parse_int_list int_of months) as [months_list|]; [|discriminate].
  set (fl := request_features strip lower float_of features feature_cols
                              feature_weights market).
  destruct (request_features_valid_aux features feature_cols feature_weights market)
    as [Hne Hvalid]. fold fl in Hne, Hvalid.
  destruct (run _ _ _ _ _ _ _ _ _ _ _ _ _) as [res prof t|msg|k|] eqn:Erun.
  - discriminate.
  - intros H; injection H as <- <-. split; [reflexivity|].
    destruct (run_messages _ _ _ _ _ _ _ _ _ _ _ _ _ _ Erun) as [-> | ->]; auto.
  - exfalso.
    apply (proj1 (run_key_error_cases _ _ _ _ _ _ _ _ _ _ _ _ _) ) with (k := k) in Erun;
      [exact Erun|].
    intros f Hf. apply (Hvalid f Hf).
  - exfalso. apply run_index_error_cases in Erun. injection Erun as E.
    exact (Hne E).
Qed.

End ApiFacts.

(** A request for real-time prices of a day the real-time market does not
    hold yet. *)
Lemma sample_api_failure :
  like_day (fun s => s) (fun s => s) (fun _ => None) (fun _ => None) 100
           sample_pull (fun _ => 0%Z) (fun _ => 1%Z)
           None "WESTERN HUB" "rt" 5 "mae" None None None None None None None None
  = HTTPException 500 "Pipeline error: Target date has no hourly data".
Proof.
  unfold like_day. cbn [parse_int_list truthy request_features].
  rewrite (run_target_missing_aux sample_pull _ _ 100 "WESTERN HUB" _ 5 "mae"
             None None None None None "rt").
  - reflexivity.
  - left; reflexivity.
  - intros p Hp. cbn in Hp.
    destruct Hp as [<-|[<-|[<-|[<-|[<-|[]]]]]]; discriminate.
Qed.

Lemma api_failure_details_witness :
  500%Z = 500%Z /\
  ("Pipeline error: Target date has no hourly data" =
   "Pipeline error: Target date has no hourly data" \/
   "Pipeline error: Target date has no hourly data" =
   "Pipeline error: No historical days matched the target hours").
Proof.
  exact (api_failure_details (fun s => s) (fun s => s) (fun _ => None) (fun _ => None)
           100 sample_pull (fun _ => 0%Z) (fun _ => 1%Z)
           None "WESTERN HUB" "rt" 5 "mae" None None None None None None None None
           500 "Pipeline error: Target date has no hourly data" sample_api_failure).
Defined.

(** ** Integer lists of the request *)

Section IntLists.

Variable strip : string -> string.
Variable lower : string -> string.
Variable float_of : string -> option R.
Variable int_of : string -> option Z.
Variable tomorrow : Z.
Variable pull : string -> string -> DataFrame.
Variable dayofweek : Z -> Z.
Variable month : Z -> Z.

Lemma all_ints_None (parts : list string) :
  all_ints int_of parts = None <-> exists p, In p parts /\ int_of p = None.
Proof.
  induction parts as [|p ps IH]; simpl.
  - split; [discriminate|intros (p & [] & _)].
  - destruct (int_of p) as [z|] eqn:Ep.
    + destruct (all_ints int_of ps) as [zs|] eqn:Eps.
      * split; [discriminate|]. intros (q & [<-|Hq] & Eq); [congruence|].
        assert (H : Some zs = None) by (apply IH; now exists q).
        discriminate H.
      * split; [|reflexivity]. intros _.
        destruct (proj1 IH eq_refl) as (q & Hq & Eq). exists q. auto.
    + split; [|reflexivity]. intros _. exists p. auto.
Qed.

Lemma parse_int_list_None (q : option string) :
  parse_int_list int_of q = None <-> bad_int_list int_of q.
Proof.
  unfold parse_int_list, bad_int_list. destruct (truthy q) as [s|].
  - destruct (all_ints int_of (split_on "," s)) as [zs|] eqn:E.
    + split; [discriminate|]. intros (s' & p & Es & Hp & Ep). injection Es as <-.
      assert (H : all_ints int_of (split_on "," s) = None)
        by (apply all_ints_None; now exists p).
      congruence.
    + split; [|reflexivity]. intros _. apply all_ints_None in E.
      destruct E as (p & Hp & Ep). now exists s, p.
  - split; [discriminate|]. intros (s & p & Es & _). discriminate Es.
Qed.

(** X24.  A part of [hours], [days_of_week] or [months] that is not an
    integer is the one thing the handler does not turn into its own
    error: the conversion fails before the pipeline is entered, outside
    the handler's error handling, and in no other case does a
    [ValueError] escape. *)
Theorem api_unhandled_iff (target_date : option Z) (hub market : string)
    (n_neighbors : Z) (metric : string) (hist_start hist_end : option Z)
    (hours days_of_week months features feature_cols feature_weights : option string) :
  like_day strip lower float_of int_of tomorrow pull dayofweek month
           target_date hub market n_neighbors metric hist_start hist_end
           hours days_of_week months features feature_cols feature_weights
  = UnhandledValueError
  <-> bad_int_list int_of hours \/ bad_int_list int_of days_of_week \/
      bad_int_list int_of months.
Proof.
  rewrite <- !parse_int_list_None. unfold like_day.
  destruct (parse_int_list int_of hours) as [hl|]; [|split; auto].
  destruct (parse_int_list int_of days_of_week) as [dl|];
    [|split; auto].
  destruct (parse_int_list int_of months) as [ml|]; [|split; auto].
  destruct (run _ _ _ _ _ _ _ _ _ _ _ _ _); split;
    try discriminate; intros [H|[H|H]]; discriminate H.
Qed.

End IntLists.

(** ** Hour coverage of the days [run] returns *)

Lemma filter_same_date (keep : HourlyRow -> bool) (d : Z) (l : DataFrame) :
  (forall r, date r = d -> keep r = true) ->
  filter (fun r => Z.eqb (date r) d) (filter keep l) =
  filter (fun r => Z.eqb (date r) d) l.
Proof.
  intros Hk. induction l as [|r l IH]; simpl; [reflexivity|].
  destruct (Z.eqb_spec (date r) d) as [E|N].
  - rewrite (Hk r E). simpl. destruct (Z.eqb_spec (date r) d); [|contradiction].
    now rewrite IH.
  - destruct (keep r); simpl; [|exact IH].
    destruct (Z.eqb_spec (date r) d); [contradiction|exact IH].
Qed.

Lemma filter_opt_same_date {A : Type} (arg : option A)
    (keep : A -> HourlyRow -> bool) (d : Z) (l : DataFrame) :
  (forall a r, arg = Some a -> date r = d -> keep a r = true) ->
  filter (fun r => Z.eqb (date r) d) (filter_opt arg keep l) =
  filter (fun r => Z.eqb (date r) d) l.
Proof.
  destruct arg as [a|]; simpl; [|reflexivity].
  intros H. apply filter_same_date. intros r E. now apply H.
Qed.

Section HourCoverage.

Variable pull : string -> string -> DataFrame.
Variable dayofweek : Z -> Z.
Variable month : Z -> Z.

(** A date that has a row in the historical pool keeps all its rows
    there: the pool's filters look at the date only. *)
Lemma historical_pool_whole_days (target_date : Z) (hist_start hist_end : option Z)
    (days_of_week months : option (list Z)) (df : DataFrame) (r0 : HourlyRow) :
  In r0 (historical_pool dayofweek month target_date hist_start hist_end
                         days_of_week months df) ->
  hour_count (date r0)
             (historical_pool dayofweek month target_date hist_start hist_end
                              days_of_week months df)
  = hour_count (date r0) df.
Proof.
  intros Hin. apply historical_pool_In in Hin.
  destruct Hin as (_ & Hlt & Hs & He & Hd & Hm).
  unfold hour_count, historical_pool. f_equal.
  rewrite !filter_opt_same_date, filter_same_date; try reflexivity.
  - intros r E. rewrite E. now apply Z.ltb_lt.
  - intros s r Es E. rewrite E. apply Z.leb_le. now apply Hs.
  - intros e r Ee E. rewrite E. apply Z.leb_le. now apply He.
  - intros ds r Eds E. rewrite E. apply isin_In. now apply Hd.
  - intros ms r Ems E. rewrite E. apply isin_In. now apply Hm.
Qed.

(** X25.  The hour filter is applied before the table is split into the
    target day and the history, and the history's other filters keep or
    drop whole days.  So every like day that [run] returns has, in the
    joined table cut to the requested hours, exactly as many rows as the
    target date, and that number is not zero. *)
Theorem like_days_cover_target_hours (target_date : Z) (hub : string)
    (features : option (list FeatureSpec)) (n : Z) (metric : string)
    (hist_start hist_end : option Z) (hours days_of_week months : option (list Z))
    (res : list MatchResult) (profiles : list (string * HourlyRow)) (t : Z) :
  run pull dayofweek month target_date hub features n metric hist_start hist_end
      hours days_of_week months = RunOk res profiles t ->
  exists first others,
    sorted_set (map f_market (effective_features features)) = first :: others /\
    let df := filter_opt hours (fun hs r => isin hs (hour_ending r))
                         (join_markets pull hub first others) in
    (0 < hour_count target_date df)%nat /\
    forall m, In m res -> hour_count (m_date m) df = hour_count target_date df.
Proof.
  intros Hrun.
  destruct (run_ok_inv _ _ _ _ _ _ _ _ _ _ _ _ _ _ _ _ Hrun)
    as (first & others & Hu & Hok & _ & _).
  exists first, others. split; [exact Hu|]. cbv zeta in Hok |- *.
  set (df := filter_opt hours _ _) in *.
  split.
  - rewrite find_like_days_eq in Hok. cbv zeta in Hok.
    unfold hour_count.
    destruct (List.length (filter (fun r => Z.eqb (date r) target_date) df));
      [discriminate Hok|lia].
  - intros m Hm.
    destruct (result_row_origin _ _ _ _ _ _ _ Hok m Hm) as [Hin _].
    apply surviving_days_In in Hin. destruct Hin as [Hin Hc].
    apply in_map_iff in Hin. destruct Hin as (r0 & E & Hr0).
    rewrite <- E in Hc |- *.
    rewrite historical_pool_whole_days in Hc by exact Hr0.
    exact Hc.
Qed.

End HourCoverage.

Lemma like_days_cover_target_hours_witness :
  hour_count 99 (_pull_and_prefix sample_pull "WESTERN HUB" "da")
  = hour_count 100 (_pull_and_prefix sample_pull "WESTERN HUB" "da").
Proof.
  destruct (like_days_cover_target_hours sample_pull (fun _ => 0%Z) (fun _ => 1%Z)
              100 "WESTERN HUB" (Some sample_features) 5 "mae"
              None None None None None sample_result _ 100
              (sample_pipeline_run _ _)) as (first & others & Hu & _ & H).
  change (sorted_set (map f_market (effective_features (Some sample_features))))
    with ["da"] in Hu.
  injection Hu as <- <-.
  apply (H {| m_date := 99; rank := 3; distance := Fin 1; similarity := Fin 0 |}).
  right; right; left; reflexivity.
Defined.
